(** * fund_tracker_v2.py: the holdings pipeline

    A shallow embedding of the data pipeline of [fund_tracker_v2.py]
    ([preprocess_filings_df], [filter_date_range], [filter_top_k_holdings],
    the data part of [make_graph] and the part of the script that chains
    them) and the properties of it that the specification states, followed
    by further properties of the same functions.  The two scrapers
    ([gather_fund_list], [scrape_filings]) read web pages and are not
    represented: the embedding starts from the frame [scrape_filings]
    returns.

    Conventions of the embedding.
    - A pandas [DataFrame] is the list of its rows, in index order; the
      index itself ([reset_index]) is not represented.
    - A datetime is the proleptic Gregorian ordinal of its day (Python's
      [date.toordinal]); all the datetimes of the program are midnights, so
      comparing ordinals is comparing timestamps and [timedelta(days=n)] is
      the integer [n].
    - Numeric cells are integers.  The program only compares them, multiplies
      one column by 1000 and writes the constant 0, and any finite set of
      floats embeds in the integers with its order and its zero.
    - The quarter label (['Q1 2023']) is kept in parsed form, a quarter
      number and a year; [get_quarter_end] starts from there.  The text of a
      'Date Filed' cell is kept in parsed form as well, a year, a month and
      a day; [to_datetime] starts from there.
    - [sort_values] is modelled by a stable sort: rows with equal keys keep
      their relative order.  The proofs of the general properties below use
      of it only that its result is an ordered permutation of its argument,
      so they do not depend on how pandas orders such rows.
    - A symbol ('Ticker') is a string, never null; the percentage of a
      scraped row may be null (NaN).
    - The functions are taken as executed: the [st.cache_data] decorators,
      which skip a call whose arguments were seen before, are not
      represented, and neither is the drawing of the chart. *)

From Stdlib Require Import List ZArith String Ascii Bool Lia DecimalString.
From Stdlib Require Import Permutation Sorted OrdersEx RelationClasses.
Import ListNotations.

Open Scope Z_scope.

(* ================================================================== *)
(** ** Exceptions *)

Inductive exn : Type :=
| KeyError (key : string)
| IndexError.

Inductive result (A : Type) : Type :=
| Ok (a : A)
| Raise (e : exn).

Arguments Ok {A} a.
Arguments Raise {A} e.

Definition bind {A B : Type} (c : result A) (k : A -> result B) : result B :=
  match c with
  | Ok a => k a
  | Raise e => Raise e
  end.

Notation "x <- c ;; k" := (bind c (fun x => k))
  (at level 61, c at next level, right associativity).

Definition raises {A : Type} (c : result A) : Prop :=
  exists e, c = Raise e.

(** A function that may write to the object it is given: it maps the
    object before the call to the object after the call and the outcome. *)
Definition Stage (Obj A : Type) : Type := Obj -> Obj * result A.

Definition object_after {Obj A : Type} (f : Stage Obj A) (o : Obj) : Obj :=
  fst (f o).

Definition outcome {Obj A : Type} (f : Stage Obj A) (o : Obj) : result A :=
  snd (f o).

(* ================================================================== *)
(** ** Generic column operations *)

Section Columns.
Context {A : Type}.

(** [df.iloc[0]] *)
Definition iloc0 (l : list A) : result A :=
  match l with
  | [] => Raise IndexError
  | x :: _ => Ok x
  end.

(** [Series.unique()]: the distinct values, in order of first appearance. *)
Fixpoint unique (eqb : A -> A -> bool) (l : list A) : list A :=
  match l with
  | [] => []
  | x :: l' => x :: filter (fun y => negb (eqb x y)) (unique eqb l')
  end.

(** [sort_values]: stable insertion of each row among the rows after it. *)
Fixpoint insert_row (le : A -> A -> bool) (x : A) (l : list A) : list A :=
  match l with
  | [] => [x]
  | y :: l' => if le x y then x :: l else y :: insert_row le x l'
  end.

Definition sort_values (le : A -> A -> bool) (l : list A) : list A :=
  fold_right (insert_row le) [] l.

(** [Series.head(k)]: the first [k] rows, and for a negative [k] all rows
    but the last [-k]. *)
Definition head (k : Z) (l : list A) : list A :=
  if 0 <=? k then firstn (Z.to_nat k) l
  else firstn (List.length l - Z.to_nat (- k)) l.
End Columns.

(** [Series.min()] and [Series.max()] of a datetime column; [None] is NaT. *)
Definition col_min (l : list Z) : option Z :=
  match l with
  | [] => None
  | x :: l' => Some (fold_left Z.min l' x)
  end.

Definition col_max (l : list Z) : option Z :=
  match l with
  | [] => None
  | x :: l' => Some (fold_left Z.max l' x)
  end.

(** [x in values] *)
Definition isin_Z (x : Z) (l : list Z) : bool := existsb (Z.eqb x) l.
Definition isin_str (x : string) (l : list string) : bool := existsb (String.eqb x) l.

(* ================================================================== *)
(** ** Dates *)

Definition is_leap (y : Z) : bool :=
  ((y mod 4 =? 0) && negb (y mod 100 =? 0)) || (y mod 400 =? 0).

Definition days_before_year (y : Z) : Z :=
  (y - 1) * 365 + (y - 1) / 4 - (y - 1) / 100 + (y - 1) / 400.

Definition days_before_month (y m : Z) : Z :=
  nth (Z.to_nat m) [0; 0; 31; 59; 90; 120; 151; 181; 212; 243; 273; 304; 334] 0
  + (if (2 <? m) && is_leap y then 1 else 0).

(** [datetime(year, month, day)] *)
Definition datetime (y m d : Z) : Z :=
  days_before_year y + days_before_month y m + d.

Inductive QuarterNo : Type := Q1 | Q2 | Q3 | Q4.

(** The 'Quarter' cell, e.g. ['Q3 2023']. *)
Record QuarterLabel : Type := {
  quarter_no : QuarterNo;
  quarter_year : Z
}.

Definition get_quarter_end (quarter_str : QuarterLabel) : Z :=
  let year := quarter_year quarter_str in
  match quarter_no quarter_str with
  | Q1 => datetime year 3 31
  | Q2 => datetime year 6 30
  | Q3 => datetime year 9 30
  | Q4 => datetime year 12 31
  end.

(** A 'Date Filed' cell: the text of a date, as scraped, or a datetime. *)
Inductive DateCell : Type :=
| DateText (y m d : Z)
| Timestamp (t : Z).

(** [pd.to_datetime] on one cell: a text is read, a datetime is kept. *)
Definition to_datetime (c : DateCell) : DateCell :=
  match c with
  | DateText y m d => Timestamp (datetime y m d)
  | Timestamp t => Timestamp t
  end.

(* ================================================================== *)
(** ** Rows *)

Inductive OptionType : Type := NoOption | Put | Call.

(** A row as scraped: 'Date Filed' is a text, the value is in thousands and
    the percentage may be NaN ([None]). *)
Record RawRow : Type := {
  raw_Quarter : QuarterLabel;
  raw_Date_Filed : DateCell;
  raw_Ticker : string;
  raw_Company_Name : string;
  raw_Class : string;
  raw_CUSIP : string;
  raw_Value_000 : Z;
  raw_Percentage : option Z;
  raw_Shares : Z;
  raw_Principal : Z;
  raw_Option_Type : OptionType
}.

(** A holding record: the columns after the rename and the [dropna]. *)
Record Holding : Type := {
  Quarter : QuarterLabel;
  Date_Filed : DateCell;
  Ticker : string;
  Company_Name : string;
  Class_ : string;
  CUSIP : string;
  Value : Z;
  Percentage : Z;
  Shares : Z;
  Principal : Z;
  Option_Type : OptionType
}.

(** A row of the working frame [df], with its two derived columns. *)
Record Row : Type := {
  holding : Holding;
  quarter_end : Z;
  ticker_adjusted : string
}.

(** A row of [updated_df].  The dictionaries of the zero rows have no
    'ticker_adjusted' key, so that cell is NaN ([None]) there. *)
Record OutRow : Type := {
  record : Holding;
  out_quarter_end : Z;
  out_ticker_adjusted : option string
}.

Definition to_dict (r : Row) : OutRow :=
  {| record := holding r;
     out_quarter_end := quarter_end r;
     out_ticker_adjusted := Some (ticker_adjusted r) |}.

(* ================================================================== *)
(** ** preprocess_filings_df *)

(** Lines 114-116: the ticker, with ' (put)' or ' (call)' appended for an
    option position. *)
Definition option_suffix (o : OptionType) : string :=
  match o with
  | NoOption => ""
  | Put => " (put)"
  | Call => " (call)"
  end.

Definition adjust_ticker (h : Holding) : string :=
  (Ticker h ++ option_suffix (Option_Type h))%string.

(** Lines 106-116: the working frame.  The 'quarter_end' column is added,
    the frame is sorted chronologically, then 'ticker_adjusted' is added. *)
Definition add_quarter_end (h : Holding) : Holding * Z :=
  (h, get_quarter_end (Quarter h)).

Definition add_ticker_adjusted (hq : Holding * Z) : Row :=
  {| holding := fst hq;
     quarter_end := snd hq;
     ticker_adjusted := adjust_ticker (fst hq) |}.

Definition working_frame (records : list Holding) : list Row :=
  map add_ticker_adjusted
      (sort_values (fun a b => snd a <=? snd b) (map add_quarter_end records)).

(** Line 119 *)
Definition all_quarters_of (df : list Row) : list Z :=
  sort_values Z.leb (unique Z.eqb (map quarter_end df)).

(** Lines 138-149: the row appended for a missing quarter.  [at_quarter] is
    [df[df['quarter_end'] == quarter].iloc[0]] and [first] is
    [ticker_df.iloc[0]]. *)
Definition mk_zero_row (at_quarter first : Row) (ticker : string)
    (quarter : Z) : OutRow :=
  {| record :=
       {| Quarter := Quarter (holding at_quarter);
          Date_Filed := Date_Filed (holding at_quarter);
          Ticker := ticker;
          Company_Name := Company_Name (holding first);
          Class_ := Class_ (holding first);
          CUSIP := CUSIP (holding first);
          Value := 0;
          Percentage := 0;
          Shares := 0;
          Principal := Principal (holding first);
          Option_Type := Option_Type (holding first) |};
     out_quarter_end := quarter;
     out_ticker_adjusted := None |}.

Definition zero_row (df : list Row) (ticker : string) (ticker_df : list Row)
    (quarter : Z) : result OutRow :=
  at_quarter <- iloc0 (filter (fun r => quarter_end r =? quarter) df) ;;
  first <- iloc0 ticker_df ;;
  Ok (mk_zero_row at_quarter first ticker quarter).

(** Line 152: the existing row, the first one of the ticker at that quarter. *)
Definition existing_row (ticker_df : list Row) (quarter : Z) : result OutRow :=
  r <- iloc0 (filter (fun r => quarter_end r =? quarter) ticker_df) ;;
  Ok (to_dict r).

(** Lines 133-152: the inner loop; the result is what it appends to
    [updated_rows]. *)
Fixpoint quarters_loop (df : list Row) (ticker : string) (ticker_df : list Row)
    (min_date max_date : Z) (quarters : list Z) : result (list OutRow) :=
  match quarters with
  | [] => Ok []
  | quarter :: rest =>
      if (quarter <? min_date) || (quarter >? max_date)
      then quarters_loop df ticker ticker_df min_date max_date rest
      else
        row <- (if negb (isin_Z quarter (map quarter_end ticker_df))
                then zero_row df ticker ticker_df quarter
                else existing_row ticker_df quarter) ;;
        rows <- quarters_loop df ticker ticker_df min_date max_date rest ;;
        Ok (row :: rows)
  end.

(** Lines 125-152: one iteration of the outer loop. *)
Definition ticker_rows (df : list Row) (all_quarters : list Z)
    (ticker : string) : result (list OutRow) :=
  let ticker_df := filter (fun r => String.eqb (ticker_adjusted r) ticker) df in
  match col_min (map quarter_end ticker_df), col_max (map quarter_end ticker_df) with
  | Some min_date, Some max_date =>
      quarters_loop df ticker ticker_df min_date max_date all_quarters
  | _, _ => Ok []   (* len(ticker_df) == 0: continue *)
  end.

(** Lines 123-152: the outer loop. *)
Fixpoint tickers_loop (df : list Row) (all_quarters : list Z)
    (tickers : list string) : result (list OutRow) :=
  match tickers with
  | [] => Ok []
  | ticker :: rest =>
      rows <- ticker_rows df all_quarters ticker ;;
      more <- tickers_loop df all_quarters rest ;;
      Ok (rows ++ more)
  end.

(** Line 154: [pd.DataFrame(updated_rows)].  The columns are the keys of the
    dictionaries, so a frame built from no dictionary has no column. *)
Definition dict_keys (r : OutRow) : list string :=
  ["Quarter"; "Date Filed"; "Ticker"; "Company Name"; "Class"; "CUSIP";
   "Value"; "Percentage"; "Shares"; "Principal"; "Option Type"; "quarter_end"]%string
  ++ match out_ticker_adjusted r with
     | Some _ => ["ticker_adjusted"%string]
     | None => []
     end.

Definition frame_columns (rows : list OutRow) : list string :=
  unique String.eqb (flat_map dict_keys rows).

(** Line 157: [sort_values(by=['Ticker', 'quarter_end'])]. *)
Definition ticker_quarter_le (a b : OutRow) : bool :=
  match String.compare (Ticker (record a)) (Ticker (record b)) with
  | Lt => true
  | Eq => out_quarter_end a <=? out_quarter_end b
  | Gt => false
  end.

Definition sort_by_ticker_quarter (rows : list OutRow) : result (list OutRow) :=
  let columns := frame_columns rows in
  if negb (isin_str "Ticker" columns) then Raise (KeyError "Ticker")
  else if negb (isin_str "quarter_end" columns) then Raise (KeyError "quarter_end")
  else Ok (sort_values ticker_quarter_le rows).

(** Lines 95-159: the timeline normalizer, from holding records to the
    normalized table. *)
Definition updated_rows_of (records : list Holding) : result (list OutRow) :=
  let df := working_frame records in
  tickers_loop df (all_quarters_of df) (unique String.eqb (map ticker_adjusted df)).

Definition normalize (records : list Holding) : result (list OutRow) :=
  updated_rows <- updated_rows_of records ;;
  sort_by_ticker_quarter updated_rows.

(** Lines 86-93.  The assignments of lines 86 and 89 write into the frame
    the caller passed: the first puts datetimes in its 'Date Filed' column,
    the second multiplies its 'Value ($000)' column by 1000.  [rename] and
    [dropna] then build new frames, which is what [df] names from line 90
    on. *)
Definition convert_date_filed (r : RawRow) : RawRow :=
  {| raw_Quarter := raw_Quarter r;
     raw_Date_Filed := to_datetime (raw_Date_Filed r);
     raw_Ticker := raw_Ticker r;
     raw_Company_Name := raw_Company_Name r;
     raw_Class := raw_Class r;
     raw_CUSIP := raw_CUSIP r;
     raw_Value_000 := raw_Value_000 r;
     raw_Percentage := raw_Percentage r;
     raw_Shares := raw_Shares r;
     raw_Principal := raw_Principal r;
     raw_Option_Type := raw_Option_Type r |}.

Definition scale_value (r : RawRow) : RawRow :=
  {| raw_Quarter := raw_Quarter r;
     raw_Date_Filed := raw_Date_Filed r;
     raw_Ticker := raw_Ticker r;
     raw_Company_Name := raw_Company_Name r;
     raw_Class := raw_Class r;
     raw_CUSIP := raw_CUSIP r;
     raw_Value_000 := 1000 * raw_Value_000 r;
     raw_Percentage := raw_Percentage r;
     raw_Shares := raw_Shares r;
     raw_Principal := raw_Principal r;
     raw_Option_Type := raw_Option_Type r |}.

Fixpoint rename_dropna (df : list RawRow) : list Holding :=
  match df with
  | [] => []
  | r :: rest =>
      match raw_Percentage r with
      | None => rename_dropna rest
      | Some p =>
          {| Quarter := raw_Quarter r;
             Date_Filed := raw_Date_Filed r;
             Ticker := raw_Ticker r;
             Company_Name := raw_Company_Name r;
             Class_ := raw_Class r;
             CUSIP := raw_CUSIP r;
             Value := raw_Value_000 r;
             Percentage := p;
             Shares := raw_Shares r;
             Principal := raw_Principal r;
             Option_Type := raw_Option_Type r |} :: rename_dropna rest
      end
  end.

Definition preprocess_filings_df : Stage (list RawRow) (list OutRow) :=
  fun df =>
    let df := map convert_date_filed df in
    let df := map scale_value df in
    (df, normalize (rename_dropna df)).

(* ================================================================== *)
(** ** filter_date_range *)

(** Comparisons of a 'quarter_end' cell with a bound; against NaT ([None])
    both are false.  [later_of] is [max] of two timestamps. *)
Definition on_or_after (q : Z) (bound : option Z) : bool :=
  match bound with
  | Some d => d <=? q
  | None => false
  end.

Definition on_or_before (q : Z) (bound : option Z) : bool :=
  match bound with
  | Some d => q <=? d
  | None => false
  end.

Definition later_of (a b : option Z) : option Z :=
  match a, b with
  | Some x, Some y => Some (Z.max x y)
  | _, _ => None
  end.

Definition minus_days (a : option Z) (days : Z) : option Z :=
  option_map (fun x => x - days) a.

(** [date_input label value] is the date the user picks in the widget
    [st.date_input(label, value=value)]. *)
Definition filter_date_range (date_input : string -> option Z -> Z)
    (date_range : string) : Stage (list OutRow) (list OutRow) :=
  fun df =>
    let quarter_ends := map out_quarter_end df in
    let end_date := col_max quarter_ends in
    let window :=
      if String.eqb date_range "1Y" then
        (later_of (col_min quarter_ends) (minus_days (col_max quarter_ends) 365),
         end_date)
      else if String.eqb date_range "3Y" then
        (later_of (col_min quarter_ends) (minus_days (col_max quarter_ends) (3 * 365)),
         end_date)
      else if String.eqb date_range "5Y" then
        (later_of (col_min quarter_ends) (minus_days (col_max quarter_ends) (5 * 365)),
         end_date)
      else if String.eqb date_range "Max" then
        (col_min quarter_ends, end_date)
      else
        (Some (date_input "Start date"%string (col_min quarter_ends)),
         Some (date_input "End date"%string (col_max quarter_ends))) in
    (df,
     Ok (filter (fun r => on_or_after (out_quarter_end r) (fst window)
                          && on_or_before (out_quarter_end r) (snd window)) df)).

(* ================================================================== *)
(** ** filter_top_k_holdings *)

Definition at_date (q : Z) (d : option Z) : bool :=
  match d with
  | Some x => q =? x
  | None => false
  end.

Definition top_holdings_of (df_filtered : list OutRow) (k : Z) : list string :=
  let end_date := col_max (map out_quarter_end df_filtered) in
  let df_end_date := filter (fun r => at_date (out_quarter_end r) end_date) df_filtered in
  let df_end_date_sorted :=
    sort_values (fun a b => Percentage (record b) <=? Percentage (record a)) df_end_date in
  unique String.eqb (head k (map (fun r => Ticker (record r)) df_end_date_sorted)).

Definition filter_top_k_holdings (k : Z) : Stage (list OutRow) (list OutRow) :=
  fun df =>
    let df_filtered :=
      sort_values (fun a b => out_quarter_end a <=? out_quarter_end b) df in
    let top_holdings := top_holdings_of df_filtered k in
    (df,
     Ok (filter (fun r => isin_str (Ticker (record r)) top_holdings) df_filtered)).

(* ================================================================== *)
(** ** make_graph *)

(** [sub in s] *)
Fixpoint contains (sub s : string) : bool :=
  String.prefix sub s
  || match s with
     | EmptyString => false
     | String _ s' => contains sub s'
     end.

Record Trace : Type := {
  trace_name : string;
  trace_points : list (Z * Z);
  trace_dashed : bool
}.

Record Figure : Type := {
  fig_title : string;
  fig_traces : list Trace;
  fig_tickvals : list Z;
  fig_ticktext : list QuarterLabel
}.

Definition y_axis_mapping (y_axis : string) : result (Holding -> Z) :=
  if String.eqb y_axis "Percentage of portfolio" then Ok Percentage
  else if String.eqb y_axis "Number of shares" then Ok Shares
  else if String.eqb y_axis "Value" then Ok Value
  else Raise (KeyError y_axis).

(** Lines 205-207: the 'ticker_adjusted' column is written again, from
    'Ticker' and 'Option Type', into the frame the caller passed. *)
Definition relabel (r : OutRow) : OutRow :=
  {| record := record r;
     out_quarter_end := out_quarter_end r;
     out_ticker_adjusted := Some (adjust_ticker (record r)) |}.

Definition label_of (r : OutRow) : string :=
  match out_ticker_adjusted r with
  | Some t => t
  | None => ""
  end.

(** Lines 210-233.  The patterns of [str.contains] are regular expressions:
    ['(call)'] is a group and matches the text [call].  The test of line 232
    is a plain substring test. *)
Definition make_graph (y_axis : string) : Stage (list OutRow) Figure :=
  fun df_filtered =>
    let df_filtered := map relabel df_filtered in
    let labels := map label_of df_filtered in
    let title :=
      if existsb (contains "call") labels || existsb (contains "put") labels
      then (y_axis ++ " over time<br><sub>(Options displayed with dashed lines)</sub>")%string
      else (y_axis ++ " over time")%string in
    (df_filtered,
     y <- y_axis_mapping y_axis ;;
     Ok {| fig_title := title;
           fig_traces :=
             map (fun name =>
                    {| trace_name := name;
                       trace_points :=
                         map (fun r => (out_quarter_end r, y (record r)))
                             (filter (fun r => String.eqb (label_of r) name) df_filtered);
                       trace_dashed := contains "(put)" name || contains "(call)" name |})
                 (unique String.eqb labels);
           fig_tickvals := map out_quarter_end df_filtered;
           fig_ticktext := map (fun r => Quarter (record r)) df_filtered |}).

(* ================================================================== *)
(** ** The dashboard script *)

(** Line 17 *)
Definition MAX_HOLDINGS : Z := 300.

(** Equality of two 'ticker_adjusted' cells as [unique] and [isin] take it:
    NaN ([None]) is one value. *)
Definition label_eqb (a b : option string) : bool :=
  match a, b with
  | Some x, Some y => String.eqb x y
  | None, None => true
  | _, _ => false
  end.

(** [str(n)] *)
Definition str_of_nat (n : nat) : string :=
  NilEmpty.string_of_uint (Nat.to_uint n).

(** Lines 276-292.  [multiselect prompt options] is the list the user picks
    in the widget [st.multiselect(prompt, options)]. *)
Definition select_holdings
    (multiselect : string -> list (option string) -> list (option string))
    (holdings_filter_option : string) (df_filtered : list OutRow)
    : result (list OutRow) :=
  if String.eqb holdings_filter_option "Top 5 holdings" then
    outcome (filter_top_k_holdings 5) df_filtered
  else if String.eqb holdings_filter_option "Top 10 holdings" then
    outcome (filter_top_k_holdings 10) df_filtered
  else
    let labels := unique label_eqb (map out_ticker_adjusted df_filtered) in
    if String.eqb holdings_filter_option "All holdings"
       && (MAX_HOLDINGS <? Z.of_nat (List.length labels))
    then
      top_holdings_df <- outcome (filter_top_k_holdings MAX_HOLDINGS) df_filtered ;;
      let prompt :=
        ("Select additional tickers (optional, only displaying the top "
           ++ str_of_nat (Z.to_nat MAX_HOLDINGS) ++ " out of "
           ++ str_of_nat (List.length labels) ++ " total holdings)")%string in
      let selected_additional_tickers := multiselect prompt labels in
      let additional_tickers_df :=
        filter (fun r => existsb (label_eqb (out_ticker_adjusted r))
                                 selected_additional_tickers)
               df_filtered in
      Ok (top_holdings_df ++ additional_tickers_df)
    else Ok df_filtered.

(** Lines 262-295, from the scraped frame to the chart that is drawn. *)
Definition dashboard (date_input : string -> option Z -> Z)
    (multiselect : string -> list (option string) -> list (option string))
    (date_range y_axis holdings_filter_option : string)
    (df : list RawRow) : result Figure :=
  df <- outcome preprocess_filings_df df ;;
  df_filtered <- outcome (filter_date_range date_input date_range) df ;;
  df_filtered <- select_holdings multiselect holdings_filter_option df_filtered ;;
  outcome (make_graph y_axis) df_filtered.

(* ================================================================== *)
(** ** The vocabulary of the specification *)

(** [seriesId] and [periodEndDate] of a holding record. *)
Definition series_id (h : Holding) : string := adjust_ticker h.
Definition period_end (h : Holding) : Z := get_quarter_end (Quarter h).

(** The quarters at which the series [s] is observed in [records]. *)
Definition observed_quarters (records : list Holding) (s : string) : list Z :=
  map period_end (filter (fun h => String.eqb (series_id h) s) records).

(** The series a row of the normalized table belongs to: the label it
    carries in 'ticker_adjusted' and, for a zero row, which has no such
    cell, the identifier written in its 'Ticker' cell. *)
Definition out_series (r : OutRow) : string :=
  match out_ticker_adjusted r with
  | Some t => t
  | None => Ticker (record r)
  end.

Definition is_row_of (s : string) (q : Z) (r : OutRow) : bool :=
  String.eqb (out_series r) s && (out_quarter_end r =? q).

(** [normalize(records).rows]: the holding records of a table. *)
Definition rows (table : list OutRow) : list Holding := map record table.

(** Order of a table by 'Ticker', then 'quarter_end'. *)
Definition ticker_quarter_order (a b : OutRow) : Prop :=
  ticker_quarter_le a b = true.

(** Order of a table by series identifier, then 'quarter_end'. *)
Definition series_quarter_le (a b : OutRow) : bool :=
  match String.compare (series_id (record a)) (series_id (record b)) with
  | Lt => true
  | Eq => out_quarter_end a <=? out_quarter_end b
  | Gt => false
  end.

Definition distinct_symbols (table : list OutRow) : list string :=
  unique String.eqb (map (fun r => Ticker (record r)) table).

Definition rows_at_max_date (table : list OutRow) : list OutRow :=
  filter (fun r => at_date (out_quarter_end r) (col_max (map out_quarter_end table)))
         table.

(* ================================================================== *)
(** ** Definitions for the statements and their proofs *)

Definition is_min (m : Z) (l : list Z) : Prop :=
  In m l /\ forall x, In x l -> m <= x.

Definition is_max (m : Z) (l : list Z) : Prop :=
  In m l /\ forall x, In x l -> x <= m.

Definition group (df : list Row) (ticker : string) : list Row :=
  filter (fun r => String.eqb (ticker_adjusted r) ticker) df.

Definition in_span (min_date max_date quarter : Z) : bool :=
  negb ((quarter <? min_date) || (quarter >? max_date)).

(** The quarters of the axis inside the holding period of a ticker. *)
Definition span_quarters (df : list Row) (all_quarters : list Z)
    (ticker : string) : list Z :=
  match col_min (map quarter_end (group df ticker)),
        col_max (map quarter_end (group df ticker)) with
  | Some min_date, Some max_date => filter (in_span min_date max_date) all_quarters
  | _, _ => []
  end.

(** Where the row appended for a ticker and a quarter comes from. *)
Inductive row_origin (df : list Row) (ticker : string) (quarter : Z)
  : OutRow -> Prop :=
| origin_existing (r0 : Row) :
    hd_error (filter (fun r => quarter_end r =? quarter) (group df ticker)) = Some r0 ->
    row_origin df ticker quarter (to_dict r0)
| origin_zero (at_quarter first : Row) :
    isin_Z quarter (map quarter_end (group df ticker)) = false ->
    hd_error (filter (fun r => quarter_end r =? quarter) df) = Some at_quarter ->
    hd_error (group df ticker) = Some first ->
    row_origin df ticker quarter (mk_zero_row at_quarter first ticker quarter).

Definition row_key (r : OutRow) : string * Z := (out_series r, out_quarter_end r).

(** The keys present in the appended rows, in the order of the loops. *)
Definition span_keys (df : list Row) (all_quarters : list Z)
    (tickers : list string) : list (string * Z) :=
  flat_map (fun t => map (pair t) (span_quarters df all_quarters t)) tickers.

Definition row_of (h : Holding) : Row :=
  {| holding := h; quarter_end := period_end h; ticker_adjusted := series_id h |}.

Definition tickers_of (records : list Holding) : list string :=
  unique String.eqb (map ticker_adjusted (working_frame records)).

Definition key_dec (a b : string * Z) : {a = b} + {a <> b}.
Proof.
  decide equality; [apply Z.eq_dec | apply string_dec].
Defined.

Definition is_preset (date_range : string) : bool :=
  existsb (String.eqb date_range) ["1Y"; "3Y"; "5Y"; "Max"]%string.

Definition by_quarter (a b : OutRow) : bool := out_quarter_end a <=? out_quarter_end b.

Definition by_percentage_desc (a b : OutRow) : bool :=
  Percentage (record b) <=? Percentage (record a).

Definition symbol (r : OutRow) : string := Ticker (record r).

(** The rows at the end date, in the order of the ranking. *)
Definition ranked_rows (df : list OutRow) : list OutRow :=
  sort_values by_percentage_desc (rows_at_max_date (sort_values by_quarter df)).

Definition holding_key (h : Holding) : string * Z := (series_id h, period_end h).

Definition no_options (records : list Holding) : Prop :=
  Forall (fun h => Option_Type h = NoOption) records.

(** No quarter of the axis is missing inside the lifespan of a series. *)
Definition gap_free (records : list Holding) : Prop :=
  forall s q lo hi,
    In q (map period_end records) ->
    In lo (observed_quarters records s) ->
    In hi (observed_quarters records s) ->
    lo <= q <= hi ->
    In q (observed_quarters records s).

(** The order of the quarter labels, and the day a leap year adds. *)
Definition leap_day (y : Z) : Z := if is_leap y then 1 else 0.

Definition quarter_index (q : QuarterNo) : Z :=
  match q with Q1 => 1 | Q2 => 2 | Q3 => 3 | Q4 => 4 end.

Definition label_before (a b : QuarterLabel) : Prop :=
  quarter_year a < quarter_year b
  \/ (quarter_year a = quarter_year b
      /\ quarter_index (quarter_no a) < quarter_index (quarter_no b)).



(** The rows of [df] no more than [days] days before its last quarter end:
    what the presets '1Y', '3Y' and '5Y' keep. *)
Definition days_window (days : Z) (df : list OutRow) : list OutRow :=
  let quarter_ends := map out_quarter_end df in
  filter (fun r =>
            on_or_after (out_quarter_end r)
              (later_of (col_min quarter_ends) (minus_days (col_max quarter_ends) days))
            && on_or_before (out_quarter_end r) (col_max quarter_ends))
         df.

(** A row that carries a 'ticker_adjusted' label: a kept row. *)
Definition labelled (r : OutRow) : bool :=
  match out_ticker_adjusted r with
  | Some _ => true
  | None => false
  end.


(** The point drawn for a row, and the frame split by a column's values. *)
Definition point_of (y : Holding -> Z) (r : OutRow) : Z * Z :=
  (out_quarter_end r, y (record r)).

Definition graph_label (r : OutRow) : string := adjust_ticker (record r).

Definition options_note : string :=
  " over time<br><sub>(Options displayed with dashed lines)</sub>".

(* ================================================================== *)
(** ** Concrete tables *)

Definition example_holding (q : QuarterNo) (ticker : string) (percent : Z)
    (o : OptionType) : Holding :=
  {| Quarter := {| quarter_no := q; quarter_year := 2023 |};
     Date_Filed := Timestamp (datetime 2024 2 14);
     Ticker := ticker;
     Company_Name := (ticker ++ " Corp")%string;
     Class_ := "COM";
     CUSIP := "000000000";
     Value := 1000 * percent;
     Percentage := percent;
     Shares := 10 * percent;
     Principal := 0;
     Option_Type := o |}.

Definition kept_row (h : Holding) : OutRow := to_dict (row_of h).

Definition end_Q1 : Z := datetime 2023 3 31.
Definition end_Q2 : Z := datetime 2023 6 30.

(** CCC is held in Q1 and Q3 and not in Q2, a quarter DDD puts on the axis. *)
Definition gap_records : list Holding :=
  [example_holding Q1 "CCC" 2 NoOption;
   example_holding Q2 "DDD" 1 NoOption;
   example_holding Q3 "CCC" 1 NoOption].

Definition gap_table : list OutRow :=
  [kept_row (example_holding Q1 "CCC" 2 NoOption);
   mk_zero_row (row_of (example_holding Q2 "DDD" 1 NoOption))
               (row_of (example_holding Q1 "CCC" 2 NoOption)) "CCC" end_Q2;
   kept_row (example_holding Q3 "CCC" 1 NoOption);
   kept_row (example_holding Q2 "DDD" 1 NoOption)].

(** AAA is held in Q1 and Q2, BBB in Q1 only. *)
Definition lifespan_records : list Holding :=
  [example_holding Q1 "AAA" 5 NoOption;
   example_holding Q1 "BBB" 3 NoOption;
   example_holding Q2 "AAA" 5 NoOption].

Definition lifespan_table : list OutRow :=
  [kept_row (example_holding Q1 "AAA" 5 NoOption);
   kept_row (example_holding Q2 "AAA" 5 NoOption);
   kept_row (example_holding Q1 "BBB" 3 NoOption)].

(** A put on XYZ is held in Q1 and Q3 and not in Q2. *)
Definition option_gap_records : list Holding :=
  [example_holding Q1 "XYZ" 2 Put;
   example_holding Q2 "DDD" 1 NoOption;
   example_holding Q3 "XYZ" 1 Put].

Definition option_gap_zero_row : OutRow :=
  mk_zero_row (row_of (example_holding Q2 "DDD" 1 NoOption))
              (row_of (example_holding Q1 "XYZ" 2 Put)) "XYZ (put)" end_Q2.

Definition option_gap_table : list OutRow :=
  [kept_row (example_holding Q2 "DDD" 1 NoOption);
   kept_row (example_holding Q1 "XYZ" 2 Put);
   kept_row (example_holding Q3 "XYZ" 1 Put);
   option_gap_zero_row].

(** A put on AAPL held in Q1, and AAPL shares held in Q2. *)
Definition pair_records : list Holding :=
  [example_holding Q1 "AAPL" 20 Put;
   example_holding Q2 "AAPL" 30 NoOption].

Definition pair_table : list OutRow := map kept_row pair_records.

(** Six positions in one quarter, on five symbols, all percentages distinct. *)
Definition six_records : list Holding :=
  [example_holding Q1 "XYZ" 30 NoOption;
   example_holding Q1 "XYZ" 20 Put;
   example_holding Q1 "AAA" 10 NoOption;
   example_holding Q1 "BBB" 9 NoOption;
   example_holding Q1 "CCC" 8 NoOption;
   example_holding Q1 "DDD" 7 NoOption].

Definition six_table : list OutRow :=
  [kept_row (example_holding Q1 "AAA" 10 NoOption);
   kept_row (example_holding Q1 "BBB" 9 NoOption);
   kept_row (example_holding Q1 "CCC" 8 NoOption);
   kept_row (example_holding Q1 "DDD" 7 NoOption);
   kept_row (example_holding Q1 "XYZ" 30 NoOption);
   kept_row (example_holding Q1 "XYZ" 20 Put)].

Definition six_selected : list OutRow :=
  [kept_row (example_holding Q1 "AAA" 10 NoOption);
   kept_row (example_holding Q1 "BBB" 9 NoOption);
   kept_row (example_holding Q1 "CCC" 8 NoOption);
   kept_row (example_holding Q1 "XYZ" 30 NoOption);
   kept_row (example_holding Q1 "XYZ" 20 Put)].

(** Two positions in one quarter. *)
Definition two_records : list Holding :=
  [example_holding Q1 "AAA" 60 NoOption;
   example_holding Q1 "BBB" 40 NoOption].

Definition two_table : list OutRow :=
  [kept_row (example_holding Q1 "AAA" 60 NoOption);
   kept_row (example_holding Q1 "BBB" 40 NoOption)].

(** The user picks a start date after the end date. *)
Definition reversed_dates (label : string) (value : option Z) : Z :=
  if String.eqb label "Start date" then datetime 2023 12 31 else datetime 2023 1 1.

Definition raw_example : RawRow :=
  {| raw_Quarter := {| quarter_no := Q1; quarter_year := 2023 |};
     raw_Date_Filed := DateText 2023 5 15;
     raw_Ticker := "AAA";
     raw_Company_Name := "AAA Corp";
     raw_Class := "COM";
     raw_CUSIP := "000000000";
     raw_Value_000 := 5;
     raw_Percentage := Some 100;
     raw_Shares := 50;
     raw_Principal := 0;
     raw_Option_Type := NoOption |}.

(** The same row with a value of 0. *)
Definition raw_no_value : RawRow :=
  {| raw_Quarter := {| quarter_no := Q1; quarter_year := 2023 |};
     raw_Date_Filed := DateText 2023 5 15;
     raw_Ticker := "AAA";
     raw_Company_Name := "AAA Corp";
     raw_Class := "COM";
     raw_CUSIP := "000000000";
     raw_Value_000 := 0;
     raw_Percentage := Some 100;
     raw_Shares := 50;
     raw_Principal := 0;
     raw_Option_Type := NoOption |}.

(** The same position reported for the same quarter of the next year. *)
Definition next_year (h : Holding) : Holding :=
  {| Quarter := {| quarter_no := quarter_no (Quarter h);
                   quarter_year := quarter_year (Quarter h) + 1 |};
     Date_Filed := Date_Filed h;
     Ticker := Ticker h;
     Company_Name := Company_Name h;
     Class_ := Class_ h;
     CUSIP := CUSIP h;
     Value := Value h;
     Percentage := Percentage h;
     Shares := Shares h;
     Principal := Principal h;
     Option_Type := Option_Type h |}.

(** AAA at the end of March 2023 and at the end of March 2024. *)
Definition leap_year_table : list OutRow :=
  [kept_row (example_holding Q1 "AAA" 60 NoOption);
   kept_row (next_year (example_holding Q1 "AAA" 60 NoOption))].

(** A scraped row without a percentage, and the table and the chart of the
    frame made of [raw_example] and of it. *)
Definition raw_without_percentage : RawRow :=
  {| raw_Quarter := {| quarter_no := Q2; quarter_year := 2023 |};
     raw_Date_Filed := DateText 2023 8 14;
     raw_Ticker := "BBB";
     raw_Company_Name := "BBB Corp";
     raw_Class := "COM";
     raw_CUSIP := "000000000";
     raw_Value_000 := 7;
     raw_Percentage := None;
     raw_Shares := 70;
     raw_Principal := 0;
     raw_Option_Type := NoOption |}.

Definition raw_frame : list RawRow := [raw_example; raw_without_percentage].


Definition raw_figure : Figure :=
  {| fig_title := "Value over time";
     fig_traces := [ {| trace_name := "AAA";
                        trace_points := [(end_Q1, 5000)];
                        trace_dashed := false |} ];
     fig_tickvals := [end_Q1];
     fig_ticktext := [ {| quarter_no := Q1; quarter_year := 2023 |} ] |}.

(** 301 positions in one quarter, named 1 to 301, the position [n] with
    [n] percent; the user adds the position 301 to the chart. *)
Definition many_table : list OutRow :=
  map (fun n => kept_row (example_holding Q1 (str_of_nat n) (Z.of_nat n) NoOption))
      (seq 1 301).

Definition pick_largest (prompt : string) (options : list (option string))
    : list (option string) :=
  [Some "301"%string].

(* ================================================================== *)
(** * Properties *)

(** ** Outcomes *)

Lemma bind_Ok {A B : Type} (c : result A) (k : A -> result B) (b : B) :
  bind c k = Ok b -> exists a, c = Ok a /\ k a = Ok b.
Proof.
  destruct c as [a|e]; simpl; intros H; [eauto | discriminate].
Qed.

Lemma iloc0_Ok {A : Type} (l : list A) (x : A) :
  iloc0 l = Ok x <-> hd_error l = Some x.
Proof.
  destruct l; simpl; split; intros H; inversion H; reflexivity.
Qed.

Lemma hd_error_filter_In {A : Type} (f : A -> bool) (l : list A) (x : A) :
  hd_error (filter f l) = Some x -> In x l /\ f x = true.
Proof.
  intros H. apply filter_In.
  destruct (filter f l) eqn:E; inversion H; subst.
  left; reflexivity.
Qed.

Lemma hd_error_filter_exists {A : Type} (f : A -> bool) (l : list A) (x : A) :
  In x l -> f x = true -> exists y, hd_error (filter f l) = Some y.
Proof.
  intros Hin Hf.
  assert (Hx : In x (filter f l)) by (apply filter_In; auto).
  destruct (filter f l) as [|y l']; [destruct Hx | exists y; reflexivity].
Qed.

(** ** Sorting *)

Section SortFacts.
Context {A : Type} (le : A -> A -> bool).

Lemma insert_row_perm (x : A) (l : list A) :
  Permutation (insert_row le x l) (x :: l).
Proof.
  induction l as [|y l IH]; simpl.
  - apply Permutation_refl.
  - destruct (le x y).
    + apply Permutation_refl.
    + eapply perm_trans; [apply perm_skip, IH | apply perm_swap].
Qed.

Lemma sort_values_perm (l : list A) : Permutation (sort_values le l) l.
Proof.
  induction l as [|x l IH]; simpl.
  - constructor.
  - eapply perm_trans; [apply insert_row_perm | apply perm_skip, IH].
Qed.

Lemma sort_values_In (l : list A) (x : A) : In x (sort_values le l) <-> In x l.
Proof.
  split; apply Permutation_in;
    [apply sort_values_perm | apply Permutation_sym, sort_values_perm].
Qed.

Lemma sort_values_nil (l : list A) : sort_values le l = [] -> l = [].
Proof.
  intros H. apply Permutation_nil.
  rewrite <- H. apply sort_values_perm.
Qed.

Hypothesis le_total : forall a b, le a b = true \/ le b a = true.
Hypothesis le_trans : forall a b c, le a b = true -> le b c = true -> le a c = true.

Let ordered (a b : A) : Prop := le a b = true.

Lemma insert_row_sorted (x : A) (l : list A) :
  StronglySorted ordered l -> StronglySorted ordered (insert_row le x l).
Proof.
  induction 1 as [|y l Hs IH Hy]; simpl.
  - repeat constructor.
  - destruct (le x y) eqn:E.
    + constructor; [constructor; assumption |].
      constructor; [exact E |].
      rewrite Forall_forall in *. intros z Hz.
      eapply le_trans; [exact E | apply Hy, Hz].
    + constructor; [exact IH |].
      rewrite Forall_forall in *. intros z Hz.
      apply (Permutation_in _ (insert_row_perm x l)) in Hz.
      destruct Hz as [<- | Hz]; [| apply Hy, Hz].
      destruct (le_total x y) as [H | H]; [congruence | exact H].
Qed.

Lemma sort_values_sorted (l : list A) : StronglySorted ordered (sort_values le l).
Proof.
  induction l as [|x l IH]; simpl.
  - constructor.
  - apply insert_row_sorted, IH.
Qed.
End SortFacts.

(** ** Distinct values *)

Section UniqueFacts.
Context {A : Type} (eqb : A -> A -> bool).
Hypothesis eqb_eq : forall x y, eqb x y = true <-> x = y.

Lemma unique_In (l : list A) (x : A) : In x (unique eqb l) <-> In x l.
Proof.
  induction l as [|y l IH]; simpl.
  - tauto.
  - rewrite filter_In, IH. split.
    + intros [H | [H _]]; auto.
    + intros [H | H]; auto.
      destruct (eqb y x) eqn:E.
      * left. apply eqb_eq, E.
      * right. auto.
Qed.

Lemma unique_NoDup (l : list A) : NoDup (unique eqb l).
Proof.
  induction l as [|y l IH]; simpl.
  - constructor.
  - constructor.
    + rewrite filter_In. intros [_ H].
      assert (E : eqb y y = true) by (apply eqb_eq; reflexivity).
      rewrite E in H. discriminate.
    + apply NoDup_filter, IH.
Qed.

Lemma unique_NoDup_id (l : list A) : NoDup l -> unique eqb l = l.
Proof.
  induction 1 as [|y l Hy Hl IH]; simpl.
  - reflexivity.
  - rewrite IH. f_equal.
    apply forallb_filter_id, forallb_forall. intros z Hz.
    destruct (eqb y z) eqn:E; [| reflexivity].
    apply eqb_eq in E. subst. contradiction.
Qed.
End UniqueFacts.

(** ** Minimum and maximum of a column *)

Lemma fold_min_spec (l : list Z) (x : Z) :
  (fold_left Z.min l x = x \/ In (fold_left Z.min l x) l)
  /\ fold_left Z.min l x <= x
  /\ Forall (fun y => fold_left Z.min l x <= y) l.
Proof.
  revert x. induction l as [|y l IH]; intros x; simpl.
  - repeat split; [left; reflexivity | lia | constructor].
  - destruct (IH (Z.min x y)) as (Hin & Hle & Hall).
    repeat split.
    + destruct Hin as [Hin | Hin]; [| right; right; exact Hin].
      rewrite Hin. destruct (Z.min_spec x y) as [[_ E] | [_ E]]; rewrite E; auto.
    + lia.
    + constructor; [lia | exact Hall].
Qed.

Lemma fold_max_spec (l : list Z) (x : Z) :
  (fold_left Z.max l x = x \/ In (fold_left Z.max l x) l)
  /\ x <= fold_left Z.max l x
  /\ Forall (fun y => y <= fold_left Z.max l x) l.
Proof.
  revert x. induction l as [|y l IH]; intros x; simpl.
  - repeat split; [left; reflexivity | lia | constructor].
  - destruct (IH (Z.max x y)) as (Hin & Hle & Hall).
    repeat split.
    + destruct Hin as [Hin | Hin]; [| right; right; exact Hin].
      rewrite Hin. destruct (Z.max_spec x y) as [[_ E] | [_ E]]; rewrite E; auto.
    + lia.
    + constructor; [lia | exact Hall].
Qed.

Lemma col_min_is_min (l : list Z) (m : Z) : col_min l = Some m <-> is_min m l.
Proof.
  destruct l as [|x l]; simpl.
  - split; [discriminate | intros [[] _]].
  - destruct (fold_min_spec l x) as (Hin & Hle & Hall).
    rewrite Forall_forall in Hall.
    split.
    + intros E. inversion E; subst. split.
      * destruct Hin as [-> | Hin]; simpl; auto.
      * intros y [<- | Hy]; [exact Hle | apply Hall, Hy].
    + intros [Hm Hlow]. f_equal.
      assert (fold_left Z.min l x <= m) by
        (destruct Hm as [<- | Hm]; [exact Hle | apply Hall, Hm]).
      assert (m <= fold_left Z.min l x) by
        (apply Hlow; destruct Hin as [-> | Hin]; simpl; auto).
      lia.
Qed.

Lemma col_max_is_max (l : list Z) (m : Z) : col_max l = Some m <-> is_max m l.
Proof.
  destruct l as [|x l]; simpl.
  - split; [discriminate | intros [[] _]].
  - destruct (fold_max_spec l x) as (Hin & Hle & Hall).
    rewrite Forall_forall in Hall.
    split.
    + intros E. inversion E; subst. split.
      * destruct Hin as [-> | Hin]; simpl; auto.
      * intros y [<- | Hy]; [exact Hle | apply Hall, Hy].
    + intros [Hm Hup]. f_equal.
      assert (m <= fold_left Z.max l x) by
        (destruct Hm as [<- | Hm]; [exact Hle | apply Hall, Hm]).
      assert (fold_left Z.max l x <= m) by
        (apply Hup; destruct Hin as [-> | Hin]; simpl; auto).
      lia.
Qed.

Lemma is_min_same_elements (l l' : list Z) (m : Z) :
  (forall x, In x l <-> In x l') -> is_min m l -> is_min m l'.
Proof.
  intros H [Hm Hlow]. split; [apply H, Hm | intros x Hx; apply Hlow, H, Hx].
Qed.

Lemma is_max_same_elements (l l' : list Z) (m : Z) :
  (forall x, In x l <-> In x l') -> is_max m l -> is_max m l'.
Proof.
  intros H [Hm Hup]. split; [apply H, Hm | intros x Hx; apply Hup, H, Hx].
Qed.

Lemma col_min_nonempty (l : list Z) : l <> [] -> exists m, col_min l = Some m.
Proof.
  destruct l; [congruence | simpl; eauto].
Qed.

Lemma col_max_nonempty (l : list Z) : l <> [] -> exists m, col_max l = Some m.
Proof.
  destruct l; [congruence | simpl; eauto].
Qed.

(** ** Order of strings *)

Lemma compare_as_OT (a b : string) : String.compare a b = String_as_OT.compare a b.
Proof.
  reflexivity.
Qed.

Lemma str_compare_refl (a : string) : String.compare a a = Eq.
Proof.
  rewrite compare_as_OT.
  destruct (String_as_OT.compare_spec a a) as [H | H | H];
    [reflexivity | | ]; exfalso;
    exact (StrictOrder_Irreflexive (R := String_as_OT.lt) a H).
Qed.

Lemma str_compare_lt_trans (a b c : string) :
  String.compare a b = Lt -> String.compare b c = Lt -> String.compare a c = Lt.
Proof.
  rewrite !compare_as_OT. intros H1 H2.
  exact (StrictOrder_Transitive (R := String_as_OT.lt) a b c H1 H2).
Qed.

Lemma str_compare_gt_lt (a b : string) :
  String.compare a b = Gt -> String.compare b a = Lt.
Proof.
  intros H. rewrite String.compare_antisym, H. reflexivity.
Qed.

Lemma ticker_quarter_le_total (a b : OutRow) :
  ticker_quarter_le a b = true \/ ticker_quarter_le b a = true.
Proof.
  unfold ticker_quarter_le.
  destruct (String.compare (Ticker (record a)) (Ticker (record b))) eqn:E.
  - apply String.compare_eq_iff in E. rewrite E, str_compare_refl.
    destruct (Z.leb_spec (out_quarter_end a) (out_quarter_end b)); [auto |].
    right. apply Z.leb_le. lia.
  - auto.
  - right. rewrite (str_compare_gt_lt _ _ E). reflexivity.
Qed.

Lemma ticker_quarter_le_trans (a b c : OutRow) :
  ticker_quarter_le a b = true -> ticker_quarter_le b c = true ->
  ticker_quarter_le a c = true.
Proof.
  unfold ticker_quarter_le.
  destruct (String.compare (Ticker (record a)) (Ticker (record b))) eqn:E1;
    try discriminate;
    destruct (String.compare (Ticker (record b)) (Ticker (record c))) eqn:E2;
    try discriminate; intros H1 H2.
  - apply String.compare_eq_iff in E1, E2. rewrite E1, E2, str_compare_refl.
    apply Z.leb_le. apply Z.leb_le in H1, H2. lia.
  - apply String.compare_eq_iff in E1. rewrite E1, E2. reflexivity.
  - apply String.compare_eq_iff in E2. rewrite <- E2, E1. reflexivity.
  - rewrite (str_compare_lt_trans _ _ _ E1 E2). reflexivity.
Qed.

(** ** The loops of the normalizer *)

Lemma isin_Z_In (x : Z) (l : list Z) : isin_Z x l = true <-> In x l.
Proof.
  unfold isin_Z. rewrite existsb_exists. split.
  - intros (y & Hy & E). apply Z.eqb_eq in E. subst. exact Hy.
  - intros H. exists x. split; [exact H | apply Z.eqb_refl].
Qed.

Lemma isin_str_In (x : string) (l : list string) : isin_str x l = true <-> In x l.
Proof.
  unfold isin_str. rewrite existsb_exists. split.
  - intros (y & Hy & E). apply String.eqb_eq in E. subst. exact Hy.
  - intros H. exists x. split; [exact H | apply String.eqb_refl].
Qed.

Lemma group_In (df : list Row) (ticker : string) (r : Row) :
  In r (group df ticker) <-> In r df /\ ticker_adjusted r = ticker.
Proof.
  unfold group. rewrite filter_In, String.eqb_eq. reflexivity.
Qed.

Lemma first_at_quarter (l : list Row) (quarter : Z) (r0 : Row) :
  hd_error (filter (fun r => quarter_end r =? quarter) l) = Some r0 ->
  In r0 l /\ quarter_end r0 = quarter.
Proof.
  intros H. apply hd_error_filter_In in H. rewrite Z.eqb_eq in H. exact H.
Qed.

Lemma row_origin_key (df : list Row) (ticker : string) (quarter : Z) (r : OutRow) :
  row_origin df ticker quarter r -> row_key r = (ticker, quarter).
Proof.
  intros [r0 H | a f _ _ _]; [| reflexivity].
  apply first_at_quarter in H. destruct H as [Hin Hq].
  apply group_In in Hin. destruct Hin as [_ Ht].
  unfold row_key, out_series; simpl. congruence.
Qed.

Lemma row_origin_existing_isin (df : list Row) (ticker : string) (quarter : Z)
    (r0 : Row) :
  hd_error (filter (fun r => quarter_end r =? quarter) (group df ticker)) = Some r0 ->
  isin_Z quarter (map quarter_end (group df ticker)) = true.
Proof.
  intros H. apply first_at_quarter in H. destruct H as [Hin Hq].
  apply isin_Z_In. rewrite <- Hq. apply in_map, Hin.
Qed.

Lemma row_origin_unique (df : list Row) (ticker : string) (quarter : Z)
    (r r' : OutRow) :
  row_origin df ticker quarter r -> row_origin df ticker quarter r' -> r = r'.
Proof.
  intros [r0 H | a f Hno Ha Hf] [r0' H' | a' f' Hno' Ha' Hf'].
  - congruence.
  - apply row_origin_existing_isin in H. congruence.
  - apply row_origin_existing_isin in H'. congruence.
  - congruence.
Qed.

Lemma step_origin (df : list Row) (ticker : string) (quarter : Z) (row : OutRow) :
  (if negb (isin_Z quarter (map quarter_end (group df ticker)))
   then zero_row df ticker (group df ticker) quarter
   else existing_row (group df ticker) quarter) = Ok row ->
  row_origin df ticker quarter row.
Proof.
  destruct (isin_Z quarter (map quarter_end (group df ticker))) eqn:E; simpl.
  - unfold existing_row. intros H.
    apply bind_Ok in H. destruct H as (r0 & H0 & H).
    inversion H; subst. constructor. apply iloc0_Ok, H0.
  - unfold zero_row. intros H.
    apply bind_Ok in H. destruct H as (a & Ha & H).
    apply bind_Ok in H. destruct H as (f & Hf & H).
    inversion H; subst.
    constructor; [exact E | apply iloc0_Ok, Ha | apply iloc0_Ok, Hf].
Qed.

Lemma step_total (df : list Row) (ticker : string) (quarter : Z) :
  In quarter (map quarter_end df) -> group df ticker <> [] ->
  exists row,
    (if negb (isin_Z quarter (map quarter_end (group df ticker)))
     then zero_row df ticker (group df ticker) quarter
     else existing_row (group df ticker) quarter) = Ok row.
Proof.
  intros Hq Hne.
  destruct (isin_Z quarter (map quarter_end (group df ticker))) eqn:E; simpl.
  - apply isin_Z_In, in_map_iff in E. destruct E as (r & Hr & Hin).
    destruct (hd_error_filter_exists (fun r => quarter_end r =? quarter) _ r Hin)
      as (r0 & H0); [apply Z.eqb_eq, Hr |].
    unfold existing_row. apply iloc0_Ok in H0. rewrite H0. simpl. eauto.
  - apply in_map_iff in Hq. destruct Hq as (r & Hr & Hin).
    destruct (hd_error_filter_exists (fun r => quarter_end r =? quarter) _ r Hin)
      as (a & Ha); [apply Z.eqb_eq, Hr |].
    unfold zero_row. apply iloc0_Ok in Ha. rewrite Ha. simpl.
    destruct (group df ticker) as [|f l]; [congruence | simpl; eauto].
Qed.

Lemma quarters_loop_origin (df : list Row) (ticker : string)
    (min_date max_date : Z) (quarters : list Z) (rows : list OutRow) :
  quarters_loop df ticker (group df ticker) min_date max_date quarters = Ok rows ->
  Forall2 (row_origin df ticker) (filter (in_span min_date max_date) quarters) rows.
Proof.
  revert rows. induction quarters as [|q qs IH]; intros rows; simpl.
  - intros H. inversion H. constructor.
  - unfold in_span at 1.
    destruct ((q <? min_date) || (q >? max_date)); simpl.
    + apply IH.
    + intros H.
      apply bind_Ok in H. destruct H as (row & Hrow & H).
      apply bind_Ok in H. destruct H as (rest & Hrest & H).
      inversion H; subst.
      constructor; [apply step_origin, Hrow | apply IH, Hrest].
Qed.

Lemma quarters_loop_total (df : list Row) (ticker : string)
    (min_date max_date : Z) (quarters : list Z) :
  (forall q, In q quarters -> In q (map quarter_end df)) ->
  group df ticker <> [] ->
  exists rows,
    quarters_loop df ticker (group df ticker) min_date max_date quarters = Ok rows.
Proof.
  intros Hqs Hne. induction quarters as [|q qs IH]; simpl.
  - eauto.
  - destruct IH as (rest & Hrest); [intros; apply Hqs; right; assumption |].
    destruct ((q <? min_date) || (q >? max_date)).
    + eauto.
    + destruct (step_total df ticker q) as (row & Hrow);
        [apply Hqs; left; reflexivity | exact Hne |].
      rewrite Hrow, Hrest. simpl. eauto.
Qed.

Lemma ticker_rows_origin (df : list Row) (all_quarters : list Z) (ticker : string)
    (rows : list OutRow) :
  ticker_rows df all_quarters ticker = Ok rows ->
  Forall2 (row_origin df ticker) (span_quarters df all_quarters ticker) rows.
Proof.
  unfold ticker_rows, span_quarters. fold (group df ticker).
  destruct (col_min (map quarter_end (group df ticker))) as [lo|];
    [destruct (col_max (map quarter_end (group df ticker))) as [hi|] |].
  - apply quarters_loop_origin.
  - intros H; inversion H; constructor.
  - intros H; inversion H; constructor.
Qed.

Lemma ticker_rows_total (df : list Row) (all_quarters : list Z) (ticker : string) :
  (forall q, In q all_quarters -> In q (map quarter_end df)) ->
  exists rows, ticker_rows df all_quarters ticker = Ok rows.
Proof.
  intros Hqs. unfold ticker_rows. fold (group df ticker).
  destruct (group df ticker) as [|f l] eqn:E.
  - simpl. eauto.
  - rewrite <- E.
    destruct (col_min (map quarter_end (group df ticker))) as [lo|]; [| eauto].
    destruct (col_max (map quarter_end (group df ticker))) as [hi|]; [| eauto].
    apply quarters_loop_total; [exact Hqs | rewrite E; discriminate].
Qed.

Lemma Forall2_origin_keys (df : list Row) (ticker : string) (quarters : list Z)
    (rows : list OutRow) :
  Forall2 (row_origin df ticker) quarters rows ->
  map row_key rows = map (pair ticker) quarters.
Proof.
  induction 1 as [|q r qs rs Hr _ IH]; simpl.
  - reflexivity.
  - rewrite IH, (row_origin_key _ _ _ _ Hr). reflexivity.
Qed.

Lemma Forall2_origin_In (df : list Row) (ticker : string) (quarters : list Z)
    (rows : list OutRow) (r : OutRow) :
  Forall2 (row_origin df ticker) quarters rows ->
  (In r rows <-> exists q, In q quarters /\ row_origin df ticker q r).
Proof.
  induction 1 as [|q r1 qs rs Hr _ IH]; simpl.
  - split; [tauto | intros (q & [] & _)].
  - rewrite IH. split.
    + intros [<- | (q' & Hq' & H')]; eauto.
    + intros (q' & [<- | Hq'] & H').
      * left. eapply row_origin_unique; eassumption.
      * right. eauto.
Qed.

Lemma tickers_loop_keys (df : list Row) (all_quarters : list Z)
    (tickers : list string) (rows : list OutRow) :
  tickers_loop df all_quarters tickers = Ok rows ->
  map row_key rows = span_keys df all_quarters tickers.
Proof.
  revert rows. induction tickers as [|t ts IH]; intros rows; simpl.
  - intros H. inversion H. reflexivity.
  - intros H.
    apply bind_Ok in H. destruct H as (here & Hhere & H).
    apply bind_Ok in H. destruct H as (more & Hmore & H).
    inversion H; subst.
    rewrite map_app, (IH _ Hmore).
    rewrite (Forall2_origin_keys _ _ _ _ (ticker_rows_origin _ _ _ _ Hhere)).
    reflexivity.
Qed.

Lemma tickers_loop_In (df : list Row) (all_quarters : list Z)
    (tickers : list string) (rows : list OutRow) (r : OutRow) :
  tickers_loop df all_quarters tickers = Ok rows ->
  (In r rows <->
   exists t q, In t tickers /\ In q (span_quarters df all_quarters t)
               /\ row_origin df t q r).
Proof.
  revert rows. induction tickers as [|t ts IH]; intros rows; simpl.
  - intros H. inversion H. simpl. split; [tauto | intros (t & q & [] & _)].
  - intros H.
    apply bind_Ok in H. destruct H as (here & Hhere & H).
    apply bind_Ok in H. destruct H as (more & Hmore & H).
    inversion H; subst.
    rewrite in_app_iff, (IH _ Hmore).
    rewrite (Forall2_origin_In _ _ _ _ r (ticker_rows_origin _ _ _ _ Hhere)).
    split.
    + intros [(q & Hq & Ho) | (t' & q & Ht' & Hq & Ho)].
      * exists t, q. auto.
      * exists t', q. auto.
    + intros (t' & q & [<- | Ht'] & Hq & Ho).
      * left. eauto.
      * right. eauto.
Qed.

Lemma tickers_loop_total (df : list Row) (all_quarters : list Z)
    (tickers : list string) :
  (forall q, In q all_quarters -> In q (map quarter_end df)) ->
  exists rows, tickers_loop df all_quarters tickers = Ok rows.
Proof.
  intros Hqs. induction tickers as [|t ts IH]; simpl.
  - eauto.
  - destruct (ticker_rows_total df all_quarters t Hqs) as (here & Hhere).
    destruct IH as (more & Hmore).
    rewrite Hhere, Hmore. simpl. eauto.
Qed.

(** ** The working frame *)

Lemma working_frame_perm (records : list Holding) :
  Permutation (working_frame records) (map row_of records).
Proof.
  unfold working_frame.
  replace (map row_of records)
    with (map add_ticker_adjusted (map add_quarter_end records))
    by (rewrite map_map; reflexivity).
  apply Permutation_map, sort_values_perm.
Qed.

Lemma working_frame_In (records : list Holding) (r : Row) :
  In r (working_frame records) <-> exists h, In h records /\ r = row_of h.
Proof.
  split.
  - intros H. apply (Permutation_in _ (working_frame_perm records)) in H.
    apply in_map_iff in H. destruct H as (h & E & Hh). eauto.
  - intros (h & Hh & ->).
    apply (Permutation_in _ (Permutation_sym (working_frame_perm records))).
    apply in_map, Hh.
Qed.

Lemma working_frame_quarters (records : list Holding) (q : Z) :
  In q (map quarter_end (working_frame records)) <-> In q (map period_end records).
Proof.
  rewrite !in_map_iff. split.
  - intros (r & E & Hr). apply working_frame_In in Hr.
    destruct Hr as (h & Hh & ->). exists h. split; [exact E | exact Hh].
  - intros (h & E & Hh). exists (row_of h). split; [exact E |].
    apply working_frame_In. eauto.
Qed.

Lemma group_quarters (records : list Holding) (s : string) (q : Z) :
  In q (map quarter_end (group (working_frame records) s))
  <-> In q (observed_quarters records s).
Proof.
  unfold observed_quarters. rewrite !in_map_iff. split.
  - intros (r & E & Hr). apply group_In in Hr. destruct Hr as [Hr Hs].
    apply working_frame_In in Hr. destruct Hr as (h & Hh & ->).
    exists h. split; [exact E |].
    apply filter_In. split; [exact Hh | apply String.eqb_eq, Hs].
  - intros (h & E & Hh). apply filter_In in Hh. destruct Hh as [Hh Hs].
    exists (row_of h). split; [exact E |].
    apply group_In. split; [apply working_frame_In; eauto |].
    apply String.eqb_eq, Hs.
Qed.

Lemma all_quarters_In (df : list Row) (q : Z) :
  In q (all_quarters_of df) <-> In q (map quarter_end df).
Proof.
  unfold all_quarters_of. rewrite sort_values_In.
  apply unique_In. apply Z.eqb_eq.
Qed.

Lemma all_quarters_NoDup (df : list Row) : NoDup (all_quarters_of df).
Proof.
  unfold all_quarters_of.
  eapply Permutation_NoDup; [apply Permutation_sym, sort_values_perm |].
  apply unique_NoDup. apply Z.eqb_eq.
Qed.

Lemma span_quarters_In (records : list Holding) (s : string) (q : Z) :
  let df := working_frame records in
  In q (span_quarters df (all_quarters_of df) s) <->
  In q (map period_end records)
  /\ exists lo hi, is_min lo (observed_quarters records s)
                   /\ is_max hi (observed_quarters records s)
                   /\ lo <= q <= hi.
Proof.
  intros df. unfold span_quarters.
  assert (Hmin : forall lo, col_min (map quarter_end (group df s)) = Some lo
                            <-> is_min lo (observed_quarters records s)).
  { intros lo. rewrite col_min_is_min. split; apply is_min_same_elements;
      intros x; [| symmetry]; apply group_quarters. }
  assert (Hmax : forall hi, col_max (map quarter_end (group df s)) = Some hi
                            <-> is_max hi (observed_quarters records s)).
  { intros hi. rewrite col_max_is_max. split; apply is_max_same_elements;
      intros x; [| symmetry]; apply group_quarters. }
  assert (Hspan : forall lo hi, in_span lo hi q = true <-> lo <= q <= hi).
  { intros lo hi. unfold in_span.
    rewrite negb_true_iff, orb_false_iff, Z.ltb_ge, Z.gtb_ltb, Z.ltb_ge. lia. }
  destruct (col_min (map quarter_end (group df s))) as [lo|] eqn:Elo.
  - destruct (col_max (map quarter_end (group df s))) as [hi|] eqn:Ehi.
    + rewrite filter_In, all_quarters_In, Hspan.
      unfold df. rewrite working_frame_quarters.
      split.
      * intros [Hq Hb]. split; [exact Hq |].
        exists lo, hi.
        split; [apply Hmin; reflexivity |].
        split; [apply Hmax; reflexivity | exact Hb].
      * intros [Hq (lo' & hi' & Hlo & Hhi & Hb)]. split; [exact Hq |].
        apply Hmin in Hlo. apply Hmax in Hhi.
        inversion Hlo; inversion Hhi; subst. exact Hb.
    + split; [intros [] |].
      intros [_ (lo' & hi' & _ & Hhi & _)]. apply Hmax in Hhi. discriminate.
  - split; [intros [] |].
    intros [_ (lo' & hi' & Hlo & _ & _)]. apply Hmin in Hlo. discriminate.
Qed.

Lemma NoDup_map_pair {A B : Type} (a : A) (l : list B) :
  NoDup l -> NoDup (map (pair a) l).
Proof.
  induction 1 as [|b l Hb _ IH]; simpl; constructor; [| exact IH].
  rewrite in_map_iff. intros (b' & E & Hb'). inversion E; subst. contradiction.
Qed.

Lemma span_keys_In (df : list Row) (all_quarters : list Z) (tickers : list string)
    (t : string) (q : Z) :
  In (t, q) (span_keys df all_quarters tickers)
  <-> In t tickers /\ In q (span_quarters df all_quarters t).
Proof.
  unfold span_keys. rewrite in_flat_map. split.
  - intros (t' & Ht' & H). apply in_map_iff in H.
    destruct H as (q' & E & Hq'). inversion E; subst. auto.
  - intros [Ht Hq]. exists t. split; [exact Ht | apply in_map, Hq].
Qed.

Lemma span_keys_NoDup (df : list Row) (all_quarters : list Z)
    (tickers : list string) :
  NoDup tickers -> NoDup all_quarters -> NoDup (span_keys df all_quarters tickers).
Proof.
  intros Ht Hq. induction Ht as [|t ts Hnotin _ IH]; simpl.
  - constructor.
  - apply NoDup_app.
    + apply NoDup_map_pair. unfold span_quarters.
      destruct (col_min _); [destruct (col_max _) |]; try constructor.
      apply NoDup_filter, Hq.
    + exact IH.
    + intros [t' q'] H1 H2. apply in_map_iff in H1.
      destruct H1 as (q'' & E & _). inversion E; subst.
      apply span_keys_In in H2. destruct H2 as [H2 _]. contradiction.
Qed.

(** ** What [normalize] returns *)

Lemma tickers_of_In (records : list Holding) (s : string) :
  In s (tickers_of records) <-> In s (map series_id records).
Proof.
  unfold tickers_of. rewrite (unique_In _ String.eqb_eq).
  rewrite !in_map_iff. split.
  - intros (r & E & Hr). apply working_frame_In in Hr.
    destruct Hr as (h & Hh & ->). exists h. split; [exact E | exact Hh].
  - intros (h & E & Hh). exists (row_of h). split; [exact E |].
    apply working_frame_In. eauto.
Qed.

Lemma updated_rows_total (records : list Holding) :
  exists updated_rows, updated_rows_of records = Ok updated_rows.
Proof.
  unfold updated_rows_of. apply tickers_loop_total.
  intros q. apply all_quarters_In.
Qed.

Lemma normalize_Ok (records : list Holding) (table : list OutRow) :
  normalize records = Ok table ->
  exists updated_rows,
    updated_rows_of records = Ok updated_rows
    /\ table = sort_values ticker_quarter_le updated_rows.
Proof.
  unfold normalize. intros H.
  apply bind_Ok in H. destruct H as (u & Hu & H).
  exists u. split; [exact Hu |].
  unfold sort_by_ticker_quarter in H.
  destruct (negb (isin_str "Ticker" (frame_columns u))); [discriminate |].
  destruct (negb (isin_str "quarter_end" (frame_columns u))); [discriminate |].
  inversion H. reflexivity.
Qed.

(** The rows of the table, by ticker and quarter of the loops. *)
Lemma normalize_In (records : list Holding) (table : list OutRow) (r : OutRow) :
  normalize records = Ok table ->
  let df := working_frame records in
  (In r table <->
   exists s q, In s (tickers_of records)
               /\ In q (span_quarters df (all_quarters_of df) s)
               /\ row_origin df s q r).
Proof.
  intros H df. apply normalize_Ok in H. destruct H as (u & Hu & ->).
  rewrite sort_values_In. apply (tickers_loop_In _ _ _ _ r Hu).
Qed.

Lemma normalize_keys (records : list Holding) (table : list OutRow) :
  normalize records = Ok table ->
  let df := working_frame records in
  Permutation (map row_key table)
              (span_keys df (all_quarters_of df) (tickers_of records)).
Proof.
  intros H df. subst df. unfold tickers_of.
  apply normalize_Ok in H. destruct H as (u & Hu & ->).
  unfold updated_rows_of in Hu.
  rewrite <- (tickers_loop_keys _ _ _ _ Hu).
  apply Permutation_map, sort_values_perm.
Qed.

Lemma is_row_of_key (s : string) (q : Z) (r : OutRow) :
  is_row_of s q r = true <-> row_key r = (s, q).
Proof.
  unfold is_row_of, row_key.
  rewrite andb_true_iff, String.eqb_eq, Z.eqb_eq.
  split; [intros [-> ->]; reflexivity | intros E; inversion E; auto].
Qed.

Lemma rows_of_key_count (s : string) (q : Z) (l : list OutRow) :
  List.length (filter (is_row_of s q) l) = count_occ key_dec (map row_key l) (s, q).
Proof.
  induction l as [|r l IH]; [reflexivity |].
  cbn [map filter].
  destruct (key_dec (row_key r) (s, q)) as [E | E].
  - rewrite (count_occ_cons_eq _ _ E).
    apply is_row_of_key in E. rewrite E. cbn [List.length].
    rewrite IH. reflexivity.
  - rewrite (count_occ_cons_neq _ _ E).
    destruct (is_row_of s q r) eqn:E'.
    + apply is_row_of_key in E'. contradiction.
    + exact IH.
Qed.

(** ** The empty input *)

(** C4.  On no record at all the normalizer does not return a table: the
    frame built from no dictionary has no 'Ticker' column and the final
    sort raises [KeyError]. *)
Theorem normalize_empty_raises :
  normalize [] = Raise (KeyError "Ticker")
  /\ outcome preprocess_filings_df [] = Raise (KeyError "Ticker").
Proof.
  split; reflexivity.
Qed.

(** On any other input a table is returned. *)
Lemma normalize_nonempty_Ok (records : list Holding) :
  records <> [] -> exists table, normalize records = Ok table.
Proof.
  intros Hne. destruct records as [|h rest]; [congruence |].
  destruct (updated_rows_total (h :: rest)) as (u & Hu).
  unfold normalize. rewrite Hu. simpl.
  assert (Hkey : In (series_id h, period_end h) (map row_key u)).
  { unfold updated_rows_of in Hu.
    rewrite (tickers_loop_keys _ _ _ _ Hu).
    apply span_keys_In. split.
    - apply (tickers_of_In (h :: rest)). left; reflexivity.
    - apply span_quarters_In. split; [left; reflexivity |].
      assert (Hobs : In (period_end h) (observed_quarters (h :: rest) (series_id h))).
      { unfold observed_quarters. apply in_map. apply filter_In.
        split; [left; reflexivity | apply String.eqb_refl]. }
      destruct (col_min_nonempty (observed_quarters (h :: rest) (series_id h)))
        as (lo & Hlo); [intros E; rewrite E in Hobs; destruct Hobs |].
      destruct (col_max_nonempty (observed_quarters (h :: rest) (series_id h)))
        as (hi & Hhi); [intros E; rewrite E in Hobs; destruct Hobs |].
      apply col_min_is_min in Hlo. apply col_max_is_max in Hhi.
      exists lo, hi. repeat split; try apply Hlo; try apply Hhi; try exact Hobs. }
  destruct u as [|r u]; [destruct Hkey |].
  unfold sort_by_ticker_quarter.
  assert (Hc : forall c, In c (dict_keys r) -> isin_str c (frame_columns (r :: u)) = true).
  { intros c Hin. apply isin_str_In. unfold frame_columns.
    apply (unique_In _ String.eqb_eq). cbn [flat_map].
    apply in_or_app. left. exact Hin. }
  rewrite (Hc "Ticker"%string), (Hc "quarter_end"%string); simpl; eauto 20.
Qed.

Lemma normalize_raises_iff (records : list Holding) :
  raises (normalize records) <-> records = [].
Proof.
  split.
  - intros [e He]. destruct records as [|h rest]; [reflexivity |].
    destruct (normalize_nonempty_Ok (h :: rest)) as (table & Ht); [discriminate |].
    congruence.
  - intros ->. exists (KeyError "Ticker"). reflexivity.
Qed.


(** The outcome of [preprocess_filings_df] is the normalized table of the
    rows that have a percentage, with their filing date as a datetime and
    their value in units. *)
Lemma preprocess_outcome (df : list RawRow) :
  outcome preprocess_filings_df df
  = normalize (rename_dropna (map scale_value (map convert_date_filed df))).
Proof.
  reflexivity.
Qed.

(** ** Claims about [normalize] *)

Lemma gap_fill_rows (records : list Holding) (table : list OutRow)
    (s : string) (q lo hi : Z) :
  normalize records = Ok table ->
  col_min (observed_quarters records s) = Some lo ->
  col_max (observed_quarters records s) = Some hi ->
  In q (map period_end records) ->
  lo <= q <= hi ->
  List.length (filter (is_row_of s q) table) = 1%nat
  /\ (~ In q (observed_quarters records s) ->
      forall r, In r table -> is_row_of s q r = true ->
                Shares (record r) = 0
                /\ Value (record r) = 0
                /\ Percentage (record r) = 0).
Proof.
  intros Hn Hlo Hhi Hq Hb.
  apply col_min_is_min in Hlo. apply col_max_is_max in Hhi.
  assert (Hspan : In q (span_quarters (working_frame records)
                          (all_quarters_of (working_frame records)) s)).
  { apply span_quarters_In. split; [exact Hq |]. exists lo, hi. auto. }
  assert (Hs : In s (tickers_of records)).
  { apply tickers_of_In. destruct Hlo as [Hlo _].
    unfold observed_quarters in Hlo. apply in_map_iff in Hlo.
    destruct Hlo as (h & _ & Hh). apply filter_In in Hh. destruct Hh as [Hh E].
    apply String.eqb_eq in E. rewrite <- E. apply in_map, Hh. }
  split.
  - rewrite rows_of_key_count.
    rewrite (proj1 (Permutation_count_occ key_dec _ _) (normalize_keys _ _ Hn)).
    apply NoDup_count_occ'.
    + apply span_keys_NoDup; [apply unique_NoDup, String.eqb_eq |].
      apply all_quarters_NoDup.
    + apply span_keys_In. auto.
  - intros Hgap r Hr Hkey.
    apply (normalize_In _ _ r Hn) in Hr. destruct Hr as (s' & q' & _ & _ & Ho).
    apply is_row_of_key in Hkey.
    rewrite (row_origin_key _ _ _ _ Ho) in Hkey. inversion Hkey; subst s' q'.
    destruct Ho as [r0 H0 | a f _ _ _]; [| simpl; auto].
    exfalso. apply Hgap. apply group_quarters.
    apply first_at_quarter in H0. destruct H0 as [Hin <-].
    apply in_map, Hin.
Qed.

Lemma observed_records_nonempty (records : list Holding) (s : string) (lo : Z) :
  col_min (observed_quarters records s) = Some lo -> records <> [].
Proof.
  intros H E. subst records. discriminate H.
Qed.

Lemma rows_within_lifespan (records : list Holding) (table : list OutRow)
    (s : string) (lo hi : Z) (r : OutRow) :
  normalize records = Ok table ->
  col_min (observed_quarters records s) = Some lo ->
  col_max (observed_quarters records s) = Some hi ->
  In r table ->
  out_series r = s ->
  ~ (out_quarter_end r < lo \/ out_quarter_end r > hi).
Proof.
  intros Hn Hlo Hhi Hr Hs.
  apply (normalize_In _ _ r Hn) in Hr. destruct Hr as (s' & q & _ & Hq & Ho).
  apply row_origin_key in Ho. unfold row_key in Ho. inversion Ho; subst.
  apply span_quarters_In in Hq. destruct Hq as [_ (lo' & hi' & Hlo' & Hhi' & Hb)].
  apply col_min_is_min in Hlo'. apply col_max_is_max in Hhi'.
  assert (lo' = lo) by congruence. assert (hi' = hi) by congruence. lia.
Qed.

(** C8 (no extrapolation).  Let [s] be a series observed in [records] from
    the quarter [lo] to the quarter [hi].  The normalizer returns a table,
    and no row of series [s] in it lies at a quarter before [lo] or
    after [hi]. *)
Theorem no_extrapolation (records : list Holding) (s : string) (lo hi : Z) :
  col_min (observed_quarters records s) = Some lo ->
  col_max (observed_quarters records s) = Some hi ->
  exists table,
    normalize records = Ok table
    /\ forall r, In r table -> out_series r = s ->
                 ~ (out_quarter_end r < lo \/ out_quarter_end r > hi).
Proof.
  intros Hlo Hhi.
  destruct (normalize_nonempty_Ok records (observed_records_nonempty _ _ _ Hlo))
    as (table & Hn).
  exists table. split; [exact Hn |].
  intros r Hr Hs.
  exact (rows_within_lifespan records table s lo hi r Hn Hlo Hhi Hr Hs).
Qed.

(** Every row of the table belongs to a series that is observed in the
    records. *)
Lemma table_series_observed (records : list Holding) (table : list OutRow)
    (r : OutRow) :
  normalize records = Ok table -> In r table ->
  exists lo hi, col_min (observed_quarters records (out_series r)) = Some lo
                /\ col_max (observed_quarters records (out_series r)) = Some hi
                /\ lo <= out_quarter_end r <= hi.
Proof.
  intros Hn Hr.
  apply (normalize_In _ _ r Hn) in Hr. destruct Hr as (s' & q & _ & Hq & Ho).
  apply row_origin_key in Ho. unfold row_key in Ho. inversion Ho; subst.
  apply span_quarters_In in Hq. destruct Hq as [_ (lo & hi & Hlo & Hhi & Hb)].
  exists lo, hi. rewrite col_min_is_min, col_max_is_max. auto.
Qed.

Lemma append_self_inv (a b : string) : (a ++ b)%string = a -> b = ""%string.
Proof.
  induction a as [|c a IH]; simpl; intros H.
  - exact H.
  - inversion H. auto.
Qed.

Lemma zero_row_origin (df : list Row) (s : string) (q : Z) (r : OutRow) :
  row_origin df s q r -> out_ticker_adjusted r = None ->
  exists at_quarter first,
    r = mk_zero_row at_quarter first s q /\ In first (group df s).
Proof.
  intros [r0 H | a f _ _ Hf] E; [discriminate |].
  exists a, f. split; [reflexivity |].
  destruct (group df s); inversion Hf; subst. left; reflexivity.
Qed.

Lemma existing_row_origin (df : list Row) (s : string) (q : Z) (r : OutRow)
    (label : string) :
  row_origin df s q r -> out_ticker_adjusted r = Some label ->
  exists r0, r = to_dict r0 /\ In r0 (group df s) /\ quarter_end r0 = q /\ label = s.
Proof.
  intros [r0 H | a f _ _ Hf] E; [| discriminate].
  apply first_at_quarter in H. destruct H as [Hin Hq].
  exists r0. repeat split; try assumption.
  apply group_In in Hin. destruct Hin as [_ Ht].
  simpl in E. congruence.
Qed.

(** ** The order of the table *)

Lemma normalize_sorted (records : list Holding) (table : list OutRow) :
  normalize records = Ok table ->
  StronglySorted ticker_quarter_order table.
Proof.
  intros H. apply normalize_Ok in H. destruct H as (u & _ & ->).
  apply sort_values_sorted.
  - apply ticker_quarter_le_total.
  - apply ticker_quarter_le_trans.
Qed.

(** C3 (as the code has it).  On every non-empty sequence of records the
    normalizer returns a table that is sorted by the pair
    ('Ticker', 'quarter_end') ascending, where 'Ticker' is the symbol cell
    of the row, the raw symbol on kept rows. *)
Theorem table_sorted_by_ticker_quarter (records : list Holding) :
  records <> [] ->
  exists table,
    normalize records = Ok table
    /\ StronglySorted ticker_quarter_order table.
Proof.
  intros Hne.
  destruct (normalize_nonempty_Ok records Hne) as (table & Hn).
  exists table. split; [exact Hn |].
  exact (normalize_sorted records table Hn).
Qed.

(** ** filter_date_range *)

Lemma filter_none {A : Type} (f : A -> bool) (l : list A) :
  (forall x, In x l -> f x = false) -> filter f l = [].
Proof.
  induction l as [|x l IH]; simpl; intros H.
  - reflexivity.
  - rewrite (H x (or_introl eq_refl)). apply IH. intros y Hy. apply H. right. exact Hy.
Qed.

(** C6 (as the code has it).  With a range that is not a preset, the
    bounds are the two dates the caller picks; when the start date is after
    the end date the call returns the empty table, and raises nothing. *)
Theorem custom_window_start_after_end (date_input : string -> option Z -> Z)
    (date_range : string) (df : list OutRow) :
  is_preset date_range = false ->
  date_input "End date"%string (col_max (map out_quarter_end df))
  < date_input "Start date"%string (col_min (map out_quarter_end df)) ->
  outcome (filter_date_range date_input date_range) df = Ok [].
Proof.
  unfold is_preset. simpl. rewrite !orb_false_iff.
  intros (E1 & E2 & E3 & E4 & _) Hlt.
  unfold outcome, filter_date_range. rewrite E1, E2, E3, E4. simpl.
  f_equal. apply filter_none. intros r _.
  apply andb_false_iff.
  destruct (Z.leb_spec (date_input "Start date"%string (col_min (map out_quarter_end df)))
                       (out_quarter_end r)); [right | left; reflexivity].
  apply Z.leb_gt. lia.
Qed.

(** ** Inputs after the call *)

Lemma map_fixes {A : Type} (f : A -> A) (l : list A) :
  map f l = l <-> Forall (fun x => f x = x) l.
Proof.
  induction l as [|x l IH]; simpl.
  - split; [constructor | reflexivity].
  - split.
    + intros H. inversion H as [[Hx Hl]]. rewrite Hx, Hl.
      constructor; [exact Hx | apply IH, Hl].
    + intros H. inversion H as [|? ? Hx Hl]; subst.
      rewrite Hx. f_equal. apply IH, Hl.
Qed.

Lemma written_row_fixes (r : RawRow) :
  scale_value (convert_date_filed r) = r
  <-> raw_Value_000 r = 0 /\ exists t, raw_Date_Filed r = Timestamp t.
Proof.
  destruct r as [q d t c cl cu v p sh pr o]; unfold scale_value, convert_date_filed.
  cbn [raw_Quarter raw_Date_Filed raw_Ticker raw_Company_Name raw_Class raw_CUSIP
       raw_Value_000 raw_Percentage raw_Shares raw_Principal raw_Option_Type].
  split.
  - intros H. split.
    + apply (f_equal raw_Value_000) in H. cbn [raw_Value_000] in H. lia.
    + apply (f_equal raw_Date_Filed) in H. cbn [raw_Date_Filed] in H.
      destruct d as [y m dd | ts]; [discriminate H | exists ts; reflexivity].
  - intros [Hv [ts ->]]. cbn [to_datetime]. f_equal. lia.
Qed.

Lemma relabel_fixes (r : OutRow) :
  relabel r = r <-> out_ticker_adjusted r = Some (adjust_ticker (record r)).
Proof.
  destruct r as [h q label]; unfold relabel; simpl. split.
  - intros H. apply (f_equal out_ticker_adjusted) in H. simpl in H.
    symmetry. exact H.
  - intros H. f_equal. symmetry. exact H.
Qed.

(** C9 (as the code has it).  The window filter and the top-k selector
    leave the frame they are given as it was.  [preprocess_filings_df]
    writes datetimes into the 'Date Filed' column of the frame it is given
    and multiplies its 'Value ($000)' column by 1000, and [make_graph]
    writes the 'ticker_adjusted' column of the frame it is given; the frame
    is as before only when these assignments change no cell. *)
Theorem stage_inputs_after_call :
  (forall date_input date_range df,
      object_after (filter_date_range date_input date_range) df = df)
  /\ (forall k df, object_after (filter_top_k_holdings k) df = df)
  /\ (forall df,
         object_after preprocess_filings_df df
         = map scale_value (map convert_date_filed df)
         /\ (object_after preprocess_filings_df df = df
             <-> Forall (fun r => raw_Value_000 r = 0
                                  /\ exists t, raw_Date_Filed r = Timestamp t) df))
  /\ (forall y_axis df,
         object_after (make_graph y_axis) df = map relabel df
         /\ (object_after (make_graph y_axis) df = df
             <-> Forall (fun r => out_ticker_adjusted r
                                  = Some (adjust_ticker (record r))) df)).
Proof.
  repeat split; try reflexivity.
  - unfold object_after, preprocess_filings_df; simpl.
    rewrite map_map. intros H. apply map_fixes in H.
    eapply Forall_impl; [| exact H]. intros r. apply written_row_fixes.
  - unfold object_after, preprocess_filings_df; simpl.
    rewrite map_map. intros H. apply map_fixes.
    eapply Forall_impl; [| exact H]. intros r. apply written_row_fixes.
  - unfold object_after, make_graph; simpl.
    intros H. apply map_fixes in H.
    eapply Forall_impl; [| exact H]. intros r. apply relabel_fixes.
  - unfold object_after, make_graph; simpl.
    intros H. apply map_fixes.
    eapply Forall_impl; [| exact H]. intros r. apply relabel_fixes.
Qed.

(** ** filter_top_k_holdings *)

Lemma top_holdings_ranked (df : list OutRow) (k : Z) :
  top_holdings_of (sort_values by_quarter df) k
  = unique String.eqb (head k (map symbol (ranked_rows df))).
Proof.
  reflexivity.
Qed.

Lemma top_k_outcome (df : list OutRow) (k : Z) :
  outcome (filter_top_k_holdings k) df
  = Ok (filter (fun r => isin_str (symbol r)
                           (top_holdings_of (sort_values by_quarter df) k))
               (sort_values by_quarter df)).
Proof.
  reflexivity.
Qed.

Lemma Permutation_filter {A : Type} (f : A -> bool) (l l' : list A) :
  Permutation l l' -> Permutation (filter f l) (filter f l').
Proof.
  induction 1 as [| x l l' _ IH | x y l | l l' l'' _ IH1 _ IH2]; simpl.
  - constructor.
  - destruct (f x); [apply perm_skip |]; exact IH.
  - destruct (f x), (f y); try apply Permutation_refl. apply perm_swap.
  - eapply perm_trans; eassumption.
Qed.

Lemma col_max_same_elements (l l' : list Z) :
  (forall x, In x l <-> In x l') -> col_max l = col_max l'.
Proof.
  intros H. destruct (col_max l) as [m|] eqn:E.
  - symmetry. apply col_max_is_max. apply (is_max_same_elements l l' m H).
    apply col_max_is_max, E.
  - destruct l as [|x l]; [| discriminate].
    destruct l' as [|y l']; [reflexivity |].
    destruct (proj2 (H y) (or_introl eq_refl)).
Qed.

Lemma rows_at_max_date_perm (l l' : list OutRow) :
  Permutation l l' -> Permutation (rows_at_max_date l) (rows_at_max_date l').
Proof.
  intros H. unfold rows_at_max_date.
  rewrite (col_max_same_elements (map out_quarter_end l) (map out_quarter_end l')).
  - apply Permutation_filter, H.
  - intros x. split; apply Permutation_in, Permutation_map;
      [exact H | apply Permutation_sym, H].
Qed.

Lemma ranked_rows_perm (df : list OutRow) :
  Permutation (ranked_rows df) (rows_at_max_date df).
Proof.
  unfold ranked_rows.
  eapply perm_trans; [apply sort_values_perm |].
  apply rows_at_max_date_perm, sort_values_perm.
Qed.

Lemma ranked_rows_In_df (df : list OutRow) (r : OutRow) :
  In r (ranked_rows df) -> In r df.
Proof.
  intros H. apply (Permutation_in _ (ranked_rows_perm df)) in H.
  unfold rows_at_max_date in H. apply filter_In in H. apply H.
Qed.

Lemma ranked_rows_sorted (df : list OutRow) :
  StronglySorted (fun a b => by_percentage_desc a b = true) (ranked_rows df).
Proof.
  apply sort_values_sorted; unfold by_percentage_desc.
  - intros a b.
    destruct (Z.leb_spec (Percentage (record b)) (Percentage (record a))); [auto |].
    right. apply Z.leb_le. lia.
  - intros a b c H1 H2. apply Z.leb_le in H1, H2. apply Z.leb_le. lia.
Qed.

Lemma firstn_incl {A : Type} (n : nat) (l : list A) (x : A) :
  In x (firstn n l) -> In x l.
Proof.
  intros H. rewrite <- (firstn_skipn n l). apply in_or_app. left. exact H.
Qed.

Lemma head_In {A : Type} (k : Z) (l : list A) (x : A) : In x (head k l) -> In x l.
Proof.
  unfold head. destruct (0 <=? k); apply firstn_incl.
Qed.

Lemma head_nat {A : Type} (n : nat) (l : list A) : head (Z.of_nat n) l = firstn n l.
Proof.
  unfold head. destruct (Z.leb_spec 0 (Z.of_nat n)); [| lia].
  rewrite Nat2Z.id. reflexivity.
Qed.

Lemma unique_length_le {A : Type} (eqb : A -> A -> bool) (l : list A) :
  (List.length (unique eqb l) <= List.length l)%nat.
Proof.
  induction l as [|x l IH]; simpl.
  - lia.
  - pose proof (filter_length_le (fun y => negb (eqb x y)) (unique eqb l)). lia.
Qed.

Lemma unique_nil {A : Type} (eqb : A -> A -> bool) (l : list A) :
  unique eqb l = [] <-> l = [].
Proof.
  destruct l; simpl; split; intros H; try reflexivity; discriminate.
Qed.

Lemma StronglySorted_app_cross {A : Type} (R : A -> A -> Prop) (l1 l2 : list A) :
  StronglySorted R (l1 ++ l2) ->
  forall x y, In x l1 -> In y l2 -> R x y.
Proof.
  induction l1 as [|a l1 IH]; simpl; intros H x y Hx Hy.
  - destruct Hx.
  - apply StronglySorted_inv in H. destruct H as [Hs Ha].
    destruct Hx as [<- | Hx].
    + rewrite Forall_forall in Ha. apply Ha, in_or_app. right. exact Hy.
    + apply IH; assumption.
Qed.

(** The rows returned are the rows of the table whose symbol is selected. *)
Lemma top_k_rows (df : list OutRow) (k : Z) (r : OutRow) :
  In r (filter (fun r => isin_str (symbol r)
                           (top_holdings_of (sort_values by_quarter df) k))
               (sort_values by_quarter df))
  <-> In r df /\ In (symbol r) (top_holdings_of (sort_values by_quarter df) k).
Proof.
  rewrite filter_In, sort_values_In, isin_str_In. reflexivity.
Qed.

(** A selected symbol is the symbol of a row of the table. *)
Lemma top_holding_has_row (df : list OutRow) (k : Z) (t : string) :
  In t (top_holdings_of (sort_values by_quarter df) k) ->
  exists r, In r df /\ symbol r = t.
Proof.
  rewrite top_holdings_ranked, (unique_In _ String.eqb_eq).
  intros H. apply head_In, in_map_iff in H. destruct H as (r & E & Hr).
  exists r. split; [apply ranked_rows_In_df, Hr | exact E].
Qed.

(** The distinct symbols of the rows returned are the selected symbols. *)
Lemma top_k_symbols (df : list OutRow) (k : Z) (t : string) :
  In t (distinct_symbols
          (filter (fun r => isin_str (symbol r)
                              (top_holdings_of (sort_values by_quarter df) k))
                  (sort_values by_quarter df)))
  <-> In t (top_holdings_of (sort_values by_quarter df) k).
Proof.
  unfold distinct_symbols. rewrite (unique_In _ String.eqb_eq), in_map_iff.
  split.
  - intros (r & E & Hr). apply top_k_rows in Hr. unfold symbol in Hr.
    rewrite E in Hr. apply Hr.
  - intros H. destruct (top_holding_has_row df k t H) as (r & Hr & E).
    exists r. split; [exact E |]. apply top_k_rows. rewrite E. auto.
Qed.

(** C5 (as the code has it).  [k = 0] selects nothing: the result is the
    empty table.  A negative [k] is not read as 0: [head(k)] then keeps all
    the ranked rows but the last [-k], so the result is empty only when the
    table has at most [-k] rows at the end date.  No error is raised. *)
Theorem top_k_nonpositive :
  (forall df, outcome (filter_top_k_holdings 0) df = Ok [])
  /\ (forall k df, k < 0 ->
        exists res,
          outcome (filter_top_k_holdings k) df = Ok res
          /\ (res = [] <->
              (List.length (rows_at_max_date df) <= Z.to_nat (- k))%nat)).
Proof.
  split.
  - intros df. rewrite top_k_outcome. f_equal. apply filter_none. reflexivity.
  - intros k df Hk. rewrite top_k_outcome. eexists. split; [reflexivity |].
    assert (Htop : top_holdings_of (sort_values by_quarter df) k = []
                   <-> (List.length (rows_at_max_date df) <= Z.to_nat (- k))%nat).
    { rewrite top_holdings_ranked, unique_nil. unfold head.
      destruct (Z.leb_spec 0 k); [lia |].
      rewrite <- (Permutation_length (ranked_rows_perm df)).
      rewrite <- (length_map symbol (ranked_rows df)).
      generalize (map symbol (ranked_rows df)). intros l.
      split.
      - intros E. apply (f_equal (@List.length string)) in E.
        rewrite length_firstn in E. simpl in E. lia.
      - intros Hle.
        replace (List.length l - Z.to_nat (- k))%nat with 0%nat by lia.
        reflexivity. }
    rewrite <- Htop. split.
    + intros E.
      assert (Hno : forall t, ~ In t (top_holdings_of (sort_values by_quarter df) k)).
      { intros t Ht.
        destruct (top_holding_has_row df k t Ht) as (r & Hr & Es).
        assert (Hin : In r []); [| destruct Hin].
        rewrite <- E. apply top_k_rows. rewrite Es. auto. }
      destruct (top_holdings_of (sort_values by_quarter df) k) as [|t top];
        [reflexivity | exfalso].
      apply (Hno t). left; reflexivity.
    + intros E. rewrite E. apply filter_none. reflexivity.
Qed.

(** C7 (as the code has it).  The top five are taken among the rows at the
    maximum 'quarter_end', ranked by percentage: [top_rows] are the first
    five rows of the ranking (all of them if fewer), and no other row at
    that date has a higher percentage than one of them.  The selected
    symbols are the symbols of these rows, so there are at most five, and
    exactly min(5, number of distinct symbols at that date) when the rows at
    that date carry pairwise distinct symbols.  The rows returned are the
    rows of the table, at any quarter, whose symbol is selected. *)
Theorem top_five_holdings (df : list OutRow) :
  exists res top_rows rest,
    outcome (filter_top_k_holdings 5) df = Ok res
    /\ Permutation (top_rows ++ rest) (rows_at_max_date df)
    /\ List.length top_rows = Nat.min 5 (List.length (rows_at_max_date df))
    /\ (forall x r, In x top_rows -> In r rest ->
                    Percentage (record r) <= Percentage (record x))
    /\ (forall t, In t (distinct_symbols res) <-> In t (map symbol top_rows))
    /\ (List.length (distinct_symbols res) <= 5)%nat
    /\ (NoDup (map symbol (rows_at_max_date df)) ->
        List.length (distinct_symbols res)
        = Nat.min 5 (List.length (distinct_symbols (rows_at_max_date df))))
    /\ (forall r, In r res <-> In r df /\ In (symbol r) (distinct_symbols res)).
Proof.
  rewrite top_k_outcome.
  eexists. exists (firstn 5 (ranked_rows df)), (skipn 5 (ranked_rows df)).
  split; [reflexivity |].
  assert (Htop : top_holdings_of (sort_values by_quarter df) 5
                 = unique String.eqb (map symbol (firstn 5 (ranked_rows df)))).
  { rewrite top_holdings_ranked. rewrite (head_nat 5), firstn_map. reflexivity. }
  assert (Hlen : List.length (firstn 5 (ranked_rows df))
                 = Nat.min 5 (List.length (rows_at_max_date df))).
  { rewrite length_firstn, (Permutation_length (ranked_rows_perm df)). reflexivity. }
  assert (Hsym : forall t,
             In t (distinct_symbols
                     (filter (fun r => isin_str (symbol r)
                                 (top_holdings_of (sort_values by_quarter df) 5))
                             (sort_values by_quarter df)))
             <-> In t (map symbol (firstn 5 (ranked_rows df)))).
  { intros t. rewrite top_k_symbols, Htop. apply unique_In, String.eqb_eq. }
  assert (Hcount : List.length
                     (distinct_symbols
                        (filter (fun r => isin_str (symbol r)
                                    (top_holdings_of (sort_values by_quarter df) 5))
                                (sort_values by_quarter df)))
                   = List.length (unique String.eqb
                                    (map symbol (firstn 5 (ranked_rows df))))).
  { apply Permutation_length, NoDup_Permutation.
    - apply unique_NoDup, String.eqb_eq.
    - apply unique_NoDup, String.eqb_eq.
    - intros t. rewrite Hsym. symmetry. apply unique_In, String.eqb_eq. }
  refine (conj _ (conj _ (conj _ (conj _ (conj _ (conj _ _)))))).
  - rewrite firstn_skipn. apply ranked_rows_perm.
  - exact Hlen.
  - intros x r Hx Hr.
    pose proof (ranked_rows_sorted df) as Hs.
    rewrite <- (firstn_skipn 5 (ranked_rows df)) in Hs.
    apply Z.leb_le. exact (StronglySorted_app_cross _ _ _ Hs x r Hx Hr).
  - exact Hsym.
  - rewrite Hcount.
    pose proof (unique_length_le String.eqb (map symbol (firstn 5 (ranked_rows df)))) as H.
    rewrite length_map, Hlen in H. lia.
  - intros Hnd. rewrite Hcount.
    assert (Hnd' : NoDup (map symbol (ranked_rows df))).
    { eapply Permutation_NoDup; [| exact Hnd].
      apply Permutation_map, Permutation_sym, ranked_rows_perm. }
    rewrite <- (firstn_skipn 5 (ranked_rows df)), map_app in Hnd'.
    apply NoDup_app_remove_r in Hnd'.
    rewrite (unique_NoDup_id _ String.eqb_eq _ Hnd'), length_map, Hlen.
    change (distinct_symbols (rows_at_max_date df))
      with (unique String.eqb (map symbol (rows_at_max_date df))).
    rewrite (unique_NoDup_id _ String.eqb_eq _ Hnd), length_map. reflexivity.
  - intros r. rewrite top_k_rows, top_k_symbols. reflexivity.
Qed.

(** ** Normalizing a normalized table again *)

Lemma append_empty (s : string) : (s ++ "")%string = s.
Proof.
  induction s as [|c s IH]; simpl; [reflexivity | rewrite IH; reflexivity].
Qed.

Lemma NoDup_map_injective {A B : Type} (f : A -> B) (l : list A) (a b : A) :
  NoDup (map f l) -> In a l -> In b l -> f a = f b -> a = b.
Proof.
  induction l as [|x l IH]; simpl; intros Hnd Ha Hb E.
  - destruct Ha.
  - inversion Hnd as [|? ? Hx Hl]; subst.
    destruct Ha as [<- | Ha], Hb as [<- | Hb].
    + reflexivity.
    + exfalso. apply Hx. rewrite E. apply in_map, Hb.
    + exfalso. apply Hx. rewrite <- E. apply in_map, Ha.
    + apply IH; assumption.
Qed.

Lemma sorted_unique {A : Type} (R : A -> A -> Prop) (l1 l2 : list A) :
  StronglySorted R l1 -> StronglySorted R l2 ->
  NoDup l1 -> NoDup l2 ->
  (forall x, In x l1 <-> In x l2) ->
  (forall a b, In a l1 -> In b l1 -> R a b -> R b a -> a = b) ->
  l1 = l2.
Proof.
  revert l2. induction l1 as [|a l1 IH]; intros l2 Hs1 Hs2 Hn1 Hn2 Hsame Hanti.
  - destruct l2 as [|b l2]; [reflexivity |].
    destruct (proj2 (Hsame b) (or_introl eq_refl)).
  - destruct l2 as [|b l2].
    + destruct (proj1 (Hsame a) (or_introl eq_refl)).
    + apply StronglySorted_inv in Hs1. destruct Hs1 as [Hs1 Ha].
      apply StronglySorted_inv in Hs2. destruct Hs2 as [Hs2 Hb].
      rewrite Forall_forall in Ha, Hb.
      inversion Hn1 as [|? ? Ha1 Hn1']; subst.
      inversion Hn2 as [|? ? Hb2 Hn2']; subst.
      assert (E : a = b).
      { destruct (proj1 (Hsame a) (or_introl eq_refl)) as [E | Hin2]; [auto |].
        destruct (proj2 (Hsame b) (or_introl eq_refl)) as [E | Hin1]; [auto |].
        apply Hanti; [left; reflexivity | right; exact Hin1 | apply Ha, Hin1 |
                      apply Hb, Hin2]. }
      subst b. f_equal. apply IH; try assumption.
      * intros x. split; intros Hx.
        -- destruct (proj1 (Hsame x) (or_intror Hx)) as [<- | H]; [contradiction | exact H].
        -- destruct (proj2 (Hsame x) (or_intror Hx)) as [<- | H]; [contradiction | exact H].
      * intros x y Hx Hy. apply Hanti; right; assumption.
Qed.

Lemma StronglySorted_map_same {A : Type} (R : A -> A -> Prop) (f : A -> A)
    (l : list A) :
  (forall a b, R a b -> R (f a) (f b)) ->
  StronglySorted R l -> StronglySorted R (map f l).
Proof.
  intros Hf. induction 1 as [|a l _ IH Ha]; simpl; constructor.
  - exact IH.
  - rewrite Forall_forall in *. intros y Hy. apply in_map_iff in Hy.
    destruct Hy as (x & <- & Hx). apply Hf, Ha, Hx.
Qed.

Lemma ticker_quarter_le_antisym (a b : OutRow) :
  ticker_quarter_le a b = true -> ticker_quarter_le b a = true ->
  symbol a = symbol b /\ out_quarter_end a = out_quarter_end b.
Proof.
  unfold ticker_quarter_le, symbol.
  destruct (String.compare (Ticker (record a)) (Ticker (record b))) eqn:E;
    try discriminate.
  - apply String.compare_eq_iff in E. rewrite E, str_compare_refl.
    intros H1 H2. apply Z.leb_le in H1, H2. split; [reflexivity | lia].
  - rewrite String.compare_antisym, E. discriminate.
Qed.

(** What the rows of a table record about themselves. *)
Lemma table_row_record (records : list Holding) (table : list OutRow) (r : OutRow) :
  normalize records = Ok table -> In r table ->
  period_end (record r) = out_quarter_end r
  /\ (exists h, In h records /\ Option_Type (record r) = Option_Type h)
  /\ (Option_Type (record r) = NoOption -> series_id (record r) = out_series r).
Proof.
  intros Hn Hr.
  apply (normalize_In _ _ _ Hn) in Hr. destruct Hr as (s & q & _ & _ & Ho).
  destruct Ho as [r0 H0 | a f _ Ha Hf].
  - apply first_at_quarter in H0. destruct H0 as [H0 _].
    apply group_In in H0. destruct H0 as [H0 _].
    apply working_frame_In in H0. destruct H0 as (h & Hh & ->).
    simpl. repeat split. exists h. auto.
  - apply first_at_quarter in Ha. destruct Ha as [Ha Hq].
    apply working_frame_In in Ha. destruct Ha as (ha & _ & ->).
    assert (Hf' : In f (group (working_frame records) s))
      by (destruct (group (working_frame records) s); inversion Hf; left; reflexivity).
    apply group_In in Hf'. destruct Hf' as [Hf' _].
    apply working_frame_In in Hf'. destruct Hf' as (hf & Hhf & ->).
    simpl in *. split; [exact Hq |]. split; [exists hf; auto |].
    intros E. unfold series_id, adjust_ticker, out_series; simpl.
    rewrite E. apply append_empty.
Qed.

(** The label computed again from 'Ticker' and 'Option Type', as lines
    205-207 do, is the series of the row on every kept row and on the zero
    rows of the series that are not options. *)
Lemma series_id_of_row (records : list Holding) (table : list OutRow) (r : OutRow) :
  normalize records = Ok table -> In r table ->
  out_ticker_adjusted r <> None \/ Option_Type (record r) = NoOption ->
  series_id (record r) = out_series r.
Proof.
  intros Hn Hr [Hkept | Hopt].
  - apply (normalize_In _ _ _ Hn) in Hr. destruct Hr as (s & q & _ & _ & Ho).
    destruct Ho as [r0 H0 | a f _ _ _]; [| contradiction Hkept; reflexivity].
    apply first_at_quarter in H0. destruct H0 as [H0 _].
    apply group_In in H0. destruct H0 as [H0 _].
    apply working_frame_In in H0. destruct H0 as (h & _ & ->). reflexivity.
  - apply (table_row_record _ _ _ Hn Hr), Hopt.
Qed.

(** On the zero row of an option series it is not: the suffix is there twice. *)
Lemma series_id_of_option_zero_row :
  normalize option_gap_records = Ok option_gap_table
  /\ In option_gap_zero_row option_gap_table
  /\ out_series option_gap_zero_row = "XYZ (put)"%string
  /\ series_id (record option_gap_zero_row) = "XYZ (put) (put)"%string.
Proof.
  split; [vm_compute; reflexivity |].
  split; [simpl; auto |].
  split; reflexivity.
Qed.

Lemma normalize_Ok_nonempty (records : list Holding) (table : list OutRow) :
  normalize records = Ok table -> table <> [].
Proof.
  intros H E. subst table.
  destruct (normalize_Ok _ _ H) as (u & Hu & Et).
  symmetry in Et. apply sort_values_nil in Et. subst u.
  unfold normalize in H. rewrite Hu in H. discriminate H.
Qed.

Lemma table_keys_NoDup (records : list Holding) (table : list OutRow) :
  normalize records = Ok table -> NoDup (map row_key table).
Proof.
  intros Hn.
  eapply Permutation_NoDup; [apply Permutation_sym, (normalize_keys _ _ Hn) |].
  apply span_keys_NoDup; [apply unique_NoDup, String.eqb_eq | apply all_quarters_NoDup].
Qed.

Lemma table_has_key (records : list Holding) (table : list OutRow) (s : string)
    (q : Z) :
  normalize records = Ok table ->
  In s (map series_id records) ->
  In q (span_quarters (working_frame records)
                      (all_quarters_of (working_frame records)) s) ->
  exists r, In r table /\ row_key r = (s, q).
Proof.
  intros Hn Hs Hq.
  assert (H : In (s, q) (map row_key table)).
  { apply (Permutation_in _ (Permutation_sym (normalize_keys _ _ Hn))).
    apply span_keys_In. split; [apply tickers_of_In, Hs | exact Hq]. }
  apply in_map_iff in H. destruct H as (r & E & Hr). eauto.
Qed.

(** On records without duplicates and without gaps, every row of the
    table is a record of the input, with its two derived cells. *)
Lemma complete_run_rows (records : list Holding) (table : list OutRow) :
  NoDup (map holding_key records) -> gap_free records ->
  normalize records = Ok table ->
  forall r, In r table <-> exists h, In h records /\ r = to_dict (row_of h).
Proof.
  intros Hnd Hgap Hn.
  assert (Hto : forall r, In r table -> exists h, In h records /\ r = to_dict (row_of h)).
  { intros r Hr.
    apply (normalize_In _ _ _ Hn) in Hr. destruct Hr as (s & q & _ & Hq & Ho).
    apply span_quarters_In in Hq.
    destruct Hq as [Hq (lo & hi & [Hlo _] & [Hhi _] & Hb)].
    pose proof (Hgap s q lo hi Hq Hlo Hhi Hb) as Hobs.
    apply group_quarters, isin_Z_In in Hobs.
    destruct Ho as [r0 H0 | a f Hno _ _]; [| congruence].
    apply first_at_quarter in H0. destruct H0 as [H0 _].
    apply group_In in H0. destruct H0 as [H0 _].
    apply working_frame_In in H0. destruct H0 as (h & Hh & ->). eauto. }
  intros r. split; [apply Hto |].
  intros (h & Hh & ->).
  assert (Hobs : In (period_end h) (observed_quarters records (series_id h))).
  { unfold observed_quarters. apply in_map, filter_In.
    split; [exact Hh | apply String.eqb_refl]. }
  destruct (table_has_key records table (series_id h) (period_end h) Hn)
    as (r & Hr & Hkey).
  - apply in_map, Hh.
  - apply span_quarters_In. split; [apply in_map, Hh |].
    destruct (col_min_nonempty (observed_quarters records (series_id h)))
      as (lo & Hlo); [intros E; rewrite E in Hobs; destruct Hobs |].
    destruct (col_max_nonempty (observed_quarters records (series_id h)))
      as (hi & Hhi); [intros E; rewrite E in Hobs; destruct Hobs |].
    apply col_min_is_min in Hlo. apply col_max_is_max in Hhi.
    exists lo, hi. split; [exact Hlo |]. split; [exact Hhi |].
    split; [apply Hlo, Hobs | apply Hhi, Hobs].
  - destruct (Hto r Hr) as (h0 & Hh0 & ->).
    assert (h0 = h); [| subst; exact Hr].
    apply (NoDup_map_injective holding_key records); assumption.
Qed.

(** The rows of the table of records without options form such an input. *)
Lemma table_rows_complete (records : list Holding) (table : list OutRow) :
  no_options records -> normalize records = Ok table ->
  (forall r, In r table ->
             holding_key (record r) = row_key r
             /\ to_dict (row_of (record r)) = relabel r)
  /\ NoDup (map holding_key (rows table))
  /\ gap_free (rows table).
Proof.
  intros Hno Hn.
  assert (Hrow : forall r, In r table ->
                   holding_key (record r) = row_key r
                   /\ to_dict (row_of (record r)) = relabel r).
  { intros r Hr.
    destruct (table_row_record _ _ _ Hn Hr) as (Hq & (h & Hh & Ho) & Hs).
    unfold no_options in Hno. rewrite Forall_forall in Hno.
    rewrite (Hno h Hh) in Ho. specialize (Hs Ho).
    split.
    - unfold holding_key, row_key. rewrite Hq, Hs. reflexivity.
    - unfold to_dict, row_of, relabel; simpl. rewrite Hq. reflexivity. }
  assert (Hkeys : map holding_key (rows table) = map row_key table).
  { unfold rows. rewrite map_map. apply map_ext_in. intros r Hr. apply Hrow, Hr. }
  split; [exact Hrow |]. split.
  - rewrite Hkeys. apply (table_keys_NoDup _ _ Hn).
  - assert (Hobs : forall s x, In x (observed_quarters (rows table) s) <->
                               exists r, In r table /\ row_key r = (s, x)).
    { intros s x. unfold observed_quarters, rows.
      rewrite in_map_iff. split.
      - intros (h & E & Hh). apply filter_In in Hh. destruct Hh as [Hh Es].
        apply in_map_iff in Hh. destruct Hh as (r & <- & Hr).
        exists r. split; [exact Hr |].
        rewrite <- (proj1 (Hrow r Hr)). unfold holding_key.
        apply String.eqb_eq in Es. congruence.
      - intros (r & Hr & Ek). exists (record r).
        rewrite <- (proj1 (Hrow r Hr)) in Ek. inversion Ek.
        split; [reflexivity |]. apply filter_In.
        split; [apply in_map, Hr | apply String.eqb_refl]. }
    intros s q lo hi Hq Hlo Hhi Hb.
    apply Hobs in Hlo, Hhi.
    destruct Hlo as (rlo & Hrlo & Eklo). destruct Hhi as (rhi & Hrhi & Ekhi).
    inversion Eklo as [[Eslo Eqlo]]. inversion Ekhi as [[Eshi Eqhi]].
    destruct (table_series_observed _ _ _ Hn Hrlo) as (lo0 & hi0 & Hlo0 & Hhi0 & Hblo).
    destruct (table_series_observed _ _ _ Hn Hrhi) as (lo1 & hi1 & Hlo1 & Hhi1 & Hbhi).
    rewrite Eslo in Hlo0, Hhi0. rewrite Eshi in Hlo1, Hhi1.
    assert (lo1 = lo0) by congruence. assert (hi1 = hi0) by congruence. subst lo1 hi1.
    apply Hobs. rewrite ?Eslo.
    apply (table_has_key records table s q Hn).
    + apply col_min_is_min in Hlo0. destruct Hlo0 as [Hin _].
      unfold observed_quarters in Hin. apply in_map_iff in Hin.
      destruct Hin as (h & _ & Hh). apply filter_In in Hh. destruct Hh as [Hh E].
      apply String.eqb_eq in E. rewrite <- E. apply in_map, Hh.
    + apply span_quarters_In. split.
      * unfold rows in Hq. rewrite map_map in Hq. apply in_map_iff in Hq.
        destruct Hq as (r & Er & Hr).
        destruct (table_row_record _ _ _ Hn Hr) as (Hqr & _ & _).
        rewrite Hqr in Er.
        apply (normalize_In _ _ _ Hn) in Hr. destruct Hr as (s' & q' & _ & Hq' & Ho).
        apply row_origin_key in Ho. inversion Ho; subst.
        apply span_quarters_In in Hq'. apply Hq'.
      * exists lo0, hi0. rewrite <- col_min_is_min, <- col_max_is_max.
        split; [exact Hlo0 |]. split; [exact Hhi0 | lia].
Qed.

Lemma renormalize_rows (records : list Holding) (table : list OutRow) :
  no_options records ->
  normalize records = Ok table ->
  normalize (rows table) = Ok (map relabel table)
  /\ normalize (rows (map relabel table)) = Ok (map relabel table).
Proof.
  intros Hno Hn.
  assert (Hfirst : normalize (rows table) = Ok (map relabel table)).
  { destruct (table_rows_complete _ _ Hno Hn) as (Hrow & Hnd & Hgap).
    destruct (normalize_nonempty_Ok (rows table)) as (table' & Hn').
    { pose proof (normalize_Ok_nonempty _ _ Hn) as Hne.
      destruct table; [congruence | discriminate]. }
    rewrite Hn'. f_equal.
    assert (Hkeys : map row_key (map relabel table) = map row_key table).
    { rewrite map_map. apply map_ext_in. intros r Hr.
      destruct (Hrow r Hr) as [Hk Hd]. rewrite <- Hd, <- Hk. reflexivity. }
    assert (Hnd2 : NoDup (map row_key (map relabel table)))
      by (rewrite Hkeys; apply (table_keys_NoDup _ _ Hn)).
    apply (sorted_unique ticker_quarter_order).
    - apply (normalize_sorted _ _ Hn').
    - apply StronglySorted_map_same; [intros a b H; exact H |].
      apply (normalize_sorted _ _ Hn).
    - apply (NoDup_map_inv row_key), (table_keys_NoDup _ _ Hn').
    - apply (NoDup_map_inv row_key), Hnd2.
    - intros r'. rewrite (complete_run_rows _ _ Hnd Hgap Hn' r'), in_map_iff.
      unfold rows. split.
      + intros (h & Hh & ->). apply in_map_iff in Hh. destruct Hh as (r & <- & Hr).
        exists r. split; [symmetry; apply Hrow, Hr | exact Hr].
      + intros (r & <- & Hr). exists (record r).
        split; [apply in_map, Hr | symmetry; apply Hrow, Hr].
    - intros a b Ha Hb Hab Hba.
      apply (NoDup_map_injective row_key table');
        try assumption; [apply (table_keys_NoDup _ _ Hn') |].
      destruct (ticker_quarter_le_antisym a b Hab Hba) as [Es Eq].
      apply (complete_run_rows _ _ Hnd Hgap Hn') in Ha, Hb.
      destruct Ha as (ha & Hha & ->). destruct Hb as (hb & Hhb & ->).
      unfold rows in Hha, Hhb. apply in_map_iff in Hha, Hhb.
      destruct Hha as (ra & <- & Hra). destruct Hhb as (rb & <- & Hrb).
      unfold symbol in Es; simpl in Es, Eq.
      destruct (table_row_record _ _ _ Hn Hra) as (_ & (h1 & Hh1 & Ho1) & _).
      destruct (table_row_record _ _ _ Hn Hrb) as (_ & (h2 & Hh2 & Ho2) & _).
      unfold no_options in Hno. rewrite Forall_forall in Hno.
      rewrite (Hno h1 Hh1) in Ho1. rewrite (Hno h2 Hh2) in Ho2.
      unfold row_key, out_series; simpl.
      unfold series_id, adjust_ticker. rewrite Ho1, Ho2, !append_empty, Es, Eq.
      reflexivity. }
  split; [exact Hfirst |].
  replace (rows (map relabel table)) with (rows table); [exact Hfirst |].
  unfold rows. rewrite map_map. reflexivity.
Qed.

(** C2 (as the code has it).  For a non-empty sequence of records without
    option positions the normalizer returns a table, and normalizing the
    rows of that table again gives the same rows in the same order, except
    that the re-run fills in the 'ticker_adjusted' cell that the first run
    leaves empty (NaN) on its zero rows; normalizing once more changes
    nothing. *)
Theorem renormalize_fills_labels (records : list Holding) :
  no_options records ->
  records <> [] ->
  exists table,
    normalize records = Ok table
    /\ normalize (rows table) = Ok (map relabel table)
    /\ normalize (rows (map relabel table)) = Ok (map relabel table).
Proof.
  intros Hno Hne.
  destruct (normalize_nonempty_Ok records Hne) as (table & Hn).
  exists table. split; [exact Hn |].
  exact (renormalize_rows records table Hno Hn).
Qed.

(** ** Quarter ends *)

Lemma days_before_year_step (y : Z) :
  days_before_year (y + 1) = days_before_year y + 365 + leap_day y.
Proof.
  unfold days_before_year, leap_day, is_leap.
  replace (y + 1 - 1) with y by lia.
  destruct (Z.eqb_spec (y mod 4) 0), (Z.eqb_spec (y mod 100) 0),
    (Z.eqb_spec (y mod 400) 0); simpl;
    Z.to_euclidean_division_equations; lia.
Qed.

Lemma leap_day_range (y : Z) : 0 <= leap_day y <= 1.
Proof. unfold leap_day. destruct (is_leap y); lia. Qed.

Lemma days_before_year_steps (a : Z) (n : nat) :
  days_before_year a + 365 * Z.of_nat n <= days_before_year (a + Z.of_nat n).
Proof.
  induction n as [|n IH].
  - simpl. replace (a + 0) with a by lia. lia.
  - rewrite Nat2Z.inj_succ.
    replace (a + Z.succ (Z.of_nat n)) with (a + Z.of_nat n + 1) by lia.
    rewrite days_before_year_step.
    pose proof (leap_day_range (a + Z.of_nat n)). lia.
Qed.

Lemma days_before_year_mono (a b : Z) :
  a <= b -> days_before_year a + 365 * (b - a) <= days_before_year b.
Proof.
  intros H. pose proof (days_before_year_steps a (Z.to_nat (b - a))) as K.
  rewrite Z2Nat.id in K by lia.
  replace (a + (b - a)) with b in K by lia. exact K.
Qed.

Lemma get_quarter_end_offset (l : QuarterLabel) :
  get_quarter_end l
  = days_before_year (quarter_year l) + leap_day (quarter_year l)
    + match quarter_no l with Q1 => 90 | Q2 => 181 | Q3 => 273 | Q4 => 365 end.
Proof.
  destruct l as [q y]. unfold get_quarter_end, datetime, days_before_month, leap_day.
  simpl. destruct q; simpl; destruct (is_leap y); lia.
Qed.

Lemma get_quarter_end_before (a b : QuarterLabel) :
  label_before a b -> get_quarter_end a < get_quarter_end b.
Proof.
  rewrite !get_quarter_end_offset.
  destruct a as [qa ya], b as [qb yb]. unfold label_before. simpl.
  intros [H | [-> H]].
  - pose proof (days_before_year_mono (ya + 1) yb ltac:(lia)) as K.
    rewrite days_before_year_step in K.
    pose proof (leap_day_range yb).
    destruct qa, qb; lia.
  - destruct qa, qb; simpl in H; lia.
Qed.

Lemma label_trichotomy (a b : QuarterLabel) :
  label_before a b \/ a = b \/ label_before b a.
Proof.
  destruct a as [qa ya], b as [qb yb]. unfold label_before. simpl.
  destruct (Z.lt_trichotomy ya yb) as [H | [-> | H]]; auto.
  destruct qa, qb; simpl; auto; try (left; right; split; [reflexivity | lia]);
    right; right; right; split; try reflexivity; lia.
Qed.

(** X1.  The ends of the quarters follow the order of their labels: the
    quarter [a] ends before the quarter [b] exactly when the label of [a]
    comes before that of [b] (an earlier year, or the same year and an
    earlier quarter), and two labels with the same end are the same. *)
Theorem quarter_ends_follow_labels (a b : QuarterLabel) :
  (get_quarter_end a < get_quarter_end b <-> label_before a b)
  /\ (get_quarter_end a = get_quarter_end b <-> a = b).
Proof.
  split; split.
  - intros H. destruct (label_trichotomy a b) as [K | [-> | K]]; [exact K | lia |].
    apply get_quarter_end_before in K. lia.
  - apply get_quarter_end_before.
  - intros H. destruct (label_trichotomy a b) as [K | [K | K]]; [| exact K |];
      apply get_quarter_end_before in K; lia.
  - intros ->. reflexivity.
Qed.

Lemma get_quarter_end_next_year (q : QuarterNo) (y : Z) :
  get_quarter_end {| quarter_no := q; quarter_year := y + 1 |}
  = get_quarter_end {| quarter_no := q; quarter_year := y |} + 365 + leap_day (y + 1).
Proof.
  rewrite !get_quarter_end_offset. simpl. rewrite days_before_year_step. lia.
Qed.

(** ** The preset windows *)

Lemma preset_outcomes (date_input : string -> option Z -> Z) (df : list OutRow) :
  outcome (filter_date_range date_input "1Y") df = Ok (days_window 365 df)
  /\ outcome (filter_date_range date_input "3Y") df = Ok (days_window 1095 df)
  /\ outcome (filter_date_range date_input "5Y") df = Ok (days_window 1825 df).
Proof.
  repeat split.
Qed.

Lemma is_preset_cases (date_range : string) :
  is_preset date_range = true ->
  date_range = "1Y"%string \/ date_range = "3Y"%string
  \/ date_range = "5Y"%string \/ date_range = "Max"%string.
Proof.
  unfold is_preset. cbn [existsb]. rewrite !orb_true_iff, !String.eqb_eq.
  intros [H | [H | [H | [H | H]]]]; auto. discriminate H.
Qed.

Lemma filter_all {A : Type} (f : A -> bool) (l : list A) :
  (forall x, In x l -> f x = true) -> filter f l = l.
Proof.
  intros H. apply forallb_filter_id, forallb_forall, H.
Qed.

Lemma col_bounds (l : list Z) (q : Z) :
  In q l ->
  exists lo hi, col_min l = Some lo /\ col_max l = Some hi /\ lo <= q <= hi.
Proof.
  intros Hq.
  destruct (col_min_nonempty l) as (lo & Hlo); [intros E; subst; destruct Hq |].
  destruct (col_max_nonempty l) as (hi & Hhi); [intros E; subst; destruct Hq |].
  exists lo, hi. split; [exact Hlo |]. split; [exact Hhi |].
  apply col_min_is_min in Hlo. apply col_max_is_max in Hhi.
  split; [apply Hlo, Hq | apply Hhi, Hq].
Qed.

Lemma days_window_In (days : Z) (df : list OutRow) (r : OutRow) (last : Z) :
  col_max (map out_quarter_end df) = Some last ->
  (In r (days_window days df) <-> In r df /\ last - days <= out_quarter_end r).
Proof.
  intros Hmax. unfold days_window. rewrite filter_In, Hmax.
  split.
  - intros [Hr H]. split; [exact Hr |].
    destruct (col_bounds _ _ (in_map out_quarter_end _ _ Hr)) as (lo & hi & Hlo & _ & _).
    rewrite Hlo in H. simpl in H.
    apply andb_true_iff in H. destruct H as [H _]. apply Z.leb_le in H. lia.
  - intros [Hr H]. split; [exact Hr |].
    destruct (col_bounds _ _ (in_map out_quarter_end _ _ Hr)) as (lo & hi & Hlo & Hhi & Hb).
    rewrite Hlo. simpl. rewrite Hmax in Hhi. inversion Hhi; subst hi.
    apply andb_true_iff. split; apply Z.leb_le; lia.
Qed.

Lemma days_window_nil (days : Z) : days_window days [] = [].
Proof. reflexivity. Qed.

Lemma days_window_incl (days : Z) (df : list OutRow) (r : OutRow) :
  In r (days_window days df) -> In r df.
Proof.
  unfold days_window. intros H. apply filter_In in H. apply H.
Qed.

Lemma days_window_last (days : Z) (df : list OutRow) (r : OutRow) :
  0 <= days -> In r (rows_at_max_date df) -> In r (days_window days df).
Proof.
  intros Hd Hr. unfold rows_at_max_date in Hr. apply filter_In in Hr.
  destruct Hr as [Hr Hat].
  destruct (col_max (map out_quarter_end df)) as [last|] eqn:Hmax; [| discriminate].
  simpl in Hat. apply Z.eqb_eq in Hat.
  apply (days_window_In days df r last Hmax). split; [exact Hr | lia].
Qed.

Lemma rows_at_max_date_nonempty (df : list OutRow) :
  df <> [] -> rows_at_max_date df <> [].
Proof.
  intros Hne.
  destruct (col_max_nonempty (map out_quarter_end df)) as (last & Hmax).
  { destruct df; [congruence | discriminate]. }
  pose proof Hmax as Hin. apply col_max_is_max in Hin. destruct Hin as [Hin _].
  apply in_map_iff in Hin. destruct Hin as (r & Hq & Hr).
  assert (H : In r (rows_at_max_date df)).
  { unfold rows_at_max_date. apply filter_In. split; [exact Hr |].
    rewrite Hmax. simpl. apply Z.eqb_eq, Hq. }
  intros E. rewrite E in H. destruct H.
Qed.

Lemma days_window_col_max (days : Z) (df : list OutRow) :
  0 <= days ->
  col_max (map out_quarter_end (days_window days df)) = col_max (map out_quarter_end df).
Proof.
  intros Hd.
  destruct (col_max (map out_quarter_end df)) as [last|] eqn:Hmax.
  - apply col_max_is_max. pose proof Hmax as Hm. apply col_max_is_max in Hm.
    destruct Hm as [Hin Hup]. split.
    + apply in_map_iff in Hin. destruct Hin as (r & Hq & Hr).
      apply in_map_iff. exists r. split; [exact Hq |].
      apply (days_window_In days df r last Hmax). split; [exact Hr | lia].
    + intros x Hx. apply Hup. apply in_map_iff in Hx. destruct Hx as (r & Hq & Hr).
      apply in_map_iff. exists r. split; [exact Hq | apply (days_window_incl _ _ _ Hr)].
  - destruct df; [reflexivity | discriminate].
Qed.

Lemma days_window_idempotent (days : Z) (df : list OutRow) :
  0 <= days -> days_window days (days_window days df) = days_window days df.
Proof.
  intros Hd.
  destruct (col_max (map out_quarter_end df)) as [last|] eqn:Hmax.
  - apply filter_all. intros r Hr.
    rewrite (days_window_col_max days df Hd), Hmax.
    pose proof Hr as Hr'. apply (days_window_In days df r last Hmax) in Hr'.
    destruct Hr' as [Hdf Hlow].
    destruct (col_bounds _ _ (in_map out_quarter_end _ _ Hr)) as (lo & hi & Hlo & Hhi & Hb).
    rewrite (days_window_col_max days df Hd), Hmax in Hhi. inversion Hhi; subst hi.
    rewrite Hlo. simpl. apply andb_true_iff. split; apply Z.leb_le; lia.
  - destruct df; [reflexivity | discriminate].
Qed.

Lemma days_window_nested (days days' : Z) (df : list OutRow) (r : OutRow) :
  days <= days' -> In r (days_window days df) -> In r (days_window days' df).
Proof.
  intros Hd Hr.
  destruct (col_max (map out_quarter_end df)) as [last|] eqn:Hmax.
  - apply (days_window_In days df r last Hmax) in Hr.
    apply (days_window_In days' df r last Hmax). split; [apply Hr | lia].
  - destruct df; [destruct Hr | discriminate].
Qed.

Lemma whole_window (date_input : string -> option Z -> Z) (df : list OutRow) :
  outcome (filter_date_range date_input "Max") df = Ok df.
Proof.
  unfold outcome, filter_date_range. simpl. f_equal.
  apply filter_all. intros r Hr.
  destruct (col_bounds _ _ (in_map out_quarter_end _ _ Hr)) as (lo & hi & Hlo & Hhi & Hb).
  rewrite Hlo, Hhi. simpl. apply andb_true_iff. split; apply Z.leb_le; lia.
Qed.

(** X3.  The 'Max' window returns the frame as it is. *)
Theorem max_preset_keeps_every_row (date_input : string -> option Z -> Z)
    (df : list OutRow) :
  outcome (filter_date_range date_input "Max") df = Ok df.
Proof.
  exact (whole_window date_input df).
Qed.

(** X4.  The preset windows are nested: every row of the '1Y' window is in
    the '3Y' window, every row of that one in the '5Y' window, and every
    row of that one in the frame. *)
Theorem presets_are_nested (date_input : string -> option Z -> Z) (df : list OutRow) :
  exists one three five,
    outcome (filter_date_range date_input "1Y") df = Ok one
    /\ outcome (filter_date_range date_input "3Y") df = Ok three
    /\ outcome (filter_date_range date_input "5Y") df = Ok five
    /\ incl one three /\ incl three five /\ incl five df.
Proof.
  exists (days_window 365 df), (days_window 1095 df), (days_window 1825 df).
  repeat split.
  - intros r. apply days_window_nested. lia.
  - intros r. apply days_window_nested. lia.
  - intros r. apply days_window_incl.
Qed.

(** X5.  A preset window of a frame that is not empty keeps every row of
    the last quarter of the frame; so it is not empty and its last quarter
    is that of the frame. *)
Theorem presets_keep_last_quarter (date_input : string -> option Z -> Z)
    (date_range : string) (df : list OutRow) :
  is_preset date_range = true ->
  df <> [] ->
  exists res,
    outcome (filter_date_range date_input date_range) df = Ok res
    /\ incl (rows_at_max_date df) res
    /\ res <> []
    /\ col_max (map out_quarter_end res) = col_max (map out_quarter_end df).
Proof.
  intros Hp Hne.
  assert (Hdays : forall days, 0 <= days ->
            incl (rows_at_max_date df) (days_window days df)
            /\ days_window days df <> []
            /\ col_max (map out_quarter_end (days_window days df))
               = col_max (map out_quarter_end df)).
  { intros days Hd. split; [intros r; apply days_window_last, Hd |].
    split; [| apply days_window_col_max, Hd].
    intros E. apply (rows_at_max_date_nonempty df Hne).
    destruct (rows_at_max_date df) as [|r l] eqn:El; [reflexivity |].
    assert (H : In r (days_window days df))
      by (apply days_window_last; [exact Hd | rewrite El; left; reflexivity]).
    rewrite E in H. destruct H. }
  destruct (is_preset_cases _ Hp) as [-> | [-> | [-> | ->]]].
  - exists (days_window 365 df). split; [reflexivity | apply Hdays; lia].
  - exists (days_window 1095 df). split; [reflexivity | apply Hdays; lia].
  - exists (days_window 1825 df). split; [reflexivity | apply Hdays; lia].
  - exists df. split; [apply whole_window |].
    split; [| split; [exact Hne | reflexivity]].
    intros r Hr. unfold rows_at_max_date in Hr. apply filter_In in Hr. apply Hr.
Qed.

(** X6.  Taking a preset window of the result of the same preset window
    changes nothing. *)
Theorem preset_filter_idempotent (date_input : string -> option Z -> Z)
    (date_range : string) (df : list OutRow) :
  is_preset date_range = true ->
  exists res,
    outcome (filter_date_range date_input date_range) df = Ok res
    /\ outcome (filter_date_range date_input date_range) res = Ok res.
Proof.
  intros Hp.
  destruct (is_preset_cases _ Hp) as [-> | [-> | [-> | ->]]].
  - exists (days_window 365 df). split; [reflexivity |].
    destruct (preset_outcomes date_input (days_window 365 df)) as (E & _ & _).
    rewrite E, days_window_idempotent by lia. reflexivity.
  - exists (days_window 1095 df). split; [reflexivity |].
    destruct (preset_outcomes date_input (days_window 1095 df)) as (_ & E & _).
    rewrite E, days_window_idempotent by lia. reflexivity.
  - exists (days_window 1825 df). split; [reflexivity |].
    destruct (preset_outcomes date_input (days_window 1825 df)) as (_ & _ & E).
    rewrite E, days_window_idempotent by lia. reflexivity.
  - exists df. split; apply whole_window.
Qed.

(** X2.  Where the last quarter of the frame is the quarter [q] of the year
    [y + 1], the '1Y' window keeps a row of the quarter [q] of the year [y]
    exactly when [y + 1] is not a leap year: the window reaches 365 days
    back, and the 29th of February puts the same quarter of the year before
    366 days back. *)
Theorem one_year_window_and_leap_day (date_input : string -> option Z -> Z)
    (df : list OutRow) (q : QuarterNo) (y : Z) (r : OutRow) :
  col_max (map out_quarter_end df)
  = Some (get_quarter_end {| quarter_no := q; quarter_year := y + 1 |}) ->
  In r df ->
  out_quarter_end r = get_quarter_end {| quarter_no := q; quarter_year := y |} ->
  exists res,
    outcome (filter_date_range date_input "1Y") df = Ok res
    /\ (In r res <-> is_leap (y + 1) = false).
Proof.
  intros Hmax Hr Hq.
  exists (days_window 365 df). split; [reflexivity |].
  rewrite (days_window_In 365 df r _ Hmax), Hq, get_quarter_end_next_year.
  unfold leap_day. destruct (is_leap (y + 1)).
  - split; [intros [_ H]; lia | discriminate].
  - split; [reflexivity | intros _; split; [exact Hr | lia]].
Qed.

(** ** Kept rows and zero rows *)

Lemma record_in_span (records : list Holding) (h : Holding) :
  In h records ->
  In (series_id h) (tickers_of records)
  /\ In (period_end h)
        (span_quarters (working_frame records)
                       (all_quarters_of (working_frame records)) (series_id h)).
Proof.
  intros Hh. split; [apply tickers_of_In, in_map, Hh |].
  apply span_quarters_In. split; [apply in_map, Hh |].
  assert (Hobs : In (period_end h) (observed_quarters records (series_id h))).
  { unfold observed_quarters. apply in_map, filter_In.
    split; [exact Hh | apply String.eqb_refl]. }
  destruct (col_bounds _ _ Hobs) as (lo & hi & Hlo & Hhi & Hb).
  exists lo, hi. rewrite <- col_min_is_min, <- col_max_is_max. auto.
Qed.

Lemma record_has_row (records : list Holding) (table : list OutRow) (h : Holding) :
  normalize records = Ok table -> In h records ->
  exists r, In r table /\ row_key r = holding_key h /\ labelled r = true
            /\ exists h0, In h0 records /\ r = to_dict (row_of h0).
Proof.
  intros Hn Hh. destruct (record_in_span records h Hh) as [Hs Hq].
  destruct (table_has_key records table (series_id h) (period_end h) Hn)
    as (r & Hr & Hkey); [apply in_map, Hh | exact Hq |].
  exists r. split; [exact Hr |]. split; [exact Hkey |].
  pose proof Hr as Hr'.
  apply (normalize_In _ _ _ Hn) in Hr'. destruct Hr' as (s & q & _ & _ & Ho).
  rewrite (row_origin_key _ _ _ _ Ho) in Hkey. inversion Hkey; subst s q.
  destruct Ho as [r0 H0 | a f Hno _ _].
  - apply first_at_quarter in H0. destruct H0 as [H0 _].
    apply group_In in H0. destruct H0 as [H0 _].
    apply working_frame_In in H0. destruct H0 as (h0 & Hh0 & ->).
    split; [reflexivity | eauto].
  - exfalso.
    assert (Hin : isin_Z (period_end h)
                    (map quarter_end (group (working_frame records) (series_id h))) = true).
    { apply isin_Z_In, group_quarters. unfold observed_quarters.
      apply in_map, filter_In. split; [exact Hh | apply String.eqb_refl]. }
    congruence.
Qed.

Lemma labelled_row_is_record (records : list Holding) (table : list OutRow)
    (r : OutRow) :
  normalize records = Ok table -> In r table -> labelled r = true ->
  exists h, In h records /\ r = to_dict (row_of h).
Proof.
  intros Hn Hr Hl.
  apply (normalize_In _ _ _ Hn) in Hr. destruct Hr as (s & q & _ & _ & Ho).
  destruct Ho as [r0 H0 | a f _ _ _]; [| discriminate Hl].
  apply first_at_quarter in H0. destruct H0 as [H0 _].
  apply group_In in H0. destruct H0 as [H0 _].
  apply working_frame_In in H0. destruct H0 as (h & Hh & ->). eauto.
Qed.

Lemma zero_row_inside (records : list Holding) (table : list OutRow) (r : OutRow) :
  normalize records = Ok table -> In r table -> out_ticker_adjusted r = None ->
  exists lo hi,
    col_min (observed_quarters records (out_series r)) = Some lo
    /\ col_max (observed_quarters records (out_series r)) = Some hi
    /\ lo < out_quarter_end r < hi.
Proof.
  intros Hn Hr Hz.
  apply (normalize_In _ _ _ Hn) in Hr. destruct Hr as (s & q & _ & Hq & Ho).
  pose proof (row_origin_key _ _ _ _ Ho) as Hkey. inversion Hkey as [[Hs Hq']].
  rewrite Hs.
  destruct Ho as [r0 H0 | a f Hno _ _]; [discriminate Hz |].
  simpl in *. subst.
  apply span_quarters_In in Hq. destruct Hq as [_ (lo & hi & Hlo & Hhi & Hb)].
  exists lo, hi. rewrite col_min_is_min, col_max_is_max.
  split; [exact Hlo |]. split; [exact Hhi |].
  assert (Hout : ~ In q (observed_quarters records s)).
  { intros Hin. apply group_quarters, isin_Z_In in Hin. congruence. }
  destruct Hlo as [Hlo _]. destruct Hhi as [Hhi _].
  assert (lo <> q) by (intros E; subst; contradiction).
  assert (hi <> q) by (intros E; subst; contradiction).
  lia.
Qed.

Lemma zero_row_before_last (records : list Holding) (table : list OutRow)
    (r : OutRow) (last : Z) :
  normalize records = Ok table -> In r table -> out_ticker_adjusted r = None ->
  col_max (map out_quarter_end table) = Some last ->
  out_quarter_end r < last.
Proof.
  intros Hn Hr Hz Hlast.
  destruct (zero_row_inside records table r Hn Hr Hz) as (lo & hi & Hlo & Hhi & Hb).
  apply col_max_is_max in Hhi. destruct Hhi as [Hin _].
  unfold observed_quarters in Hin. apply in_map_iff in Hin.
  destruct Hin as (h & Hq & Hh). apply filter_In in Hh. destruct Hh as [Hh Hs].
  destruct (record_has_row records table h Hn Hh) as (x & Hx & Hkey & _).
  apply col_max_is_max in Hlast. destruct Hlast as [_ Hup].
  assert (out_quarter_end x <= last) by (apply Hup, in_map, Hx).
  unfold row_key, holding_key in Hkey. inversion Hkey. lia.
Qed.

(** X10.  A zero row of the table lies strictly between the first and the
    last quarter at which its series is observed, and so strictly before
    the last quarter of the table. *)
Theorem zero_rows_lie_strictly_inside (records : list Holding)
    (table : list OutRow) (r : OutRow) :
  normalize records = Ok table ->
  In r table ->
  out_ticker_adjusted r = None ->
  exists lo hi last,
    col_min (observed_quarters records (out_series r)) = Some lo
    /\ col_max (observed_quarters records (out_series r)) = Some hi
    /\ col_max (map out_quarter_end table) = Some last
    /\ lo < out_quarter_end r < hi
    /\ out_quarter_end r < last.
Proof.
  intros Hn Hr Hz.
  destruct (zero_row_inside records table r Hn Hr Hz) as (lo & hi & Hlo & Hhi & Hb).
  destruct (col_bounds _ _ (in_map out_quarter_end _ _ Hr)) as (l0 & last & _ & Hlast & _).
  exists lo, hi, last. repeat split; try assumption; try lia.
  exact (zero_row_before_last records table r last Hn Hr Hz Hlast).
Qed.

Section SortedFrames.
Context {A B : Type} (R : B -> B -> Prop) (f : A -> B).

Lemma StronglySorted_map (l : list A) :
  StronglySorted (fun a b => R (f a) (f b)) l -> StronglySorted R (map f l).
Proof.
  induction 1 as [|a l _ IH Ha]; simpl; constructor; [exact IH |].
  rewrite Forall_forall in *. intros y Hy. apply in_map_iff in Hy.
  destruct Hy as (x & <- & Hx). apply Ha, Hx.
Qed.
End SortedFrames.

Lemma StronglySorted_filter {A : Type} (R : A -> A -> Prop) (f : A -> bool)
    (l : list A) :
  StronglySorted R l -> StronglySorted R (filter f l).
Proof.
  induction 1 as [|a l _ IH Ha]; simpl; [constructor |].
  destruct (f a); [| exact IH]. constructor; [exact IH |].
  rewrite Forall_forall in *. intros y Hy. apply filter_In in Hy. apply Ha, Hy.
Qed.

Lemma StronglySorted_weaken {A : Type} (R R' : A -> A -> Prop) (l : list A) :
  (forall a b, R a b -> R' a b) -> StronglySorted R l -> StronglySorted R' l.
Proof.
  intros H. induction 1 as [|a l _ IH Ha]; constructor; [exact IH |].
  eapply Forall_impl; [| exact Ha]. intros b. apply H.
Qed.

Lemma working_frame_sorted (records : list Holding) :
  StronglySorted (fun a b => quarter_end a <= quarter_end b) (working_frame records).
Proof.
  unfold working_frame.
  apply (StronglySorted_map (fun a b => quarter_end a <= quarter_end b)
           add_ticker_adjusted).
  apply (StronglySorted_weaken (fun a b => (snd a <=? snd b) = true)).
  - intros a b H. apply Z.leb_le in H. exact H.
  - apply sort_values_sorted.
    + intros a b. destruct (Z.leb_spec (snd a) (snd b)); [auto |].
      right. apply Z.leb_le. lia.
    + intros a b c H1 H2. apply Z.leb_le in H1, H2. apply Z.leb_le. lia.
Qed.

(** The first row of a ticker in the working frame is at its first quarter. *)
Lemma group_first_is_earliest (records : list Holding) (s : string) (first : Row) :
  hd_error (group (working_frame records) s) = Some first ->
  exists h, In h records /\ first = row_of h /\ series_id h = s
            /\ col_min (observed_quarters records s) = Some (period_end h).
Proof.
  intros Hf.
  pose proof (StronglySorted_filter _
                (fun r => String.eqb (ticker_adjusted r) s) _
                (working_frame_sorted records)) as Hs.
  fold (group (working_frame records) s) in Hs.
  destruct (group (working_frame records) s) as [|x l] eqn:Eg; [discriminate |].
  inversion Hf; subst x.
  assert (Hin : In first (group (working_frame records) s))
    by (rewrite Eg; left; reflexivity).
  apply group_In in Hin. destruct Hin as [Hin Ht].
  apply working_frame_In in Hin. destruct Hin as (h & Hh & ->).
  exists h. split; [exact Hh |]. split; [reflexivity |]. split; [exact Ht |].
  apply col_min_is_min.
  apply (is_min_same_elements
           (map quarter_end (group (working_frame records) s))).
  - intros q. apply group_quarters.
  - rewrite Eg. split; [left; reflexivity |].
    apply StronglySorted_inv in Hs. destruct Hs as [_ Hall].
    rewrite Forall_forall in Hall.
    intros q [<- | Hq]; [simpl; lia |].
    apply in_map_iff in Hq. destruct Hq as (y & <- & Hy). apply Hall, Hy.
Qed.

(** X11.  A zero row has the company name, class, CUSIP, principal and
    option type of a record of its series at the first quarter of that
    series, and the quarter label and filing date of a record of its own
    quarter. *)
Theorem zero_row_copies_first_record (records : list Holding)
    (table : list OutRow) (r : OutRow) :
  normalize records = Ok table ->
  In r table ->
  out_ticker_adjusted r = None ->
  exists first at_quarter,
    In first records /\ In at_quarter records
    /\ series_id first = out_series r
    /\ col_min (observed_quarters records (out_series r)) = Some (period_end first)
    /\ period_end at_quarter = out_quarter_end r
    /\ Company_Name (record r) = Company_Name first
    /\ Class_ (record r) = Class_ first
    /\ CUSIP (record r) = CUSIP first
    /\ Principal (record r) = Principal first
    /\ Option_Type (record r) = Option_Type first
    /\ Quarter (record r) = Quarter at_quarter
    /\ Date_Filed (record r) = Date_Filed at_quarter.
Proof.
  intros Hn Hr Hz.
  apply (normalize_In _ _ _ Hn) in Hr. destruct Hr as (s & q & _ & _ & Ho).
  destruct Ho as [r0 H0 | a f _ Ha Hf]; [discriminate Hz |].
  destruct (group_first_is_earliest records s f Hf) as (h & Hh & -> & Hs & Hmin).
  apply first_at_quarter in Ha. destruct Ha as [Ha Hq].
  apply working_frame_In in Ha. destruct Ha as (ha & Hha & ->).
  exists h, ha. unfold out_series; simpl.
  repeat split; try assumption; try reflexivity.
Qed.







(** ** The rows of the top holdings *)

Lemma filter_split_perm {A : Type} (f : A -> bool) (l : list A) :
  Permutation (filter f l ++ filter (fun x => negb (f x)) l) l.
Proof.
  induction l as [|x l IH]; simpl; [constructor |].
  destruct (f x); simpl.
  - apply perm_skip, IH.
  - apply Permutation_sym, Permutation_cons_app, Permutation_sym, IH.
Qed.

Lemma by_quarter_sorted (df : list OutRow) :
  StronglySorted (fun a b => out_quarter_end a <= out_quarter_end b)
                 (sort_values by_quarter df).
Proof.
  apply (StronglySorted_weaken (fun a b => by_quarter a b = true)).
  - intros a b H. apply Z.leb_le in H. exact H.
  - apply sort_values_sorted; unfold by_quarter.
    + intros a b. destruct (Z.leb_spec (out_quarter_end a) (out_quarter_end b)); [auto |].
      right. apply Z.leb_le. lia.
    + intros a b c H1 H2. apply Z.leb_le in H1, H2. apply Z.leb_le. lia.
Qed.

(** X7.  The rows that [filter_top_k_holdings] returns are in chronological
    order, and with the rows it leaves out they make up the frame: no row
    is returned more often than the frame has it. *)
Theorem top_k_result_is_chronological (k : Z) (df : list OutRow) :
  exists res dropped,
    outcome (filter_top_k_holdings k) df = Ok res
    /\ StronglySorted (fun a b => out_quarter_end a <= out_quarter_end b) res
    /\ Permutation (res ++ dropped) df.
Proof.
  rewrite top_k_outcome. eexists. eexists. split; [reflexivity |]. split.
  - apply StronglySorted_filter, by_quarter_sorted.
  - eapply perm_trans; [apply filter_split_perm | apply sort_values_perm].
Qed.

Lemma top_holdings_at_end (df : list OutRow) (k : Z) (t : string) :
  In t (top_holdings_of (sort_values by_quarter df) k) ->
  exists x, In x (rows_at_max_date df) /\ symbol x = t.
Proof.
  rewrite top_holdings_ranked, (unique_In _ String.eqb_eq).
  intros H. apply head_In, in_map_iff in H. destruct H as (x & E & Hx).
  exists x. split; [apply (Permutation_in _ (ranked_rows_perm df)), Hx | exact E].
Qed.

Lemma head_all {A : Type} (k : Z) (l : list A) :
  Z.of_nat (List.length l) <= k -> head k l = l.
Proof.
  intros H. unfold head. destruct (Z.leb_spec 0 k); [| lia].
  apply firstn_all2. lia.
Qed.

(** X8.  Whatever [k] is, a row that [filter_top_k_holdings] returns is a
    row of the frame whose symbol is held at the last quarter of the frame.
    When [k] is at least the number of rows of the last quarter, every such
    row is returned. *)
Theorem top_k_keeps_only_symbols_held_at_end (k : Z) (df : list OutRow) :
  exists res,
    outcome (filter_top_k_holdings k) df = Ok res
    /\ (forall r, In r res ->
                  In r df /\ exists x, In x (rows_at_max_date df) /\ symbol x = symbol r)
    /\ (Z.of_nat (List.length (rows_at_max_date df)) <= k ->
        forall r, In r df ->
                  (exists x, In x (rows_at_max_date df) /\ symbol x = symbol r) ->
                  In r res).
Proof.
  rewrite top_k_outcome. eexists. split; [reflexivity |]. split.
  - intros r Hr. apply top_k_rows in Hr. destruct Hr as [Hr Ht].
    split; [exact Hr | apply (top_holdings_at_end df k), Ht].
  - intros Hk r Hr (x & Hx & Hs). apply top_k_rows. split; [exact Hr |].
    rewrite top_holdings_ranked, (unique_In _ String.eqb_eq), head_all.
    + rewrite <- Hs. apply in_map.
      apply (Permutation_in _ (Permutation_sym (ranked_rows_perm df))), Hx.
    + rewrite length_map, (Permutation_length (ranked_rows_perm df)). exact Hk.
Qed.








(** X15.  A zero row whose 'Ticker' is the symbol of no record, as is that
    of an option series, is never among the rows [filter_top_k_holdings]
    returns for the table, whatever [k] is: the symbols are ranked at the
    last quarter, where no row is a zero row. *)
Theorem top_k_drops_zero_rows_with_foreign_symbol (records : list Holding)
    (table : list OutRow) (zero : OutRow) (k : Z) :
  normalize records = Ok table ->
  In zero table ->
  out_ticker_adjusted zero = None ->
  (forall h, In h records -> Ticker h <> symbol zero) ->
  exists res,
    outcome (filter_top_k_holdings k) table = Ok res /\ ~ In zero res.
Proof.
  intros Hn Hz Hnone Hforeign.
  rewrite top_k_outcome. eexists. split; [reflexivity |].
  intros Hin. apply top_k_rows in Hin. destruct Hin as [_ Ht].
  apply top_holdings_at_end in Ht. destruct Ht as (x & Hx & Hs).
  unfold rows_at_max_date in Hx. apply filter_In in Hx. destruct Hx as [Hx Hat].
  destruct (col_max (map out_quarter_end table)) as [last|] eqn:Hlast; [| discriminate].
  simpl in Hat. apply Z.eqb_eq in Hat.
  destruct (labelled x) eqn:Hl.
  - destruct (labelled_row_is_record _ _ _ Hn Hx Hl) as (h & Hh & ->).
    apply (Hforeign h Hh). exact Hs.
  - assert (Hxz : out_ticker_adjusted x = None)
      by (unfold labelled in Hl; destruct (out_ticker_adjusted x); [discriminate | reflexivity]).
    pose proof (zero_row_before_last _ _ _ _ Hn Hx Hxz Hlast). lia.
Qed.

(** ** make_graph *)

Lemma label_of_relabel (r : OutRow) : label_of (relabel r) = graph_label r.
Proof. reflexivity. Qed.

Lemma filter_map {A B : Type} (f : B -> bool) (g : A -> B) (l : list A) :
  filter f (map g l) = map g (filter (fun x => f (g x)) l).
Proof.
  induction l as [|x l IH]; simpl; [reflexivity |].
  destruct (f (g x)); simpl; rewrite IH; reflexivity.
Qed.

Lemma make_graph_outcome (y_axis : string) (y : Holding -> Z) (df : list OutRow) :
  y_axis_mapping y_axis = Ok y ->
  exists fig,
    outcome (make_graph y_axis) df = Ok fig
    /\ fig_traces fig
       = map (fun name =>
                {| trace_name := name;
                   trace_points :=
                     map (point_of y)
                         (filter (fun r => String.eqb (graph_label r) name) df);
                   trace_dashed := contains "(put)" name || contains "(call)" name |})
             (unique String.eqb (map graph_label df))
    /\ fig_title fig
       = (if existsb (contains "call") (map graph_label df)
             || existsb (contains "put") (map graph_label df)
          then y_axis ++ options_note
          else y_axis ++ " over time")%string.
Proof.
  intros Hy. unfold outcome, make_graph. cbn [snd]. rewrite Hy. cbn [bind].
  eexists. split; [reflexivity |]. cbn [fig_traces fig_title].
  rewrite !map_map.
  assert (E : map (fun x => label_of (relabel x)) df = map graph_label df)
    by (apply map_ext; intros r; apply label_of_relabel).
  rewrite E. split; [| reflexivity].
  apply map_ext. intros name. f_equal.
  rewrite filter_map, map_map. reflexivity.
Qed.

Section Partition.
Context {A : Type} (key : A -> string).

Lemma flat_map_filter_skip (x : A) (l : list A) (ks : list string) :
  ~ In (key x) ks ->
  flat_map (fun k => filter (fun a => String.eqb (key a) k) (x :: l)) ks
  = flat_map (fun k => filter (fun a => String.eqb (key a) k) l) ks.
Proof.
  induction ks as [|k ks IH]; intros H; [reflexivity |].
  cbn [flat_map]. rewrite IH by (intros Hin; apply H; right; exact Hin).
  cbn [filter].
  destruct (String.eqb_spec (key x) k) as [E | E]; [| reflexivity].
  contradiction H. left. symmetry. exact E.
Qed.

Lemma flat_map_filter_cons (x : A) (l : list A) (ks : list string) :
  NoDup ks -> In (key x) ks ->
  Permutation
    (flat_map (fun k => filter (fun a => String.eqb (key a) k) (x :: l)) ks)
    (x :: flat_map (fun k => filter (fun a => String.eqb (key a) k) l) ks).
Proof.
  induction ks as [|k ks IH]; intros Hnd Hin; [contradiction |].
  inversion Hnd as [|? ? Hk Hnd']; subst.
  cbn [flat_map].
  destruct (String.eqb_spec (key x) k) as [E | E].
  - rewrite flat_map_filter_skip by (rewrite E; exact Hk).
    cbn [filter]. rewrite E, String.eqb_refl. reflexivity.
  - destruct Hin as [Hin | Hin]; [contradiction E; symmetry; exact Hin |].
    eapply perm_trans; [apply Permutation_app_head, IH; assumption |].
    cbn [filter]. apply String.eqb_neq in E. rewrite E.
    apply Permutation_sym, Permutation_middle.
Qed.

Lemma split_by_key (l : list A) (ks : list string) :
  NoDup ks -> (forall x, In x l -> In (key x) ks) ->
  Permutation (flat_map (fun k => filter (fun a => String.eqb (key a) k) l) ks) l.
Proof.
  intros Hnd. induction l as [|x l IH]; intros Hks.
  - induction ks as [|k ks IHk]; simpl; [constructor |].
    inversion Hnd; subst. apply IHk; [assumption | intros x []].
  - eapply perm_trans.
    + apply flat_map_filter_cons; [exact Hnd | apply Hks; left; reflexivity].
    + apply perm_skip, IH. intros y Hy. apply Hks. right. exact Hy.
Qed.
End Partition.

Lemma flat_map_map {A B C : Type} (f : A -> B) (g : B -> list C) (l : list A) :
  flat_map g (map f l) = flat_map (fun x => g (f x)) l.
Proof.
  induction l as [|x l IH]; simpl; [reflexivity |]. rewrite IH. reflexivity.
Qed.

Lemma flat_map_of_map {A B C : Type} (f : B -> C) (g : A -> list B) (l : list A) :
  flat_map (fun x => map f (g x)) l = map f (flat_map g l).
Proof.
  induction l as [|x l IH]; simpl; [reflexivity |].
  rewrite IH, map_app. reflexivity.
Qed.

(** X16.  For a y-axis of the mapping, the traces of the chart split the
    rows of the frame by the label written in lines 205-207: the traces
    have distinct names, none is empty, the points of a trace are those of
    the rows with its name as label, in the order of the frame, every row
    has a trace, and all the points together are the points of the rows. *)
Theorem traces_split_rows_by_label (y_axis : string) (y : Holding -> Z)
    (df : list OutRow) :
  y_axis_mapping y_axis = Ok y ->
  exists fig,
    outcome (make_graph y_axis) df = Ok fig
    /\ NoDup (map trace_name (fig_traces fig))
    /\ (forall t, In t (fig_traces fig) ->
          trace_points t <> []
          /\ trace_points t
             = map (point_of y)
                   (filter (fun r => String.eqb (graph_label r) (trace_name t)) df))
    /\ (forall r, In r df ->
          exists t, In t (fig_traces fig) /\ trace_name t = graph_label r)
    /\ Permutation (flat_map trace_points (fig_traces fig)) (map (point_of y) df).
Proof.
  intros Hy. destruct (make_graph_outcome y_axis y df Hy) as (fig & Hfig & Ht & _).
  exists fig. split; [exact Hfig |]. rewrite Ht.
  split; [| split; [| split]].
  - rewrite map_map. cbn [trace_name]. rewrite map_id.
    apply unique_NoDup, String.eqb_eq.
  - intros t Hin. apply in_map_iff in Hin. destruct Hin as (name & <- & Hname).
    cbn [trace_points trace_name]. split; [| reflexivity].
    apply (unique_In _ String.eqb_eq), in_map_iff in Hname.
    destruct Hname as (r & E & Hr).
    assert (Hin : In (point_of y r)
                     (map (point_of y)
                        (filter (fun r => String.eqb (graph_label r) name) df))).
    { apply in_map, filter_In. split; [exact Hr | apply String.eqb_eq, E]. }
    intros Hnil. rewrite Hnil in Hin. exact Hin.
  - intros r Hr. eexists. split.
    + apply in_map_iff. exists (graph_label r). split; [reflexivity |].
      apply (unique_In _ String.eqb_eq), in_map, Hr.
    + reflexivity.
  - rewrite flat_map_map. cbn [trace_points].
    rewrite (flat_map_of_map (point_of y)
               (fun name => filter (fun r => String.eqb (graph_label r) name) df)).
    apply Permutation_map, split_by_key.
    + apply unique_NoDup, String.eqb_eq.
    + intros r Hr. apply (unique_In _ String.eqb_eq), in_map, Hr.
Qed.

(** Substrings. *)
Lemma prefix_app (sub t s : string) :
  String.prefix (sub ++ t) s = true -> String.prefix sub s = true.
Proof.
  revert s. induction sub as [|a sub IH]; intros s H.
  - destruct s; reflexivity.
  - destruct s as [|b s]; [discriminate H |].
    simpl in *. destruct (ascii_dec a b); [apply IH, H | discriminate H].
Qed.

Lemma contains_app_l (sub t s : string) :
  contains (sub ++ t) s = true -> contains sub s = true.
Proof.
  induction s as [|b s IH]; cbn [contains]; intros H.
  - apply orb_true_iff in H. destruct H as [H | H]; [| discriminate H].
    rewrite (prefix_app _ _ _ H). reflexivity.
  - apply orb_true_iff in H. apply orb_true_iff.
    destruct H as [H | H]; [left; apply (prefix_app _ _ _ H) | right; apply IH, H].
Qed.

Lemma contains_tail (c : ascii) (sub s : string) :
  contains (String c sub) s = true -> contains sub s = true.
Proof.
  induction s as [|b s IH]; cbn [contains]; intros H.
  - apply orb_true_iff in H. destruct H as [H | H]; discriminate H.
  - apply orb_true_iff in H. apply orb_true_iff. right.
    destruct H as [H | H]; [| apply IH, H].
    simpl in H. destruct (ascii_dec c b); [| discriminate H].
    destruct s; cbn [contains]; rewrite H; reflexivity.
Qed.

Lemma contains_app_r (sub a b : string) :
  contains sub b = true -> contains sub (a ++ b) = true.
Proof.
  intros H. induction a as [|c a IH]; [exact H |].
  cbn [append contains]. rewrite IH. apply orb_true_r.
Qed.

Lemma dashed_name_has_keyword (name : string) :
  contains "(put)" name || contains "(call)" name = true ->
  contains "call" name || contains "put" name = true.
Proof.
  intros H. apply orb_true_iff in H. apply orb_true_iff.
  destruct H as [H | H].
  - right. apply contains_tail in H. apply (contains_app_l "put" ")"), H.
  - left. apply contains_tail in H. apply (contains_app_l "call" ")"), H.
Qed.

Lemma option_label_dashed (r : OutRow) :
  Option_Type (record r) <> NoOption ->
  contains "(put)" (graph_label r) || contains "(call)" (graph_label r) = true.
Proof.
  intros H. unfold graph_label, adjust_ticker.
  destruct (Option_Type (record r)); [contradiction H; reflexivity | |];
    cbn [option_suffix]; apply orb_true_iff; [left | right];
    apply contains_app_r; reflexivity.
Qed.

Lemma plain_label (r : OutRow) :
  Option_Type (record r) = NoOption -> graph_label r = symbol r.
Proof.
  intros H. unfold graph_label, adjust_ticker, symbol. rewrite H. apply append_empty.
Qed.

Lemma existsb_false {A : Type} (f : A -> bool) (l : list A) :
  (forall x, In x l -> f x = false) -> existsb f l = false.
Proof.
  induction l as [|x l IH]; simpl; intros H; [reflexivity |].
  rewrite (H x (or_introl eq_refl)), IH; [reflexivity |].
  intros y Hy. apply H. right. exact Hy.
Qed.

(** X17.  The trace of every option position is dashed.  When some trace is
    dashed, the title says that options are dashed.  When no position is
    an option and no symbol contains 'put' or 'call', the title is plain
    and no trace is dashed. *)
Theorem options_are_dashed (y_axis : string) (y : Holding -> Z)
    (df : list OutRow) :
  y_axis_mapping y_axis = Ok y ->
  exists fig,
    outcome (make_graph y_axis) df = Ok fig
    /\ (forall r, In r df -> Option_Type (record r) <> NoOption ->
          exists t, In t (fig_traces fig)
                    /\ trace_name t = graph_label r /\ trace_dashed t = true)
    /\ ((exists t, In t (fig_traces fig) /\ trace_dashed t = true) ->
        fig_title fig = (y_axis ++ options_note)%string)
    /\ ((forall r, In r df ->
           Option_Type (record r) = NoOption
           /\ contains "put" (symbol r) = false
           /\ contains "call" (symbol r) = false) ->
        fig_title fig = (y_axis ++ " over time")%string
        /\ forall t, In t (fig_traces fig) -> trace_dashed t = false).
Proof.
  intros Hy. destruct (make_graph_outcome y_axis y df Hy) as (fig & Hfig & Ht & Htitle).
  exists fig. split; [exact Hfig |]. rewrite Ht, Htitle.
  split; [| split].
  - intros r Hr Hopt. eexists. split.
    + apply in_map_iff. exists (graph_label r). split; [reflexivity |].
      apply (unique_In _ String.eqb_eq), in_map, Hr.
    + cbn [trace_name trace_dashed]. split; [reflexivity |].
      apply option_label_dashed, Hopt.
  - intros (t & Hin & Hd). apply in_map_iff in Hin.
    destruct Hin as (name & <- & Hname). cbn [trace_dashed] in Hd.
    rewrite (unique_In _ String.eqb_eq) in Hname.
    apply dashed_name_has_keyword in Hd.
    assert (E : existsb (contains "call") (map graph_label df)
                || existsb (contains "put") (map graph_label df) = true).
    { apply orb_true_iff in Hd. apply orb_true_iff.
      destruct Hd as [Hd | Hd]; [left | right]; apply existsb_exists;
        exists name; (split; [exact Hname | exact Hd]). }
    rewrite E. reflexivity.
  - intros Hplain.
    assert (Hlab : forall name, In name (map graph_label df) ->
                     contains "put" name = false /\ contains "call" name = false).
    { intros name Hin. apply in_map_iff in Hin. destruct Hin as (r & <- & Hr).
      destruct (Hplain r Hr) as (Ho & Hp & Hc). rewrite (plain_label r Ho). auto. }
    split.
    + rewrite (existsb_false (contains "call")), (existsb_false (contains "put"));
        [reflexivity | |]; intros name Hin; apply Hlab, Hin.
    + intros t Hin. apply in_map_iff in Hin. destruct Hin as (name & <- & Hname).
      cbn [trace_dashed]. rewrite (unique_In _ String.eqb_eq) in Hname.
      destruct (Hlab name Hname) as [Hp Hc].
      destruct (contains "(put)" name || contains "(call)" name) eqn:Hd; [| reflexivity].
      apply dashed_name_has_keyword in Hd. rewrite Hp, Hc in Hd. discriminate Hd.
Qed.

Lemma append_nonempty_neq (s t : string) : t <> ""%string -> (s ++ t)%string <> s.
Proof.
  intros Ht E. apply Ht. apply (append_self_inv s t). exact E.
Qed.

Lemma trace_of_row (y_axis : string) (y : Holding -> Z) (df : list OutRow)
    (fig : Figure) (r : OutRow) :
  y_axis_mapping y_axis = Ok y ->
  outcome (make_graph y_axis) df = Ok fig ->
  In r df ->
  exists t, In t (fig_traces fig)
            /\ trace_name t = graph_label r
            /\ In (point_of y r) (trace_points t)
            /\ trace_dashed t
               = contains "(put)" (graph_label r) || contains "(call)" (graph_label r).
Proof.
  intros Hy Hfig Hr.
  destruct (make_graph_outcome y_axis y df Hy) as (fig' & Hfig' & Ht & _).
  rewrite Hfig in Hfig'. injection Hfig' as <-.
  rewrite Ht. eexists. split.
  - apply in_map_iff. exists (graph_label r). split; [reflexivity |].
    apply (unique_In _ String.eqb_eq), in_map, Hr.
  - cbn [trace_name trace_points trace_dashed]. repeat split.
    apply in_map, filter_In. split; [exact Hr | apply String.eqb_refl].
Qed.

Lemma option_suffix_nonempty (o : OptionType) :
  o <> NoOption -> option_suffix o <> ""%string.
Proof. destruct o; [contradiction | discriminate | discriminate]. Qed.

(** X18.  The chart of a normalized table.  A kept row, and a zero row of a
    series that is not an option, is drawn in the trace named after its
    series.  A zero row of an option series is not: its label is the series
    followed by the option suffix once more, so it is drawn in a dashed
    trace of its own, apart from the trace of its series, which the chart
    has as well. *)
Theorem gap_of_option_series_is_drawn_apart (records : list Holding)
    (table : list OutRow) (y_axis : string) (y : Holding -> Z) :
  normalize records = Ok table ->
  y_axis_mapping y_axis = Ok y ->
  exists fig,
    outcome (make_graph y_axis) table = Ok fig
    /\ (forall r, In r table ->
          out_ticker_adjusted r <> None \/ Option_Type (record r) = NoOption ->
          exists t, In t (fig_traces fig)
                    /\ trace_name t = out_series r
                    /\ In (point_of y r) (trace_points t))
    /\ (forall r, In r table ->
          out_ticker_adjusted r = None -> Option_Type (record r) <> NoOption ->
          exists t own,
            In t (fig_traces fig)
            /\ trace_name t
               = (out_series r ++ option_suffix (Option_Type (record r)))%string
            /\ In (point_of y r) (trace_points t)
            /\ trace_dashed t = true
            /\ In own (fig_traces fig)
            /\ trace_name own = out_series r
            /\ trace_name own <> trace_name t).
Proof.
  intros Hn Hy.
  destruct (make_graph_outcome y_axis y table Hy) as (fig & Hfig & _).
  exists fig. split; [exact Hfig |].
  assert (Hkept : forall r, In r table ->
            out_ticker_adjusted r <> None \/ Option_Type (record r) = NoOption ->
            exists t, In t (fig_traces fig)
                      /\ trace_name t = out_series r
                      /\ In (point_of y r) (trace_points t)).
  { intros r Hr Hc.
    destruct (trace_of_row _ _ _ _ _ Hy Hfig Hr) as (t & Hin & Hname & Hp & _).
    exists t. split; [exact Hin |]. split; [| exact Hp].
    rewrite Hname. apply (series_id_of_row _ _ _ Hn Hr Hc). }
  split; [exact Hkept |].
  intros r Hr Hnone Hopt.
  destruct (trace_of_row _ _ _ _ _ Hy Hfig Hr) as (t & Hin & Hname & Hp & Hd).
  assert (El : graph_label r
               = (out_series r ++ option_suffix (Option_Type (record r)))%string).
  { unfold graph_label, adjust_ticker, out_series. rewrite Hnone. reflexivity. }
  destruct (table_series_observed _ _ _ Hn Hr) as (lo & hi & Hlo & _ & _).
  assert (Hobs : exists h, In h records /\ series_id h = out_series r).
  { unfold observed_quarters in Hlo.
    destruct (filter (fun h => String.eqb (series_id h) (out_series r)) records)
      as [|h l] eqn:Ef; [discriminate Hlo |].
    assert (Hh : In h (filter (fun h => String.eqb (series_id h) (out_series r)) records))
      by (rewrite Ef; left; reflexivity).
    apply filter_In in Hh. destruct Hh as [Hh E]. apply String.eqb_eq in E.
    exists h. auto. }
  destruct Hobs as (h & Hh & Es).
  destruct (record_has_row _ _ _ Hn Hh) as (r' & Hr' & Hkey & Hl & _).
  assert (Es' : out_series r' = out_series r).
  { unfold row_key, holding_key in Hkey. injection Hkey as E _. rewrite E. exact Es. }
  destruct (Hkept r' Hr') as (own & Hown & Hon & _).
  { left. unfold labelled in Hl. destruct (out_ticker_adjusted r'); [discriminate | discriminate Hl]. }
  exists t, own. split; [exact Hin |]. split; [rewrite Hname; exact El |].
  split; [exact Hp |]. split; [rewrite Hd; apply option_label_dashed, Hopt |].
  split; [exact Hown |]. split; [rewrite Hon; exact Es' |].
  rewrite Hon, Es', Hname, El. intros E. symmetry in E.
  apply append_nonempty_neq in E; [exact E | apply option_suffix_nonempty, Hopt].
Qed.




(** ** The dashboard script *)

Lemma window_outcome (date_input : string -> option Z -> Z) (date_range : string)
    (df : list OutRow) :
  exists res,
    outcome (filter_date_range date_input date_range) df = Ok res
    /\ incl res df.
Proof.
  unfold outcome, filter_date_range. cbn [snd]. eexists. split; [reflexivity |].
  intros r Hr. apply filter_In in Hr. apply Hr.
Qed.

Lemma top_k_incl (k : Z) (df : list OutRow) :
  exists res, outcome (filter_top_k_holdings k) df = Ok res /\ incl res df.
Proof.
  rewrite top_k_outcome. eexists. split; [reflexivity |].
  intros r Hr. apply top_k_rows in Hr. apply Hr.
Qed.

Lemma select_holdings_outcome
    (multiselect : string -> list (option string) -> list (option string))
    (holdings_filter_option : string) (df : list OutRow) :
  exists res,
    select_holdings multiselect holdings_filter_option df = Ok res
    /\ incl res df.
Proof.
  unfold select_holdings.
  destruct (String.eqb holdings_filter_option "Top 5 holdings"); [apply top_k_incl |].
  destruct (String.eqb holdings_filter_option "Top 10 holdings"); [apply top_k_incl |].
  destruct (String.eqb holdings_filter_option "All holdings"
            && (MAX_HOLDINGS <? Z.of_nat (List.length
                  (unique label_eqb (map out_ticker_adjusted df))))).
  - destruct (top_k_incl MAX_HOLDINGS df) as (top & -> & Htop). cbn [bind].
    eexists. split; [reflexivity |].
    intros r Hr. apply in_app_or in Hr. destruct Hr as [Hr | Hr].
    + apply Htop, Hr.
    + apply filter_In in Hr. apply Hr.
  - exists df. split; [reflexivity | apply incl_refl].
Qed.


Lemma dashboard_stages (date_input : string -> option Z -> Z)
    (multiselect : string -> list (option string) -> list (option string))
    (date_range y_axis holdings_filter_option : string) (df : list RawRow)
    (table : list OutRow) :
  outcome preprocess_filings_df df = Ok table ->
  exists chosen,
    incl chosen table
    /\ dashboard date_input multiselect date_range y_axis holdings_filter_option df
       = outcome (make_graph y_axis) chosen.
Proof.
  intros Ht. unfold dashboard. rewrite Ht. cbn [bind].
  destruct (window_outcome date_input date_range table) as (w & -> & Hw). cbn [bind].
  destruct (select_holdings_outcome multiselect holdings_filter_option w)
    as (chosen & -> & Hc). cbn [bind].
  exists chosen. split; [| reflexivity].
  intros r Hr. apply Hw, Hc, Hr.
Qed.


(** X22.  In every chart the dashboard draws, the text of a tick is the
    label of the quarter that ends at the value of the tick, zero rows
    included, and every point of a trace lies on a tick. *)
Theorem tick_labels_name_their_quarter
    (date_input : string -> option Z -> Z)
    (multiselect : string -> list (option string) -> list (option string))
    (date_range y_axis holdings_filter_option : string) (df : list RawRow)
    (fig : Figure) :
  dashboard date_input multiselect date_range y_axis holdings_filter_option df
  = Ok fig ->
  Forall2 (fun tick text => get_quarter_end text = tick)
          (fig_tickvals fig) (fig_ticktext fig)
  /\ forall t x v, In t (fig_traces fig) -> In (x, v) (trace_points t) ->
                   In x (fig_tickvals fig).
Proof.
  intros Hd.
  destruct (outcome preprocess_filings_df df) as [table | e] eqn:Ht.
  2:{ unfold dashboard in Hd. rewrite Ht in Hd. discriminate Hd. }
  destruct (dashboard_stages date_input multiselect date_range y_axis
              holdings_filter_option df table Ht) as (chosen & Hc & E).
  rewrite E in Hd. rewrite preprocess_outcome in Ht.
  unfold outcome, make_graph in Hd. cbn [snd] in Hd.
  destruct (y_axis_mapping y_axis) as [y | e]; [| discriminate Hd].
  cbn [bind] in Hd. injection Hd as <-. cbn [fig_tickvals fig_ticktext fig_traces].
  split.
  - rewrite !map_map. cbn [relabel record out_quarter_end].
    clear E. induction chosen as [|r l IH]; simpl; constructor.
    + apply (table_row_record _ _ _ Ht). apply Hc. left. reflexivity.
    + apply IH. intros x Hx. apply Hc. right. exact Hx.
  - intros t x v Hin Hp. apply in_map_iff in Hin. destruct Hin as (name & <- & _).
    cbn [trace_points] in Hp. apply in_map_iff in Hp.
    destruct Hp as (r & Er & Hr). apply filter_In in Hr. destruct Hr as [Hr _].
    injection Er as <- _. apply in_map, Hr.
Qed.

Lemma label_eqb_eq (a b : option string) : label_eqb a b = true <-> a = b.
Proof.
  destruct a as [x|], b as [y|]; simpl; split; intros H;
    try discriminate; try reflexivity.
  - apply String.eqb_eq in H. rewrite H. reflexivity.
  - injection H as ->. apply String.eqb_refl.
Qed.

(** X21.  With 'All holdings' and more than [MAX_HOLDINGS] distinct labels,
    the frame that is drawn is the selection of the top [MAX_HOLDINGS]
    followed by the rows whose label the user picked in addition.  So a row
    of the selection whose label is picked is there twice, and when nothing
    is picked the frame is the selection. *)
Theorem additional_selection_repeats_top_rows
    (multiselect : string -> list (option string) -> list (option string))
    (df_filtered : list OutRow) :
  MAX_HOLDINGS
  < Z.of_nat (List.length (unique label_eqb (map out_ticker_adjusted df_filtered))) ->
  exists top prompt,
    outcome (filter_top_k_holdings MAX_HOLDINGS) df_filtered = Ok top
    /\ let selected :=
         multiselect prompt (unique label_eqb (map out_ticker_adjusted df_filtered)) in
       let additional :=
         filter (fun r => existsb (label_eqb (out_ticker_adjusted r)) selected)
                df_filtered in
       select_holdings multiselect "All holdings" df_filtered = Ok (top ++ additional)
       /\ (forall r, In r additional <->
                     In r df_filtered /\ In (out_ticker_adjusted r) selected)
       /\ (forall r, In r top -> In (out_ticker_adjusted r) selected ->
                     exists a b c, top ++ additional = a ++ r :: b ++ r :: c)
       /\ (selected = [] ->
           select_holdings multiselect "All holdings" df_filtered = Ok top).
Proof.
  intros Hmany.
  destruct (top_k_incl MAX_HOLDINGS df_filtered) as (top & Htop & Hincl).
  exists top. eexists. split; [exact Htop |].
  cbv zeta.
  assert (Hadd : forall sel r,
            In r (filter (fun r => existsb (label_eqb (out_ticker_adjusted r)) sel)
                         df_filtered)
            <-> In r df_filtered /\ In (out_ticker_adjusted r) sel).
  { intros sel r. rewrite filter_In, existsb_exists. split.
    - intros [Hr (x & Hx & E)]. apply label_eqb_eq in E. subst x. auto.
    - intros [Hr Hs]. split; [exact Hr |]. exists (out_ticker_adjusted r).
      split; [exact Hs | apply label_eqb_eq; reflexivity]. }
  assert (Hsel : select_holdings multiselect "All holdings" df_filtered
                 = Ok (top ++ filter (fun r => existsb (label_eqb (out_ticker_adjusted r))
                         (multiselect
                            ("Select additional tickers (optional, only displaying the top "
                               ++ str_of_nat (Z.to_nat MAX_HOLDINGS) ++ " out of "
                               ++ str_of_nat (List.length
                                    (unique label_eqb (map out_ticker_adjusted df_filtered)))
                               ++ " total holdings)")%string
                            (unique label_eqb (map out_ticker_adjusted df_filtered))))
                       df_filtered)).
  { unfold select_holdings.
    change (String.eqb "All holdings" "Top 5 holdings") with false.
    change (String.eqb "All holdings" "Top 10 holdings") with false.
    change (String.eqb "All holdings" "All holdings") with true.
    cbv iota. apply Z.ltb_lt in Hmany. rewrite Hmany. cbn [andb].
    rewrite Htop. reflexivity. }
  split; [exact Hsel |]. split; [apply Hadd |]. split.
  - intros r Hr Hs.
    assert (Ha : In r (filter (fun r => existsb (label_eqb (out_ticker_adjusted r))
                         (multiselect
                            ("Select additional tickers (optional, only displaying the top "
                               ++ str_of_nat (Z.to_nat MAX_HOLDINGS) ++ " out of "
                               ++ str_of_nat (List.length
                                    (unique label_eqb (map out_ticker_adjusted df_filtered)))
                               ++ " total holdings)")%string
                            (unique label_eqb (map out_ticker_adjusted df_filtered))))
                       df_filtered))
      by (apply Hadd; split; [apply Hincl, Hr | exact Hs]).
    apply in_split in Hr. destruct Hr as (a & b1 & ->).
    apply in_split in Ha. destruct Ha as (b2 & c & ->).
    exists a, (b1 ++ b2), c. rewrite <- !app_assoc. reflexivity.
  - intros Hnil. rewrite Hsel, Hnil. cbn [existsb].
    rewrite filter_none; [rewrite app_nil_r; reflexivity |]. reflexivity.
Qed.

(** ** The row written for a series and a quarter *)

Lemma row_of_pair_origin (records : list Holding) (table : list OutRow)
    (s : string) (q : Z) (r : OutRow) :
  normalize records = Ok table -> In r table -> is_row_of s q r = true ->
  row_origin (working_frame records) s q r.
Proof.
  intros Hn Hr Hkey.
  apply (normalize_In _ _ r Hn) in Hr. destruct Hr as (s' & q' & _ & _ & Ho).
  apply is_row_of_key in Hkey.
  rewrite (row_origin_key _ _ _ _ Ho) in Hkey. injection Hkey as -> ->.
  exact Ho.
Qed.

(** The row written for [(s, q)] is a record of the series when the series
    is observed at [q], and otherwise a row of zeros that has no
    'ticker_adjusted' cell, [s] as its symbol and the option type of a
    record of the series. *)
Lemma gap_fill_row (records : list Holding) (table : list OutRow)
    (s : string) (q : Z) (r : OutRow) :
  normalize records = Ok table -> In r table -> is_row_of s q r = true ->
  (In q (observed_quarters records s) ->
   out_ticker_adjusted r = Some s
   /\ In (record r) records
   /\ series_id (record r) = s)
  /\ (~ In q (observed_quarters records s) ->
      out_ticker_adjusted r = None
      /\ Ticker (record r) = s
      /\ Shares (record r) = 0
      /\ Value (record r) = 0
      /\ Percentage (record r) = 0
      /\ exists first,
           In first records
           /\ series_id first = s
           /\ Option_Type (record r) = Option_Type first
           /\ series_id (record r) = (s ++ option_suffix (Option_Type first))%string).
Proof.
  intros Hn Hr Hkey.
  destruct (row_of_pair_origin _ _ _ _ _ Hn Hr Hkey) as [r0 H0 | a f Hno _ Hf].
  - apply first_at_quarter in H0. destruct H0 as [Hin Hq].
    assert (Hobs : In q (observed_quarters records s)).
    { apply group_quarters. rewrite <- Hq. apply in_map, Hin. }
    apply group_In in Hin. destruct Hin as [Hin Ht].
    apply working_frame_In in Hin. destruct Hin as (h & Hh & ->).
    cbn [row_of ticker_adjusted] in Ht. split.
    + intros _. cbn [to_dict row_of out_ticker_adjusted record holding ticker_adjusted].
      rewrite Ht. auto.
    + intros Hgap. contradiction.
  - split.
    + intros Hobs. apply group_quarters, isin_Z_In in Hobs.
      rewrite Hobs in Hno. discriminate Hno.
    + intros _.
      assert (Hin : In f (group (working_frame records) s))
        by (destruct (group (working_frame records) s); inversion Hf; left; reflexivity).
      apply group_In in Hin. destruct Hin as [Hin Ht].
      apply working_frame_In in Hin. destruct Hin as (h & Hh & ->).
      cbn [row_of ticker_adjusted] in Ht.
      cbn [mk_zero_row out_ticker_adjusted record Ticker Shares Value Percentage
           Option_Type row_of holding].
      repeat (split; [reflexivity |]).
      exists h. repeat split; assumption || reflexivity.
Qed.



(** ** The symbol of a zero row *)

Lemma some_row_of_pair (records : list Holding) (table : list OutRow)
    (s : string) (q lo hi : Z) :
  normalize records = Ok table ->
  col_min (observed_quarters records s) = Some lo ->
  col_max (observed_quarters records s) = Some hi ->
  In q (map period_end records) ->
  lo <= q <= hi ->
  exists r, In r table /\ is_row_of s q r = true.
Proof.
  intros Hn Hlo Hhi Hq Hb.
  destruct (gap_fill_rows records table s q lo hi Hn Hlo Hhi Hq Hb) as [Hone _].
  destruct (filter (is_row_of s q) table) as [|r l] eqn:E; [discriminate Hone |].
  assert (Hr : In r (filter (is_row_of s q) table)) by (rewrite E; left; reflexivity).
  apply filter_In in Hr. exists r. exact Hr.
Qed.

Lemma zero_row_symbol (records : list Holding) (table : list OutRow)
    (zero : OutRow) :
  normalize records = Ok table -> In zero table ->
  out_ticker_adjusted zero = None ->
  Shares (record zero) = 0 /\ Value (record zero) = 0 /\ Percentage (record zero) = 0
  /\ exists first,
       In first records
       /\ Ticker (record zero) = series_id first
       /\ Option_Type (record zero) = Option_Type first.
Proof.
  intros Hn Hz Ez.
  apply (normalize_In _ _ _ Hn) in Hz. destruct Hz as (s & q & _ & _ & Ho).
  destruct (zero_row_origin _ _ _ _ Ho Ez) as (a & f & -> & Hf).
  apply group_In in Hf. destruct Hf as [Hf Ht].
  apply working_frame_In in Hf. destruct Hf as (h & Hh & ->).
  cbn [row_of ticker_adjusted] in Ht.
  repeat (split; [reflexivity |]).
  exists h. split; [exact Hh |]. split; [symmetry; exact Ht | reflexivity].
Qed.

Lemma hd_error_filter_keeps {A : Type} (f : A -> bool) (l : list A) (x : A) :
  hd_error l = Some x -> f x = true -> hd_error (filter f l) = Some x.
Proof.
  destruct l as [|y l]; [discriminate |].
  intros H Hx. injection H as ->. cbn [filter]. rewrite Hx. reflexivity.
Qed.

(** The record whose cells a zero row copies is itself a row of the table. *)
Lemma zero_row_first_kept (records : list Holding) (table : list OutRow)
    (zero : OutRow) :
  normalize records = Ok table -> In zero table ->
  out_ticker_adjusted zero = None ->
  exists first,
    In first records
    /\ In (to_dict (row_of first)) table
    /\ Ticker (record zero) = series_id first
    /\ Option_Type (record zero) = Option_Type first.
Proof.
  intros Hn Hz Ez.
  apply (normalize_In _ _ _ Hn) in Hz. destruct Hz as (s & q & _ & _ & Ho).
  destruct Ho as [r0 H0 | a f _ _ Hf]; [discriminate Ez |].
  assert (Hin : In f (group (working_frame records) s))
    by (destruct (group (working_frame records) s); inversion Hf; left; reflexivity).
  apply group_In in Hin. destruct Hin as [Hin Ht].
  apply working_frame_In in Hin. destruct Hin as (h & Hh & ->).
  cbn [row_of ticker_adjusted] in Ht.
  exists h. split; [exact Hh |]. split.
  - apply (normalize_In _ _ _ Hn). exists s, (period_end h).
    destruct (record_in_span records h Hh) as [Hs Hq]. rewrite Ht in Hs, Hq.
    split; [exact Hs |]. split; [exact Hq |].
    apply origin_existing.
    apply hd_error_filter_keeps; [exact Hf | apply Z.eqb_refl].
  - split; [symmetry; exact Ht | reflexivity].
Qed.

Lemma kept_row_symbol (records : list Holding) (table : list OutRow)
    (kept : OutRow) (s : string) :
  normalize records = Ok table -> In kept table ->
  out_ticker_adjusted kept = Some s ->
  In (record kept) records
  /\ s = (Ticker (record kept) ++ option_suffix (Option_Type (record kept)))%string.
Proof.
  intros Hn Hk Ek.
  apply (normalize_In _ _ _ Hn) in Hk. destruct Hk as (s2 & q2 & _ & _ & Hk).
  destruct (existing_row_origin _ _ _ _ _ Hk Ek) as (r0 & -> & Hr0 & _ & ->).
  apply group_In in Hr0. destruct Hr0 as [Hr0 Ht].
  apply working_frame_In in Hr0. destruct Hr0 as (h & Hh & ->).
  cbn [row_of ticker_adjusted] in Ht.
  split; [exact Hh | symmetry; exact Ht].
Qed.

(** C10.  In a normalized table, every zero row (a row that has no
    'ticker_adjusted' cell) has zero amounts, and its 'Ticker' cell holds
    the label of kept rows of the table: there is such a kept row, and each
    of them is a record of the input, unchanged, whose symbol followed by
    its option suffix is the 'Ticker' of the zero row.  So the two symbols
    differ when the kept row is an option position.  Where a series [s] is
    not observed at a quarter of the axis inside its lifespan, the table has
    such a zero row, with the symbol [s].  And there are inputs whose table
    has a zero row and a kept row of one series with different symbols. *)
Theorem zero_row_symbol_is_series_id :
  (forall (records : list Holding) (table : list OutRow) (zero : OutRow),
      normalize records = Ok table ->
      In zero table ->
      out_ticker_adjusted zero = None ->
      Shares (record zero) = 0
      /\ Value (record zero) = 0
      /\ Percentage (record zero) = 0
      /\ (exists kept,
             In kept table
             /\ out_ticker_adjusted kept = Some (Ticker (record zero))
             /\ Option_Type (record kept) = Option_Type (record zero))
      /\ (forall kept,
             In kept table ->
             out_ticker_adjusted kept = Some (Ticker (record zero)) ->
             In (record kept) records
             /\ Ticker (record zero)
                = (Ticker (record kept)
                     ++ option_suffix (Option_Type (record kept)))%string
             /\ (Option_Type (record kept) <> NoOption ->
                 Ticker (record zero) <> Ticker (record kept))))
  /\ (forall (records : list Holding) (table : list OutRow) (s : string)
             (q lo hi : Z),
         normalize records = Ok table ->
         col_min (observed_quarters records s) = Some lo ->
         col_max (observed_quarters records s) = Some hi ->
         In q (map period_end records) ->
         lo <= q <= hi ->
         ~ In q (observed_quarters records s) ->
         exists zero,
           In zero table
           /\ out_ticker_adjusted zero = None
           /\ out_quarter_end zero = q
           /\ Ticker (record zero) = s)
  /\ (exists (records : list Holding) (table : list OutRow) (zero kept : OutRow),
         normalize records = Ok table
         /\ In zero table /\ In kept table
         /\ out_ticker_adjusted zero = None
         /\ out_ticker_adjusted kept = Some (Ticker (record zero))
         /\ Ticker (record zero) <> Ticker (record kept)).
Proof.
  split; [| split].
  - intros records table zero Hn Hz Ez.
    destruct (zero_row_symbol _ _ _ Hn Hz Ez) as (H1 & H2 & H3 & first & Hf & Et & Eo).
    split; [exact H1 |]. split; [exact H2 |]. split; [exact H3 |]. split.
    + destruct (zero_row_first_kept _ _ _ Hn Hz Ez) as (h & _ & Hin & Eh & Eoh).
      exists (to_dict (row_of h)). split; [exact Hin |].
      cbn [to_dict row_of out_ticker_adjusted ticker_adjusted record holding].
      rewrite Eh, Eoh. split; reflexivity.
    + intros kept Hk Ek.
      destruct (kept_row_symbol _ _ _ _ Hn Hk Ek) as [Hin E].
      split; [exact Hin |]. split; [exact E |].
      intros Hopt E'. rewrite E' in E. symmetry in E. apply append_self_inv in E.
      destruct (Option_Type (record kept)); [congruence | discriminate | discriminate].
  - intros records table s q lo hi Hn Hlo Hhi Hq Hb Hgap.
    destruct (some_row_of_pair _ _ _ _ _ _ Hn Hlo Hhi Hq Hb) as (r & Hr & Hkey).
    destruct (proj2 (gap_fill_row _ _ _ _ _ Hn Hr Hkey) Hgap) as (E1 & E2 & _).
    exists r. split; [exact Hr |]. split; [exact E1 |]. split; [| exact E2].
    unfold is_row_of in Hkey. apply andb_true_iff in Hkey.
    apply Z.eqb_eq, Hkey.
  - exists option_gap_records, option_gap_table, option_gap_zero_row,
           (kept_row (example_holding Q1 "XYZ" 2 Put)).
    split; [vm_compute; reflexivity |].
    split; [simpl; auto |].
    split; [simpl; auto |].
    split; [reflexivity |].
    split; [reflexivity | discriminate].
Qed.

(** ** Instances and counterexamples *)

(** BBB, seen in Q1 only, has no row in Q2. *)
Lemma no_extrapolation_witness :
  normalize lifespan_records = Ok lifespan_table
  /\ col_min (observed_quarters lifespan_records "BBB") = Some end_Q1
  /\ col_max (observed_quarters lifespan_records "BBB") = Some end_Q1
  /\ exists table,
       normalize lifespan_records = Ok table
       /\ forall r, In r table -> out_series r = "BBB"%string ->
                    ~ (out_quarter_end r < end_Q1 \/ out_quarter_end r > end_Q1).
Proof.
  assert (H1 : normalize lifespan_records = Ok lifespan_table)
    by (vm_compute; reflexivity).
  assert (H2 : col_min (observed_quarters lifespan_records "BBB") = Some end_Q1)
    by (vm_compute; reflexivity).
  assert (H3 : col_max (observed_quarters lifespan_records "BBB") = Some end_Q1)
    by (vm_compute; reflexivity).
  exact (conj H1 (conj H2 (conj H3
    (no_extrapolation lifespan_records "BBB" end_Q1 end_Q1 H2 H3)))).
Defined.

(** C3 as stated fails: in the table of the put on AAPL and of AAPL the row
    of 'AAPL (put)' comes before the row of 'AAPL'. *)
Lemma sorted_by_series_counterexample :
  normalize pair_records = Ok pair_table
  /\ ~ Sorted (fun a b => series_quarter_le a b = true) pair_table.
Proof.
  split; [vm_compute; reflexivity |].
  intros H.
  apply Sorted_inv in H. destruct H as [_ H].
  apply HdRel_inv in H. vm_compute in H. discriminate H.
Qed.

(** The same table is in the order of ('Ticker', quarter). *)
Lemma table_sorted_witness :
  pair_records <> []
  /\ normalize pair_records = Ok pair_table
  /\ exists table,
       normalize pair_records = Ok table
       /\ StronglySorted ticker_quarter_order table.
Proof.
  assert (H1 : pair_records <> []) by discriminate.
  assert (H2 : normalize pair_records = Ok pair_table) by (vm_compute; reflexivity).
  exact (conj H1 (conj H2 (table_sorted_by_ticker_quarter pair_records H1))).
Defined.

(** C2 as stated fails: normalizing again adds a row to the table of the put on
    XYZ, and changes a cell of the table of CCC. *)
Lemma renormalize_counterexample :
  normalize option_gap_records = Ok option_gap_table
  /\ normalize (rows option_gap_table) <> Ok option_gap_table
  /\ normalize gap_records = Ok gap_table
  /\ normalize (rows gap_table) <> Ok gap_table.
Proof.
  split; [vm_compute; reflexivity |].
  split; [intros H; vm_compute in H; discriminate H |].
  split; [vm_compute; reflexivity |].
  intros H; vm_compute in H; discriminate H.
Qed.

(** The table of CCC and DDD, normalized again, has its labels filled in. *)
Lemma renormalize_witness :
  no_options gap_records
  /\ gap_records <> []
  /\ normalize gap_records = Ok gap_table
  /\ exists table,
       normalize gap_records = Ok table
       /\ normalize (rows table) = Ok (map relabel table)
       /\ normalize (rows (map relabel table)) = Ok (map relabel table).
Proof.
  assert (H1 : no_options gap_records) by (repeat constructor).
  assert (H2 : gap_records <> []) by discriminate.
  assert (H3 : normalize gap_records = Ok gap_table) by (vm_compute; reflexivity).
  exact (conj H1 (conj H2 (conj H3 (renormalize_fills_labels gap_records H1 H2)))).
Defined.

(** C5 as stated fails: with [k = -1] a row is selected, with [k = 0] none. *)
Lemma negative_k_counterexample :
  normalize two_records = Ok two_table
  /\ outcome (filter_top_k_holdings 0) two_table = Ok []
  /\ outcome (filter_top_k_holdings (-1)) two_table
     = Ok [kept_row (example_holding Q1 "AAA" 60 NoOption)].
Proof.
  repeat split; vm_compute; reflexivity.
Qed.

(** C6 as stated fails: a start date after the end date raises nothing. *)
Lemma reversed_window_counterexample :
  normalize gap_records = Ok gap_table
  /\ reversed_dates "End date" (col_max (map out_quarter_end gap_table))
  < reversed_dates "Start date" (col_min (map out_quarter_end gap_table))
  /\ outcome (filter_date_range reversed_dates "Custom") gap_table = Ok []
  /\ ~ raises (outcome (filter_date_range reversed_dates "Custom") gap_table).
Proof.
  split; [vm_compute; reflexivity |].
  split; [vm_compute; reflexivity |].
  split; [vm_compute; reflexivity |].
  intros [e H]. vm_compute in H. discriminate H.
Qed.

(** The window from 2023-12-31 to 2023-01-01 selects no row. *)
Lemma custom_window_witness :
  is_preset "Custom" = false
  /\ reversed_dates "End date" (col_max (map out_quarter_end gap_table))
     < reversed_dates "Start date" (col_min (map out_quarter_end gap_table))
  /\ outcome (filter_date_range reversed_dates "Custom") gap_table = Ok [].
Proof.
  assert (H1 : is_preset "Custom" = false) by reflexivity.
  assert (H2 : reversed_dates "End date" (col_max (map out_quarter_end gap_table))
               < reversed_dates "Start date" (col_min (map out_quarter_end gap_table)))
    by (vm_compute; reflexivity).
  exact (conj H1 (conj H2
    (custom_window_start_after_end reversed_dates "Custom" gap_table H1 H2))).
Defined.

(** C7 as stated fails: five symbols at the end date, all percentages distinct,
    and four symbols selected. *)
Lemma top_five_counterexample :
  normalize six_records = Ok six_table
  /\ NoDup (map (fun r => Percentage (record r)) (rows_at_max_date six_table))
  /\ outcome (filter_top_k_holdings 5) six_table = Ok six_selected
  /\ List.length (distinct_symbols six_selected) = 4%nat
  /\ Nat.min 5 (List.length (distinct_symbols (rows_at_max_date six_table))) = 5%nat.
Proof.
  split; [vm_compute; reflexivity |].
  split.
  - vm_compute. repeat constructor; simpl; intuition discriminate.
  - repeat split; vm_compute; reflexivity.
Qed.

(** C9 as stated fails: the frame given to [preprocess_filings_df] and the frame
    given to [make_graph] are not the same after the call.  The frame of a row
    with a value of 5 has the value 5000 after the call; the frame of a row
    with a value of 0 has a datetime where it had a text. *)
Lemma stage_inputs_counterexample :
  object_after preprocess_filings_df [raw_example] <> [raw_example]
  /\ map raw_Value_000 (object_after preprocess_filings_df [raw_example]) = [5000]
  /\ object_after preprocess_filings_df [raw_no_value] <> [raw_no_value]
  /\ map raw_Date_Filed [raw_no_value] = [DateText 2023 5 15]
  /\ map raw_Date_Filed (object_after preprocess_filings_df [raw_no_value])
     = [Timestamp (datetime 2023 5 15)]
  /\ normalize gap_records = Ok gap_table
  /\ object_after (make_graph "Value") gap_table <> gap_table.
Proof.
  split; [intros H; vm_compute in H; discriminate H |].
  split; [vm_compute; reflexivity |].
  split; [intros H; vm_compute in H; discriminate H |].
  split; [reflexivity |].
  split; [reflexivity |].
  split; [vm_compute; reflexivity |].
  intros H; vm_compute in H; discriminate H.
Qed.



(** The zero row of the put on XYZ has the symbol 'XYZ (put)', the kept rows 'XYZ'. *)
Lemma zero_row_symbol_witness :
  normalize option_gap_records = Ok option_gap_table
  /\ In option_gap_zero_row option_gap_table
  /\ out_ticker_adjusted option_gap_zero_row = None
  /\ In (kept_row (example_holding Q1 "XYZ" 2 Put)) option_gap_table
  /\ In (record (kept_row (example_holding Q1 "XYZ" 2 Put))) option_gap_records
  /\ Ticker (record option_gap_zero_row) = "XYZ (put)"%string
  /\ Ticker (record (kept_row (example_holding Q1 "XYZ" 2 Put))) = "XYZ"%string
  /\ Ticker (record option_gap_zero_row)
     <> Ticker (record (kept_row (example_holding Q1 "XYZ" 2 Put))).
Proof.
  assert (H1 : normalize option_gap_records = Ok option_gap_table)
    by (vm_compute; reflexivity).
  assert (H2 : In option_gap_zero_row option_gap_table)
    by (right; right; right; left; reflexivity).
  assert (H3 : In (kept_row (example_holding Q1 "XYZ" 2 Put)) option_gap_table)
    by (right; left; reflexivity).
  destruct (proj1 zero_row_symbol_is_series_id option_gap_records option_gap_table
              option_gap_zero_row H1 H2 eq_refl)
    as (_ & _ & _ & _ & Hkept).
  destruct (Hkept (kept_row (example_holding Q1 "XYZ" 2 Put)) H3 eq_refl)
    as (K1 & _ & K2).
  refine (conj H1 (conj H2 (conj eq_refl (conj H3 (conj K1
            (conj eq_refl (conj eq_refl (K2 _)))))))).
  discriminate.
Defined.

(** ** Instances of the further properties *)

Lemma Ok_injective {A : Type} (a b : A) : Ok a = Ok b -> a = b.
Proof. intros H. injection H as H. exact H. Qed.

(** March 2023 is more than 365 days before March 2024. *)
Lemma one_year_window_witness :
  col_max (map out_quarter_end leap_year_table)
  = Some (get_quarter_end {| quarter_no := Q1; quarter_year := 2023 + 1 |})
  /\ In (kept_row (example_holding Q1 "AAA" 60 NoOption)) leap_year_table
  /\ out_quarter_end (kept_row (example_holding Q1 "AAA" 60 NoOption))
     = get_quarter_end {| quarter_no := Q1; quarter_year := 2023 |}
  /\ exists res,
       outcome (filter_date_range reversed_dates "1Y") leap_year_table = Ok res
       /\ (In (kept_row (example_holding Q1 "AAA" 60 NoOption)) res
           <-> is_leap (2023 + 1) = false).
Proof.
  assert (H1 : col_max (map out_quarter_end leap_year_table)
               = Some (get_quarter_end {| quarter_no := Q1; quarter_year := 2023 + 1 |}))
    by (vm_compute; reflexivity).
  assert (H2 : In (kept_row (example_holding Q1 "AAA" 60 NoOption)) leap_year_table)
    by (left; reflexivity).
  assert (H3 : out_quarter_end (kept_row (example_holding Q1 "AAA" 60 NoOption))
               = get_quarter_end {| quarter_no := Q1; quarter_year := 2023 |})
    by reflexivity.
  exact (conj H1 (conj H2 (conj H3
    (one_year_window_and_leap_day reversed_dates leap_year_table Q1 2023
       (kept_row (example_holding Q1 "AAA" 60 NoOption)) H1 H2 H3)))).
Defined.

Lemma presets_keep_last_quarter_witness :
  is_preset "1Y" = true
  /\ gap_table <> []
  /\ exists res,
       outcome (filter_date_range reversed_dates "1Y") gap_table = Ok res
       /\ incl (rows_at_max_date gap_table) res
       /\ res <> []
       /\ col_max (map out_quarter_end res) = col_max (map out_quarter_end gap_table).
Proof.
  assert (H1 : is_preset "1Y" = true) by reflexivity.
  assert (H2 : gap_table <> []) by discriminate.
  exact (conj H1 (conj H2
    (presets_keep_last_quarter reversed_dates "1Y" gap_table H1 H2))).
Defined.

Lemma preset_filter_idempotent_witness :
  is_preset "3Y" = true
  /\ exists res,
       outcome (filter_date_range reversed_dates "3Y") leap_year_table = Ok res
       /\ outcome (filter_date_range reversed_dates "3Y") res = Ok res.
Proof.
  assert (H1 : is_preset "3Y" = true) by reflexivity.
  exact (conj H1 (preset_filter_idempotent reversed_dates "3Y" leap_year_table H1)).
Defined.


(** The zero row of the put on XYZ at Q2, between Q1 and Q3. *)
Lemma zero_rows_inside_witness :
  normalize option_gap_records = Ok option_gap_table
  /\ In option_gap_zero_row option_gap_table
  /\ out_ticker_adjusted option_gap_zero_row = None
  /\ exists lo hi last,
       col_min (observed_quarters option_gap_records (out_series option_gap_zero_row))
       = Some lo
       /\ col_max (observed_quarters option_gap_records (out_series option_gap_zero_row))
          = Some hi
       /\ col_max (map out_quarter_end option_gap_table) = Some last
       /\ lo < out_quarter_end option_gap_zero_row < hi
       /\ out_quarter_end option_gap_zero_row < last.
Proof.
  assert (H1 : normalize option_gap_records = Ok option_gap_table)
    by (vm_compute; reflexivity).
  assert (H2 : In option_gap_zero_row option_gap_table)
    by (right; right; right; left; reflexivity).
  assert (H3 : out_ticker_adjusted option_gap_zero_row = None) by reflexivity.
  exact (conj H1 (conj H2 (conj H3
    (zero_rows_lie_strictly_inside option_gap_records option_gap_table
       option_gap_zero_row H1 H2 H3)))).
Defined.

(** The zero row of CCC at Q2 has the quarter label of DDD's record. *)
Lemma zero_row_copies_witness :
  normalize gap_records = Ok gap_table
  /\ exists first at_quarter,
       In first gap_records /\ In at_quarter gap_records
       /\ Company_Name first = "CCC Corp"%string
       /\ Quarter at_quarter = {| quarter_no := Q2; quarter_year := 2023 |}.
Proof.
  assert (H1 : normalize gap_records = Ok gap_table) by (vm_compute; reflexivity).
  split; [exact H1 |].
  destruct (zero_row_copies_first_record gap_records gap_table
              (mk_zero_row (row_of (example_holding Q2 "DDD" 1 NoOption))
                           (row_of (example_holding Q1 "CCC" 2 NoOption)) "CCC" end_Q2)
              H1 (or_intror (or_introl eq_refl)) eq_refl)
    as (first & at_quarter & K1 & K2 & _ & _ & _ & K3 & _ & _ & _ & _ & K4 & _).
  exists first, at_quarter.
  refine (conj K1 (conj K2 (conj _ _))).
  - symmetry. exact K3.
  - symmetry. exact K4.
Defined.




(** No record has the symbol 'XYZ (put)' of the zero row. *)
Lemma top_k_drops_zero_rows_witness :
  normalize option_gap_records = Ok option_gap_table
  /\ In option_gap_zero_row option_gap_table
  /\ out_ticker_adjusted option_gap_zero_row = None
  /\ (forall h, In h option_gap_records -> Ticker h <> symbol option_gap_zero_row)
  /\ exists res,
       outcome (filter_top_k_holdings 5) option_gap_table = Ok res
       /\ ~ In option_gap_zero_row res.
Proof.
  assert (H1 : normalize option_gap_records = Ok option_gap_table)
    by (vm_compute; reflexivity).
  assert (H2 : In option_gap_zero_row option_gap_table)
    by (right; right; right; left; reflexivity).
  assert (H3 : out_ticker_adjusted option_gap_zero_row = None) by reflexivity.
  assert (H4 : forall h, In h option_gap_records ->
                 Ticker h <> symbol option_gap_zero_row).
  { intros h [<- | [<- | [<- | []]]]; discriminate. }
  exact (conj H1 (conj H2 (conj H3 (conj H4
    (top_k_drops_zero_rows_with_foreign_symbol option_gap_records option_gap_table
       option_gap_zero_row 5 H1 H2 H3 H4))))).
Defined.

Lemma traces_split_rows_witness :
  y_axis_mapping "Number of shares" = Ok Shares
  /\ exists fig,
       outcome (make_graph "Number of shares") option_gap_table = Ok fig
       /\ NoDup (map trace_name (fig_traces fig))
       /\ (forall t, In t (fig_traces fig) ->
             trace_points t <> []
             /\ trace_points t
                = map (point_of Shares)
                      (filter (fun r => String.eqb (graph_label r) (trace_name t))
                              option_gap_table))
       /\ (forall r, In r option_gap_table ->
             exists t, In t (fig_traces fig) /\ trace_name t = graph_label r)
       /\ Permutation (flat_map trace_points (fig_traces fig))
                      (map (point_of Shares) option_gap_table).
Proof.
  assert (H1 : y_axis_mapping "Number of shares" = Ok Shares) by reflexivity.
  exact (conj H1
    (traces_split_rows_by_label "Number of shares" Shares option_gap_table H1)).
Defined.

Lemma options_are_dashed_witness :
  y_axis_mapping "Value" = Ok Value
  /\ In (kept_row (example_holding Q1 "XYZ" 2 Put)) option_gap_table
  /\ exists fig,
       outcome (make_graph "Value") option_gap_table = Ok fig
       /\ fig_title fig = ("Value" ++ options_note)%string
       /\ exists t, In t (fig_traces fig)
                    /\ trace_name t = "XYZ (put)"%string /\ trace_dashed t = true.
Proof.
  assert (H1 : y_axis_mapping "Value" = Ok Value) by reflexivity.
  assert (H2 : In (kept_row (example_holding Q1 "XYZ" 2 Put)) option_gap_table)
    by (right; left; reflexivity).
  refine (conj H1 (conj H2 _)).
  destruct (options_are_dashed "Value" Value option_gap_table H1)
    as (fig & Hfig & Hopt & Htitle & _).
  destruct (Hopt (kept_row (example_holding Q1 "XYZ" 2 Put)) H2) as (t & Hin & Hn & Hd);
    [discriminate |].
  exists fig. refine (conj Hfig (conj _ _)).
  - apply Htitle. exists t. exact (conj Hin Hd).
  - exists t. exact (conj Hin (conj Hn Hd)).
Defined.

(** The gap of the put on XYZ is drawn as 'XYZ (put) (put)'. *)
Lemma option_gap_drawn_apart_witness :
  normalize option_gap_records = Ok option_gap_table
  /\ y_axis_mapping "Value" = Ok Value
  /\ exists fig t own,
       outcome (make_graph "Value") option_gap_table = Ok fig
       /\ In t (fig_traces fig)
       /\ trace_name t = "XYZ (put) (put)"%string
       /\ In (point_of Value option_gap_zero_row) (trace_points t)
       /\ In own (fig_traces fig)
       /\ trace_name own = "XYZ (put)"%string.
Proof.
  assert (H1 : normalize option_gap_records = Ok option_gap_table)
    by (vm_compute; reflexivity).
  assert (H2 : y_axis_mapping "Value" = Ok Value) by reflexivity.
  refine (conj H1 (conj H2 _)).
  destruct (gap_of_option_series_is_drawn_apart option_gap_records option_gap_table
              "Value" Value H1 H2) as (fig & Hfig & _ & Hzero).
  destruct (Hzero option_gap_zero_row) as (t & own & K1 & K2 & K3 & _ & K4 & K5 & _).
  - right; right; right; left; reflexivity.
  - reflexivity.
  - discriminate.
  - exists fig, t, own. exact (conj Hfig (conj K1 (conj K2 (conj K3 (conj K4 K5))))).
Defined.

(** The position 301 is among the first 300 and is added once more. *)
Lemma additional_selection_witness :
  MAX_HOLDINGS
  < Z.of_nat (List.length (unique label_eqb (map out_ticker_adjusted many_table)))
  /\ exists top a b c,
       outcome (filter_top_k_holdings MAX_HOLDINGS) many_table = Ok top
       /\ select_holdings pick_largest "All holdings" many_table
          = Ok (a ++ kept_row (example_holding Q1 "301" 301 NoOption)
                  :: b ++ kept_row (example_holding Q1 "301" 301 NoOption) :: c).
Proof.
  assert (H1 : MAX_HOLDINGS
               < Z.of_nat (List.length
                   (unique label_eqb (map out_ticker_adjusted many_table))))
    by (vm_compute; reflexivity).
  split; [exact H1 |].
  destruct (additional_selection_repeats_top_rows pick_largest many_table H1)
    as (top & prompt & Htop & Hsel & _ & Htwice & _).
  destruct (Htwice (kept_row (example_holding Q1 "301" 301 NoOption)))
    as (a & b & c & E).
  - pose proof Htop as Et. rewrite top_k_outcome in Et. apply Ok_injective in Et.
    rewrite <- Et. clear Et.
    refine (proj2 (top_k_rows _ _ _) (conj _ _)).
    + unfold many_table. apply in_map_iff. exists 301%nat.
      split; [reflexivity | apply in_seq; lia].
    + refine (proj1 (isin_str_In _ _) _). vm_compute. reflexivity.
  - left. reflexivity.
  - exists top, a, b, c. split; [exact Htop |]. rewrite Hsel, E. reflexivity.
Defined.

Lemma tick_labels_witness :
  dashboard reversed_dates pick_largest "Max" "Value" "All holdings" raw_frame
  = Ok raw_figure
  /\ Forall2 (fun tick text => get_quarter_end text = tick)
             (fig_tickvals raw_figure) (fig_ticktext raw_figure)
  /\ forall t x v, In t (fig_traces raw_figure) -> In (x, v) (trace_points t) ->
                   In x (fig_tickvals raw_figure).
Proof.
  assert (H1 : dashboard reversed_dates pick_largest "Max" "Value" "All holdings"
                 raw_frame = Ok raw_figure)
    by (vm_compute; reflexivity).
  exact (conj H1
    (tick_labels_name_their_quarter reversed_dates pick_largest "Max" "Value"
       "All holdings" raw_frame raw_figure H1)).
Defined.
